(** * AWS Walled Garden: the intercepting mock proxy (src/proxyServer.ts)

    A shallow embedding of the [ProxyServer] class: host classification,
    operation extraction, the per-service mock response generators, the
    locally terminated CONNECT tunnel and the start/stop lifecycle, followed
    by the properties the specification states about them.  The callers
    and callees of the class come after it: the configuration validator
    ([ConfigValidator]), the manager that owns the proxy
    (src/mockManager.ts) and the two handlers of the extension that drive
    them, with the properties their code shows.

    Conventions.
    - A JavaScript string is a [string]: one [ascii] per code unit.  Host
      names, request targets, methods and header values reach the class from
      Node's HTTP parser, which yields one code unit per octet, so this is
      exact for them.  A [Buffer] is a [string] of octets as well.
    - A configuration value (TypeScript [any], obtained from [JSON.parse]) is
      a [value]; objects keep their own properties in insertion order.
    - Reads of the wall clock, the fields of [this], [process.env] and the
      callbacks handed to the runtime are threaded through a [World]. *)

From Stdlib Require Import String Ascii List Bool ZArith NArith Lia.
From Stdlib Require Import DecimalString DecimalZ.
Import ListNotations.

Set Warnings "-register-all".
Local Open Scope list_scope.
Local Open Scope string_scope.

(** ** The string operations of the runtime that the class calls *)

Module Str.

Definition CRLF : string := String "013" (String "010" EmptyString).

(** [String.prototype.includes]. *)
Fixpoint includes (s pat : string) : bool :=
  match s with
  | EmptyString => prefix pat EmptyString
  | String _ s' => prefix pat s || includes s' pat
  end.

(** [/^lit/.test(s)] for a literal [lit]. *)
Definition startsWith (s lit : string) : bool := prefix lit s.

(** [/lit$/.test(s)] for a literal [lit] (no [m] flag: end of input). *)
Fixpoint endsWith (s lit : string) : bool :=
  (s =? lit) ||
  match s with
  | EmptyString => false
  | String _ s' => endsWith s' lit
  end.

(** [String.prototype.split] with a non-empty separator.  [skip] counts the
    code units of a separator occurrence that are still to be dropped and
    [acc] is the segment being built. *)
Fixpoint split_go (sep : string) (skip : nat) (acc s : string) : list string :=
  match s with
  | EmptyString => [acc]
  | String c s' =>
      match skip with
      | S k => split_go sep k acc s'
      | O =>
          if prefix sep s
          then acc :: split_go sep (String.length sep - 1) EmptyString s'
          else split_go sep 0 (acc ++ String c EmptyString) s'
      end
  end.

Definition split (s sep : string) : list string := split_go sep 0 EmptyString s.

(** [Array.prototype.join]. *)
Definition join (sep : string) (l : list string) : string := String.concat sep l.

(** [Array.prototype.pop] as an expression: the last element, if any. *)
Definition pop (l : list string) : option string :=
  match l with
  | [] => None
  | x :: l' => Some (last l' x)
  end.

(** [Buffer.prototype.indexOf] / [String.prototype.indexOf] from offset 0;
    [None] stands for -1. *)
Fixpoint indexOf (s pat : string) : option nat :=
  if prefix pat s then Some 0
  else match s with
       | EmptyString => None
       | String _ s' => option_map S (indexOf s' pat)
       end.

(** [Buffer.concat]. *)
Definition Buffer_concat (l : list string) : string := fold_right append EmptyString l.

(** [slice(0, n)]. *)
Definition slice0 (s : string) (n : nat) : string := substring 0 n s.

(** Decimal rendering of an integer inside a template literal. *)
Definition decimal (z : Z) : string := NilZero.string_of_int (Z.to_int z).

(** [a || b] on strings: the empty string is falsy. *)
Definition orElse (a : option string) (b : string) : string :=
  match a with
  | Some EmptyString | None => b
  | Some s => s
  end.

Definition is_digit (c : ascii) : bool :=
  let n := nat_of_ascii c in (48 <=? n)%nat && (n <=? 57)%nat.

Fixpoint all_digits (s : string) : bool :=
  match s with
  | EmptyString => true
  | String c s' => is_digit c && all_digits s'
  end.

(** Number of octets of the UTF-8 encoding of a string whose code units
    are below 256: one octet below 128, two from 128 on. *)
Fixpoint utf8_length (s : string) : nat :=
  match s with
  | EmptyString => 0
  | String c s' => (if (nat_of_ascii c <? 128)%nat then 1 else 2) + utf8_length s'
  end.

(** The octets of that encoding ([Buffer.from(s)]). *)
Fixpoint utf8_encode (s : string) : list N :=
  match s with
  | EmptyString => []
  | String c s' =>
      let n := N_of_ascii c in
      if (n <? 128)%N then n :: utf8_encode s'
      else N.lor 192 (N.shiftr n 6) :: N.lor 128 (N.land n 63) :: utf8_encode s'
  end.

Definition base64_alphabet : string :=
  "ABCDEFGHIJKLMNOPQRSTUVWXYZabcdefghijklmnopqrstuvwxyz0123456789+/".

Definition base64_char (n : N) : string :=
  match get (N.to_nat n) base64_alphabet with
  | Some c => String c EmptyString
  | None => EmptyString
  end.

(** [buf.toString('base64')]: three octets give four characters, the last
    group is padded with [=]. *)
Fixpoint base64_go (fuel : nat) (l : list N) : string :=
  match fuel with
  | O => EmptyString
  | S fuel' =>
      match l with
      | [] => EmptyString
      | [a] =>
          base64_char (N.shiftr a 2) ++
          base64_char (N.shiftl (N.land a 3) 4) ++ "=="
      | [a; b] =>
          base64_char (N.shiftr a 2) ++
          base64_char (N.lor (N.shiftl (N.land a 3) 4) (N.shiftr b 4)) ++
          base64_char (N.shiftl (N.land b 15) 2) ++ "="
      | a :: b :: c :: l' =>
          base64_char (N.shiftr a 2) ++
          base64_char (N.lor (N.shiftl (N.land a 3) 4) (N.shiftr b 4)) ++
          base64_char (N.lor (N.shiftl (N.land b 15) 2) (N.shiftr c 6)) ++
          base64_char (N.land c 63) ++
          base64_go fuel' l'
      end
  end.

Definition base64 (l : list N) : string := base64_go (S (List.length l)) l.

End Str.

(** ** Values of type [any] *)

Module Js.

(** All but the last are the values [JSON.parse] produces.  [VNative] is a
    function or a prototype object of the runtime, which a read walks
    into through the prototype chain: [callable] tells a function from
    an object, [name] is the member it was found under. *)
Inductive value : Type :=
| VUndefined
| VNull
| VBool (b : bool)
| VNum (n : Z)
| VStr (s : string)
| VArr (items : list value)
| VObj (fields : list (string * value))
| VNative (callable : bool) (name : string).

(** Outcome of an expression that may throw, or of an awaited promise:
    [Pending] is a promise that does not settle. *)
Inductive result (A : Type) : Type :=
| Ok (a : A)
| Throw (err : string)
| Pending.
Arguments Ok {A} a.
Arguments Throw {A} err.
Arguments Pending {A}.

(** ToBoolean. *)
Definition truthy (v : value) : bool :=
  match v with
  | VUndefined | VNull | VBool false | VNum 0%Z | VStr EmptyString => false
  | _ => true
  end.

(** [a || b]. *)
Definition or (a b : value) : value := if truthy a then a else b.

(** The own property [k] of an object with the given fields. *)
Fixpoint own_property (fields : list (string * value)) (k : string) : value :=
  match fields with
  | [] => VUndefined
  | (k', v) :: rest => if k' =? k then v else own_property rest k
  end.

(** A property key that is a canonical array index. *)
Definition array_index (k : string) : option nat :=
  match NilZero.uint_of_string k with
  | Some d =>
      let i := Nat.of_uint d in
      if Str.decimal (Z.of_nat i) =? k then Some i else None
  | None => None
  end.

(** Whether an object has the own property [k]. *)
Fixpoint has_own (fields : list (string * value)) (k : string) : bool :=
  match fields with
  | [] => false
  | (k', _) :: rest => (k' =? k) || has_own rest k
  end.

(** The members of the built-in prototypes (ECMAScript 2023 with its
    Annex B, as in Node 20).  All of them are functions, except
    [__proto__], an accessor that answers with the prototype object, and
    the [length] of an array or a string, which is an own property. *)
Definition Object_prototype : list string :=
  [ "constructor"; "__defineGetter__"; "__defineSetter__"; "hasOwnProperty";
    "__lookupGetter__"; "__lookupSetter__"; "isPrototypeOf"; "propertyIsEnumerable";
    "toString"; "valueOf"; "__proto__"; "toLocaleString" ].

Definition Array_prototype : list string :=
  [ "constructor"; "at"; "concat"; "copyWithin"; "fill"; "find"; "findIndex";
    "findLast"; "findLastIndex"; "lastIndexOf"; "pop"; "push"; "reverse"; "shift";
    "unshift"; "slice"; "sort"; "splice"; "includes"; "indexOf"; "join"; "keys";
    "entries"; "values"; "forEach"; "filter"; "flat"; "flatMap"; "map"; "every";
    "some"; "reduce"; "reduceRight"; "toReversed"; "toSorted"; "toSpliced"; "with";
    "toLocaleString"; "toString" ].

Definition String_prototype : list string :=
  [ "constructor"; "anchor"; "at"; "big"; "blink"; "bold"; "charAt"; "charCodeAt";
    "codePointAt"; "concat"; "endsWith"; "fontcolor"; "fontsize"; "fixed";
    "includes"; "indexOf"; "isWellFormed"; "italics"; "lastIndexOf"; "link";
    "localeCompare"; "match"; "matchAll"; "normalize"; "padEnd"; "padStart";
    "repeat"; "replace"; "replaceAll"; "search"; "slice"; "small"; "split";
    "strike"; "sub"; "substr"; "substring"; "sup"; "startsWith"; "toString";
    "toWellFormed"; "trim"; "trimStart"; "trimLeft"; "trimEnd"; "trimRight";
    "toLocaleLowerCase"; "toLocaleUpperCase"; "toLowerCase"; "toUpperCase";
    "valueOf" ].

Definition Number_prototype : list string :=
  [ "constructor"; "toExponential"; "toFixed"; "toPrecision"; "toString";
    "valueOf"; "toLocaleString" ].

Definition Boolean_prototype : list string :=
  [ "constructor"; "toString"; "valueOf" ].

(** The member [k] found on a prototype chain, [undefined] when no
    prototype of the chain has it. *)
Definition inherited (chain : list (list string)) (k : string) : value :=
  if existsb (existsb (String.eqb k)) chain then
    if k =? "__proto__" then VNative false k else VNative true k
  else VUndefined.

(** [v[k]].  An object answers with its own property [k] when it has one,
    an array or a string with its elements and its [length]; any other
    key is looked up in the prototype chain of the value.  Reading a
    property of [null] or [undefined] throws.  Of a function or a
    prototype object the program reads only the members [objects],
    [metadata] and [content], which none of them has; the model answers
    [undefined] for every key. *)
Definition member (v : value) (k : string) : result value :=
  match v with
  | VUndefined | VNull => Throw "TypeError"
  | VObj fields =>
      Ok (if has_own fields k then own_property fields k
          else inherited [ Object_prototype ] k)
  | VArr items =>
      Ok (match array_index k with
          | Some i => nth i items VUndefined
          | None =>
              if k =? "length" then VNum (Z.of_nat (List.length items))
              else inherited [ Array_prototype; Object_prototype ] k
          end)
  | VStr s =>
      Ok (match array_index k with
          | Some i => match get i s with
                      | Some c => VStr (String c EmptyString)
                      | None => VUndefined
                      end
          | None =>
              if k =? "length" then VNum (Z.of_nat (String.length s))
              else inherited [ String_prototype; Object_prototype ] k
          end)
  | VNum _ => Ok (inherited [ Number_prototype; Object_prototype ] k)
  | VBool _ => Ok (inherited [ Boolean_prototype; Object_prototype ] k)
  | VNative _ _ => Ok VUndefined
  end.

(** [v?.[k]]: short-circuits to [undefined] on [null] and [undefined]. *)
Definition opt_member (v : value) (k : string) : value :=
  match v with
  | VUndefined | VNull => VUndefined
  | _ => match member v k with Ok x => x | _ => VUndefined end
  end.

Definition dquote : string := String (ascii_of_nat 34) EmptyString.

Definition hex_digit (n : nat) : string :=
  match get n "0123456789abcdef" with
  | Some c => String c EmptyString
  | None => EmptyString
  end.

(** The escape of one code unit inside a JSON string literal. *)
Definition escape_char (c : ascii) : string :=
  let n := nat_of_ascii c in
  if (n =? 34)%nat then String "\" dquote
  else if (n =? 92)%nat then "\\"
  else if (n =? 8)%nat then "\b"
  else if (n =? 9)%nat then "\t"
  else if (n =? 10)%nat then "\n"
  else if (n =? 12)%nat then "\f"
  else if (n =? 13)%nat then "\r"
  else if (n <? 32)%nat then "\u00" ++ hex_digit (n / 16) ++ hex_digit (n mod 16)
  else String c EmptyString.

(** A JSON string literal. *)
Fixpoint escape (s : string) : string :=
  match s with
  | EmptyString => EmptyString
  | String c s' => escape_char c ++ escape s'
  end.

Definition quote (s : string) : string := dquote ++ escape s ++ dquote.

(** [JSON.stringify(v)]; [None] is the result [undefined].  An
    [undefined] element of an array is written [null], an [undefined]
    property is left out. *)
Fixpoint stringify (v : value) : option string :=
  match v with
  | VUndefined => None
  | VNull => Some "null"
  | VBool b => Some (if b then "true" else "false")
  | VNum n => Some (Str.decimal n)
  | VStr s => Some (quote s)
  | VArr items =>
      Some ("[" ++
            Str.join ","
              (map (fun x => match stringify x with
                             | Some t => t
                             | None => "null"
                             end) items) ++
            "]")
  | VObj fields =>
      Some ("{" ++
            Str.join ","
              (flat_map (fun kv => match stringify (snd kv) with
                                   | Some t => [quote (fst kv) ++ ":" ++ t]
                                   | None => []
                                   end) fields) ++
            "}")
  | VNative true _ => None
  | VNative false _ => Some "{}"
  end.

(** [JSON.stringify] of an object literal, which is never [undefined]. *)
Definition stringify_object (fields : list (string * value)) : string :=
  match stringify (VObj fields) with
  | Some t => t
  | None => EmptyString
  end.

End Js.

(** ** The runtime around the class: clock, environment, pending callbacks *)

Module Proxy.
Import Str Js.

(** [MockConfig] (src/mockManager.ts). *)
Record MockConfig : Type := {
  version : string;
  services : value
}.

(** [MockResponse]. *)
Record MockResponse : Type := {
  statusCode : Z;
  headers : option (list (string * value));
  body : value
}.

(** What the class reads of an [http.IncomingMessage].  Header names are
    lower-cased by the runtime. *)
Record IncomingMessage : Type := {
  method : option string;
  url : option string;
  req_headers : list (string * string)
}.

(** The fields of a [ProxyServer]; [server] holds the handle of the
    [http.Server] it created. *)
Record ProxyServer : Type := {
  server : option nat;
  port : Z;
  config : option MockConfig
}.

(** A callback the class handed to the runtime and that has not run yet. *)
Inductive Task : Type :=
| CloseCallback.

(** Everything a method can read or change: the object itself ([self]),
    [process.env], the handles of the servers that are listening, the
    handles of the servers that have an open connection (one entry per
    connection), the close callbacks that wait for the connections of
    their server to end, the next free handle, the wall clock as the
    sequence of its readings with the number of readings taken so far, the
    callbacks that are ready to run, and the number of [stop] promises that
    have resolved. *)
Record World : Type := {
  self : ProxyServer;
  env : list (string * string);
  listening : list nat;
  connections : list nat;
  closing : list (nat * Task);
  next_handle : nat;
  clock : nat -> Z;
  reads : nat;
  tasks : list Task;
  resolved : nat
}.

Definition set_self (f : ProxyServer -> ProxyServer) (w : World) : World :=
  {| self := f (self w); env := env w; listening := listening w;
     connections := connections w; closing := closing w;
     next_handle := next_handle w; clock := clock w; reads := reads w;
     tasks := tasks w; resolved := resolved w |}.

Definition set_env (f : list (string * string) -> list (string * string)) (w : World) : World :=
  {| self := self w; env := f (env w); listening := listening w;
     connections := connections w; closing := closing w;
     next_handle := next_handle w; clock := clock w; reads := reads w;
     tasks := tasks w; resolved := resolved w |}.

Definition set_listening (f : list nat -> list nat) (w : World) : World :=
  {| self := self w; env := env w; listening := f (listening w);
     connections := connections w; closing := closing w;
     next_handle := next_handle w; clock := clock w; reads := reads w;
     tasks := tasks w; resolved := resolved w |}.

Definition set_connections (f : list nat -> list nat) (w : World) : World :=
  {| self := self w; env := env w; listening := listening w;
     connections := f (connections w); closing := closing w;
     next_handle := next_handle w; clock := clock w; reads := reads w;
     tasks := tasks w; resolved := resolved w |}.

Definition set_closing (f : list (nat * Task) -> list (nat * Task)) (w : World) : World :=
  {| self := self w; env := env w; listening := listening w;
     connections := connections w; closing := f (closing w);
     next_handle := next_handle w; clock := clock w; reads := reads w;
     tasks := tasks w; resolved := resolved w |}.

Definition set_next_handle (n : nat) (w : World) : World :=
  {| self := self w; env := env w; listening := listening w;
     connections := connections w; closing := closing w;
     next_handle := n; clock := clock w; reads := reads w;
     tasks := tasks w; resolved := resolved w |}.

Definition set_reads (n : nat) (w : World) : World :=
  {| self := self w; env := env w; listening := listening w;
     connections := connections w; closing := closing w;
     next_handle := next_handle w; clock := clock w; reads := n;
     tasks := tasks w; resolved := resolved w |}.

Definition set_tasks (f : list Task -> list Task) (w : World) : World :=
  {| self := self w; env := env w; listening := listening w;
     connections := connections w; closing := closing w;
     next_handle := next_handle w; clock := clock w; reads := reads w;
     tasks := f (tasks w); resolved := resolved w |}.

Definition set_resolved (n : nat) (w : World) : World :=
  {| self := self w; env := env w; listening := listening w;
     connections := connections w; closing := closing w;
     next_handle := next_handle w; clock := clock w; reads := reads w;
     tasks := tasks w; resolved := n |}.

Definition with_server (s : option nat) (p : ProxyServer) : ProxyServer :=
  {| server := s; port := port p; config := config p |}.

Definition with_config (c : option MockConfig) (p : ProxyServer) : ProxyServer :=
  {| server := server p; port := port p; config := c |}.

(** Computations that read or change the world and may throw. *)
Definition M (A : Type) : Type := World -> result A * World.

Definition ret {A : Type} (a : A) : M A := fun w => (Ok a, w).

Definition bind {A B : Type} (m : M A) (k : A -> M B) : M B :=
  fun w =>
    match m w with
    | (Ok a, w') => k a w'
    | (Throw e, w') => (Throw e, w')
    | (Pending, w') => (Pending, w')
    end.

Definition lift {A : Type} (r : result A) : M A := fun w => (r, w).

Definition this : M ProxyServer := fun w => (Ok (self w), w).

(** [Date.now()]: the next reading of the wall clock, in milliseconds. *)
Definition Date_now : M Z := fun w => (Ok (clock w (reads w)), set_reads (S (reads w)) w).

Declare Scope proxy_scope.
Delimit Scope proxy_scope with proxy.
Notation "x <- m ;; k" := (bind m (fun x => k))
  (at level 61, m at next level, right associativity) : proxy_scope.
Local Open Scope proxy_scope.

(** *** [Date.prototype.toUTCString] *)

Definition day_name (d : Z) : string :=
  nth (Z.to_nat d) ["Sun"; "Mon"; "Tue"; "Wed"; "Thu"; "Fri"; "Sat"] EmptyString.

Definition month_name (m : Z) : string :=
  nth (Z.to_nat (m - 1))
    ["Jan"; "Feb"; "Mar"; "Apr"; "May"; "Jun";
     "Jul"; "Aug"; "Sep"; "Oct"; "Nov"; "Dec"] EmptyString.

Definition pad2 (n : Z) : string :=
  if (n <? 10)%Z then "0" ++ decimal n else decimal n.

Definition pad4 (n : Z) : string :=
  if (n <? 10)%Z then "000" ++ decimal n
  else if (n <? 100)%Z then "00" ++ decimal n
  else if (n <? 1000)%Z then "0" ++ decimal n
  else decimal n.

(** Year, month and day of a day number counted from 1970-01-01. *)
Definition civil_from_days (days : Z) : Z * Z * Z :=
  let z := (days + 719468)%Z in
  let era := (z / 146097)%Z in
  let doe := (z - era * 146097)%Z in
  let yoe := ((doe - doe / 1460 + doe / 36524 - doe / 146096) / 365)%Z in
  let doy := (doe - (365 * yoe + yoe / 4 - yoe / 100))%Z in
  let mp := ((5 * doy + 2) / 153)%Z in
  let d := (doy - (153 * mp + 2) / 5 + 1)%Z in
  let m := (if mp <? 10 then mp + 3 else mp - 9)%Z in
  let y := (yoe + era * 400 + (if m <=? 2 then 1 else 0))%Z in
  (y, m, d).

Definition toUTCString (ms : Z) : string :=
  let days := (ms / 86400000)%Z in
  let secs := ((ms mod 86400000) / 1000)%Z in
  let '(y, m, d) := civil_from_days days in
  day_name ((days + 4) mod 7) ++ ", " ++ pad2 d ++ " " ++ month_name m ++ " " ++
  (if (y <? 0)%Z then "-" ++ pad4 (- y) else pad4 y) ++ " " ++
  pad2 (secs / 3600) ++ ":" ++ pad2 ((secs / 60) mod 60) ++ ":" ++ pad2 (secs mod 60) ++
  " GMT".

(** *** Host classification *)

(** The regular expressions of [awsPatterns] are anchored literals. *)
Inductive Pattern : Type :=
| Suffix (lit : string)
| Prefix (lit : string).

Definition test (p : Pattern) (s : string) : bool :=
  match p with
  | Suffix lit => endsWith s lit
  | Prefix lit => startsWith s lit
  end.

Definition awsPatterns : list Pattern :=
  [ Suffix ".amazonaws.com";
    Suffix ".aws.amazon.com";
    Prefix "s3.";
    Prefix "dynamodb.";
    Prefix "lambda.";
    Prefix "sqs.";
    Prefix "sns.";
    Suffix "s3.amazonaws.com";
    Suffix "dynamodb.amazonaws.com";
    Suffix "lambda.amazonaws.com" ].

Definition isAwsRequest (hostname : string) : bool :=
  let cleanHostname := hd EmptyString (split hostname ":") in
  existsb (fun pattern => test pattern cleanHostname) awsPatterns.

Definition identifyService (hostname : string) : option string :=
  if includes hostname "s3" then Some "s3"
  else if includes hostname "dynamodb" then Some "dynamodb"
  else if includes hostname "lambda" then Some "lambda"
  else if includes hostname "sqs" then Some "sqs"
  else if includes hostname "sns" then Some "sns"
  else None.

(** *** Operation extraction *)

Fixpoint header (hs : list (string * string)) (name : string) : option string :=
  match hs with
  | [] => None
  | (n, v) :: rest => if n =? name then Some v else header rest name
  end.

Definition extractOperation (req : IncomingMessage) : string :=
  match header (req_headers req) "x-amz-target" with
  | Some (String c t) =>
      (* [if (target)]: a header that is present and not empty *)
      let target := String c t in
      orElse (pop (split target ".")) "unknown"
  | _ =>
      let method := orElse (method req) "GET" in
      let url := orElse (url req) EmptyString in
      method ++ "_" ++ orElse (nth_error (split url "/") 1) "unknown"
  end.

(** *** The per-service generators *)

Definition is_method (req : IncomingMessage) (m : string) : bool :=
  match method req with
  | Some x => x =? m
  | None => false
  end.

(** [url.split('/').filter(p => p)]. *)
Definition pathParts (url : string) : list string :=
  filter (fun p => negb (p =? EmptyString)) (split url "/").

Definition generateS3Response (operation : string) (serviceConfig : value)
    (req : IncomingMessage) : M MockResponse :=
  let url := orElse (url req) EmptyString in
  let pathParts := pathParts url in
  (* [pathParts[0]] may be [undefined]; like the empty string it is falsy,
     and a falsy bucket is never used as a key *)
  let bucket := orElse (nth_error pathParts 0) EmptyString in
  let key := join "/" (skipn 1 pathParts) in
  let addressed := negb (bucket =? EmptyString) && negb (key =? EmptyString) in
  found <-
    (if is_method req "GET" && addressed then
       buckets <- lift (member serviceConfig "buckets") ;;
       let bucketConfig := opt_member buckets bucket in
       let objectConfig := opt_member (opt_member bucketConfig "objects") key in
       if truthy objectConfig then
         metadata <- lift (member objectConfig "metadata") ;;
         now <- Date_now ;;
         date <- Date_now ;;
         content <- lift (member objectConfig "content") ;;
         ret (Some {| statusCode := 200;
                      headers := Some
                        [ ("Content-Type",
                           or (opt_member metadata "ContentType")
                              (VStr "application/octet-stream"));
                          ("ETag", VStr (dquote ++ decimal now ++ dquote));
                          ("Last-Modified", VStr (toUTCString date)) ];
                      body := content |})
       else ret None
     else ret None) ;;
  match found with
  | Some response => ret response
  | None =>
      if is_method req "PUT" && addressed then
        now <- Date_now ;;
        ret {| statusCode := 200;
               headers := Some [ ("ETag", VStr (dquote ++ decimal now ++ dquote)) ];
               body := VStr EmptyString |}
      else
        ret {| statusCode := 404;
               headers := None;
               body := VObj [ ("error", VStr "Not Found") ] |}
  end.

Definition generateDynamoDBResponse (operation : string) (serviceConfig : value)
    (req : IncomingMessage) : M MockResponse :=
  if includes operation "GetItem" then
    tables <- lift (member serviceConfig "tables") ;;
    ret {| statusCode := 200;
           headers := None;
           body := VObj
             [ ("Item",
                or (opt_member (opt_member (opt_member tables "Users") "items") "0")
                   (VObj [])) ] |}
  else if includes operation "PutItem" then
    ret {| statusCode := 200; headers := None; body := VObj [] |}
  else
    ret {| statusCode := 400;
           headers := None;
           body := VObj [ ("error", VStr "Unsupported operation") ] |}.

Definition extractFunctionName (req : IncomingMessage) : string := "myFunction".

Definition generateLambdaResponse (operation : string) (serviceConfig : value)
    (req : IncomingMessage) : M MockResponse :=
  found <-
    (if includes operation "Invoke" then
       let functionName := extractFunctionName req in
       functions <- lift (member serviceConfig "functions") ;;
       let functionConfig := opt_member functions functionName in
       if truthy (opt_member functionConfig "response") then
         response <- lift (member functionConfig "response") ;;
         ret (Some {| statusCode := 200;
                      headers := Some [ ("Content-Type", VStr "application/json") ];
                      body := response |})
       else ret None
     else ret None) ;;
  match found with
  | Some response => ret response
  | None =>
      ret {| statusCode := 404;
             headers := None;
             body := VObj [ ("error", VStr "Function not found") ] |}
  end.

Definition generateServiceResponse (service operation : string) (serviceConfig : value)
    (req : IncomingMessage) : M MockResponse :=
  if service =? "s3" then generateS3Response operation serviceConfig req
  else if service =? "dynamodb" then generateDynamoDBResponse operation serviceConfig req
  else if service =? "lambda" then generateLambdaResponse operation serviceConfig req
  else
    ret {| statusCode := 501;
           headers := None;
           body := VObj [ ("error", VStr ("Service " ++ service ++ " not implemented")) ] |}.

(** [null] is [None]. *)
Definition generateMockResponse (req : IncomingMessage) (hostname : string)
    : M (option MockResponse) :=
  self <- this ;;
  match config self with
  | None => ret None
  | Some cfg =>
      if negb (truthy (services cfg)) then ret None
      else
        match identifyService hostname with
        | None => ret None
        | Some service =>
            serviceConfig <- lift (member (services cfg) service) ;;
            if negb (truthy serviceConfig) then ret None
            else
              let operation := extractOperation req in
              response <- generateServiceResponse service operation serviceConfig req ;;
              ret (Some response)
        end
  end.

Definition octetStream : value := VStr "application/octet-stream".

(** The header [name] of a response, if it has one. *)
Definition response_header (r : MockResponse) (name : string) : option value :=
  match headers r with
  | Some hs =>
      match find (fun h => fst h =? name) hs with
      | Some h => Some (snd h)
      | None => None
      end
  | None => None
  end.

(** *** The locally terminated tunnel *)

Definition generateMockHttpResponse (self : ProxyServer) (hostname requestLine : string)
    : string :=
  let responseBody :=
    if includes hostname "s3" && includes requestLine "GET" then
      stringify_object [ ("message", VStr "Mock S3 GetObject response") ]
    else if includes hostname "dynamodb" && includes requestLine "POST" then
      stringify_object
        [ ("Item", VObj [ ("id", VObj [ ("S", VStr "user1") ]);
                          ("name", VObj [ ("S", VStr "Mock User") ]) ]) ]
    else if includes hostname "lambda" && includes requestLine "POST" then
      stringify_object
        [ ("Payload",
           VStr (base64 (utf8_encode
             (stringify_object [ ("result", VStr "Mock Lambda response") ])))) ]
    else
      stringify_object [ ("error", VStr "Service not mocked") ] in
  "HTTP/1.1 200 OK" ++ CRLF ++
  "Content-Type: application/x-amz-json-1.0" ++ CRLF ++
  "Content-Length: " ++ decimal (Z.of_nat (String.length responseBody)) ++ CRLF ++ CRLF ++
  responseBody.

(** The client socket and the variables captured by the [data] handler.
    [written] lists the writes to the socket, oldest first; [end_timers]
    counts the scheduled [clientSocket.end()] calls. *)
Record Tunnel : Type := {
  hostname : string;
  buffer : string;
  expectingRequest : bool;
  written : list string;
  end_timers : nat
}.

Definition connectionEstablished : string :=
  "HTTP/1.1 200 Connection Established" ++ CRLF ++ CRLF.

(** [handleHttpsTunnel] up to the registration of the handlers. *)
Definition handleHttpsTunnel (self : ProxyServer) (req_url : option string)
    (head : string) : Tunnel :=
  {| hostname := orElse req_url EmptyString;
     buffer := head;
     expectingRequest := true;
     written := [ connectionEstablished ];
     end_timers := 0 |}.

(** [buffer.indexOf('\r\n\r\n') !== -1]. *)
Definition headerComplete (buffer : string) : bool :=
  match indexOf buffer (CRLF ++ CRLF) with
  | Some _ => true
  | None => false
  end.

(** The request line the handler extracts from a buffer whose header
    terminator is at [headerEnd]. *)
Definition requestLineOf (buffer : string) (headerEnd : nat) : string :=
  let requestStr := slice0 buffer headerEnd in
  let lines := split requestStr CRLF in
  hd EmptyString lines.

(** The [data] handler.  [toString()] decodes the request head as UTF-8:
    ASCII octets decode to themselves and no other octet decodes to an
    ASCII code unit, so the tests the synthesizer makes on the request
    line ([includes] of ASCII literals) give the same answer on the
    octets, which is what [requestStr] holds here. *)
Definition on_data (self : ProxyServer) (t : Tunnel) (chunk : string) : Tunnel :=
  if expectingRequest t then
    let buffer' := Buffer_concat [ buffer t; chunk ] in
    match indexOf buffer' (CRLF ++ CRLF) with
    | Some headerEnd =>
        let requestLine := requestLineOf buffer' headerEnd in
        let mockResponse := generateMockHttpResponse self (hostname t) requestLine in
        {| hostname := hostname t;
           buffer := buffer';
           expectingRequest := false;
           written := (written t ++ [ mockResponse ])%list;
           end_timers := S (end_timers t) |}
    | None =>
        {| hostname := hostname t;
           buffer := buffer';
           expectingRequest := true;
           written := written t;
           end_timers := end_timers t |}
    end
  else t.

(** The handler run on a sequence of [data] events. *)
Definition feed (self : ProxyServer) (t : Tunnel) (chunks : list string) : Tunnel :=
  fold_left (on_data self) chunks t.

(** What has been written after the tunnel was established. *)
Definition responses (t : Tunnel) : list string := skipn 1 (written t).

(** The outcome of a CONNECT. *)
Inductive Connect : Type :=
| Intercepted (t : Tunnel)
| Spliced (target : string).

Definition handleConnect (self : ProxyServer) (req_url : option string) (head : string)
    : Connect :=
  let hostname := orElse req_url EmptyString in
  if isAwsRequest hostname then Intercepted (handleHttpsTunnel self req_url head)
  else Spliced hostname.

(** *** Lifecycle *)

Definition new_ProxyServer : ProxyServer :=
  {| server := None; port := 3128; config := None |}.

Fixpoint env_delete (name : string) (e : list (string * string)) : list (string * string) :=
  match e with
  | [] => []
  | (n, v) :: rest =>
      if n =? name then env_delete name rest else (n, v) :: env_delete name rest
  end.

Definition env_set (name v : string) (e : list (string * string)) : list (string * string) :=
  (name, v) :: env_delete name e.

Definition updateConfig (cfg : MockConfig) : M unit :=
  fun w => (Ok tt, set_self (with_config (Some cfg)) w).

(** [start], awaited.  [port_free] tells whether [listen] succeeds; when it
    does not the [error] handler rejects the promise.  The server that
    [http.createServer] returns is a new one: it has no connection. *)
Definition start (cfg : MockConfig) (port_free : bool) : M unit :=
  fun w =>
    let h := next_handle w in
    let w1 :=
      set_next_handle (S h)
        (set_connections (List.remove Nat.eq_dec h)
           (set_self (fun p => with_server (Some h) (with_config (Some cfg) p)) w)) in
    if port_free then
      let proxy := "http://localhost:" ++ decimal (port (self w1)) in
      (Ok tt,
       set_env (fun e => env_set "HTTPS_PROXY" proxy (env_set "HTTP_PROXY" proxy e))
         (set_listening (cons h) w1))
    else (Throw "listen", w1).

(** Whether a connection of server [h] is open. *)
Definition has_connection (h : nat) (w : World) : bool :=
  existsb (Nat.eqb h) (connections w).

(** [server.close(callback)] of the runtime: the server stops listening at
    once; the callback runs when the server emits [close], which it does
    on a later turn when no connection of the server is open (also when
    the server was not listening: the callback is then given an error,
    which the callback of [stop] does not look at), and otherwise only
    after the last of its connections has ended. *)
Definition server_close (h : nat) (callback : Task) : M unit :=
  fun w =>
    let w1 := set_listening (List.remove Nat.eq_dec h) w in
    if has_connection h w
    then (Ok tt, set_closing (fun q => (q ++ [ (h, callback) ])%list) w1)
    else (Ok tt, set_tasks (fun q => (q ++ [ callback ])%list) w1).

(** A client connects to server [h]; a server that is not listening
    accepts nothing. *)
Definition client_connects (h : nat) : M unit :=
  fun w =>
    if existsb (Nat.eqb h) (listening w)
    then (Ok tt, set_connections (cons h) w)
    else (Ok tt, w).

Fixpoint remove_one (h : nat) (l : list nat) : list nat :=
  match l with
  | [] => []
  | x :: l' => if Nat.eqb h x then l' else x :: remove_one h l'
  end.

(** A connection of server [h] ends.  When it was the last one of a server
    that has been closed, the server emits [close] and the callbacks that
    waited for it become ready. *)
Definition connection_ends (h : nat) : M unit :=
  fun w =>
    let w1 := set_connections (remove_one h) w in
    if has_connection h w1 || existsb (Nat.eqb h) (listening w1) then (Ok tt, w1)
    else
      (Ok tt,
       set_closing (filter (fun p => negb (Nat.eqb h (fst p))))
         (set_tasks
            (fun q => (q ++ map snd (filter (fun p => Nat.eqb h (fst p)) (closing w1)))%list)
            w1)).

Definition resolve : M unit :=
  fun w => (Ok tt, set_resolved (S (resolved w)) w).

(** The body of the promise executor of [stop], which runs at the call. *)
Definition stop_call : M unit :=
  self <- this ;;
  match server self with
  | Some h => server_close h CloseCallback
  | None => resolve
  end.

Definition run_task (t : Task) : M unit :=
  match t with
  | CloseCallback =>
      _ <- (fun w =>
              (Ok tt,
               set_env (fun e => env_delete "HTTPS_PROXY" (env_delete "HTTP_PROXY" e)) w)) ;;
      _ <- (fun w => (Ok tt, set_self (with_server None) w)) ;;
      resolve
  end.

Fixpoint run_tasks (ts : list Task) : M unit :=
  match ts with
  | [] => ret tt
  | t :: ts' => _ <- run_task t ;; run_tasks ts'
  end.

(** One turn of the event loop: the pending callbacks run in order. *)
Definition run_loop : M unit :=
  fun w => run_tasks (tasks w) (set_tasks (fun _ => []) w).

(** Whether the promise of a [stop] called now waits for a connection of
    the server to end. *)
Definition awaits_connections (w : World) : bool :=
  match server (self w) with
  | Some h => has_connection h w
  | None => false
  end.

(** [await stop()]: the call and a turn of the event loop.  The promise
    resolves in that turn unless the close callback waits for a
    connection; it is then pending. *)
Definition stop : M unit :=
  fun w =>
    match (_ <- stop_call ;; run_loop) w with
    | (Ok u, w') => (if awaits_connections w then Pending else Ok u, w')
    | other => other
    end.

(** No socket of this server is accepting connections. *)
Definition no_listening_socket (w : World) : Prop := listening w = [].

(** The world right after [new ProxyServer()]. *)
Definition fresh_world (e : list (string * string)) (c : nat -> Z) : World :=
  {| self := new_ProxyServer; env := e; listening := []; connections := [];
     closing := []; next_handle := 0;
     clock := c; reads := 0; tasks := []; resolved := 0 |}.

End Proxy.

(** ** The wire format of a raw response, as the specification words it *)

Module Wire.
Import Str Js.

(** Status line, header lines, a blank line, the body. *)
Definition render (statusLine : string) (hs : list (string * string)) (body : string)
    : string :=
  statusLine ++ CRLF ++
  String.concat EmptyString (map (fun h => fst h ++ ": " ++ snd h ++ CRLF) hs) ++
  CRLF ++ body.

(** What a receiver takes as the body: everything after the first blank
    line. *)
Definition body_of (raw : string) : option string :=
  match indexOf raw (CRLF ++ CRLF) with
  | Some i => Some (substring (i + 4) (String.length raw - (i + 4)) raw)
  | None => None
  end.

Definition jsonContentType : string * string :=
  ("Content-Type", "application/x-amz-json-1.0").

(** The four bodies [generateMockHttpResponse] can produce. *)
Definition s3Body : string :=
  "{" ++ dquote ++ "message" ++ dquote ++ ":" ++
  dquote ++ "Mock S3 GetObject response" ++ dquote ++ "}".

Definition dynamoBody : string :=
  "{" ++ dquote ++ "Item" ++ dquote ++ ":{" ++
  dquote ++ "id" ++ dquote ++ ":{" ++ dquote ++ "S" ++ dquote ++ ":" ++
  dquote ++ "user1" ++ dquote ++ "}," ++
  dquote ++ "name" ++ dquote ++ ":{" ++ dquote ++ "S" ++ dquote ++ ":" ++
  dquote ++ "Mock User" ++ dquote ++ "}}}".

Definition lambdaBody : string :=
  "{" ++ dquote ++ "Payload" ++ dquote ++ ":" ++
  dquote ++ "eyJyZXN1bHQiOiJNb2NrIExhbWJkYSByZXNwb25zZSJ9" ++ dquote ++ "}".

Definition notMockedBody : string :=
  "{" ++ dquote ++ "error" ++ dquote ++ ":" ++
  dquote ++ "Service not mocked" ++ dquote ++ "}".

End Wire.

(** ** Sample inputs *)

Module Sample.
Import Str Js Proxy.

(** A catalog with bucket [b], object [k] of content [X], and one item in
    the table [Users]. *)
Definition objectK : list (string * value) :=
  [ ("content", VStr "X");
    ("metadata", VObj [ ("ContentType", VStr "text/plain") ]) ].

Definition objectsOfB : list (string * value) := [ ("k", VObj objectK) ].

Definition bucketB : list (string * value) := [ ("objects", VObj objectsOfB) ].

Definition buckets : list (string * value) := [ ("b", VObj bucketB) ].

Definition s3Fields : list (string * value) := [ ("buckets", VObj buckets) ].

Definition user1 : value := VObj [ ("id", VObj [ ("S", VStr "user1") ]) ].

Definition dynamoFields : list (string * value) :=
  [ ("tables", VObj [ ("Users", VObj [ ("items", VArr [ user1 ]) ]) ]) ].

Definition serviceFields : list (string * value) :=
  [ ("s3", VObj s3Fields); ("dynamodb", VObj dynamoFields) ].

Definition catalog : MockConfig :=
  {| version := "1.0"; services := VObj serviceFields |}.

(** A clock that advances by one millisecond per reading. *)
Definition ticking (n : nat) : Z := (1700000000000 + Z.of_nat n)%Z.

(** A clock that gives the same millisecond to every reading. *)
Definition frozen (n : nat) : Z := 1700000000000%Z.

(** A started server with the sample catalog. *)
Definition started (c : nat -> Z) : World :=
  snd (start catalog true (fresh_world [] c)).

Definition request (m u : string) : IncomingMessage :=
  {| method := Some m; url := Some u; req_headers := [] |}.

Definition connectTarget : option string := Some "s3.amazonaws.com:443".

(** A request head that arrives in two chunks, followed by a second
    request. *)
Definition chunks : list string :=
  [ "GET /b/k HTTP/1.1" ++ CRLF;
    "Host: s3.amazonaws.com" ++ CRLF ++ CRLF;
    "GET /b/other HTTP/1.1" ++ CRLF ++ CRLF ].

End Sample.

(** ** More of the runtime: types, enumeration, number parsing *)

Module JsExtra.
Import Str Js.

(** [typeof v]. *)
Definition typeof (v : value) : string :=
  match v with
  | VUndefined => "undefined"
  | VNull | VArr _ | VObj _ | VNative false _ => "object"
  | VBool _ => "boolean"
  | VNum _ => "number"
  | VStr _ => "string"
  | VNative true _ => "function"
  end.

Definition is_null (v : value) : bool :=
  match v with
  | VNull => true
  | _ => false
  end.

(** [Array.isArray]. *)
Definition isArray (v : value) : bool :=
  match v with
  | VArr _ => true
  | _ => false
  end.

(** [v.k] where a preceding test has shown [v] to be neither [null] nor
    [undefined], which holds at every read the validator makes; such a read
    cannot throw. *)
Definition prop (v : value) (k : string) : value :=
  match member v k with
  | Ok x => x
  | _ => VUndefined
  end.

(** ToString, as applied to the argument of [RegExp.prototype.test].  An
    object is converted by its [toString] member: the inherited one gives
    [[object Object]]; an own member of that name, which in a parsed
    value is never a function, leaves only [valueOf], which does not give
    a primitive, and the conversion throws.  An array joins the
    conversions of its elements, [null] and [undefined] counting as
    empty.  A number is written with all its digits, as the runtime does
    below 10^21. *)
Fixpoint ToString (v : value) : result string :=
  match v with
  | VUndefined => Ok "undefined"
  | VNull => Ok "null"
  | VBool b => Ok (if b then "true" else "false")
  | VNum n => Ok (decimal n)
  | VStr s => Ok s
  | VArr items =>
      let fix elements (l : list value) : result (list string) :=
        match l with
        | [] => Ok []
        | x :: l' =>
            match match x with
                  | VUndefined | VNull => Ok EmptyString
                  | _ => ToString x
                  end with
            | Ok t =>
                match elements l' with
                | Ok ts => Ok (t :: ts)
                | Throw e => Throw e
                | Pending => Pending
                end
            | Throw e => Throw e
            | Pending => Pending
            end
        end in
      match elements items with
      | Ok ts => Ok (join "," ts)
      | Throw e => Throw e
      | Pending => Pending
      end
  | VObj fields =>
      if has_own fields "toString" then Throw "TypeError" else Ok "[object Object]"
  | VNative true name => Ok ("function " ++ name ++ "() { [native code] }")
  | VNative false _ => Ok "[object Object]"
  end.

Fixpoint indexed {A : Type} (i : nat) (l : list A) : list (string * A) :=
  match l with
  | [] => []
  | x :: l' => (decimal (Z.of_nat i), x) :: indexed (S i) l'
  end.

(** An own property key that is an integer index: such keys are listed
    first, in ascending order. *)
Definition index_key (k : string) : option nat :=
  match array_index k with
  | Some i => if (Z.of_nat i <? 4294967295)%Z then Some i else None
  | None => None
  end.

Fixpoint insert_by_index (i : nat) (kv : string * value)
    (l : list (nat * (string * value))) : list (nat * (string * value)) :=
  match l with
  | [] => [ (i, kv) ]
  | (j, kv') :: l' =>
      if (i <? j)%nat then (i, kv) :: l else (j, kv') :: insert_by_index i kv l'
  end.

Fixpoint index_entries (fields : list (string * value)) : list (nat * (string * value)) :=
  match fields with
  | [] => []
  | kv :: rest =>
      match index_key (fst kv) with
      | Some i => insert_by_index i kv (index_entries rest)
      | None => index_entries rest
      end
  end.

(** The own properties of an object as the runtime enumerates them:
    integer indices in ascending order, then the other keys in the order
    of the text. *)
Definition ordered (fields : list (string * value)) : list (string * value) :=
  (map snd (index_entries fields) ++
   filter (fun kv => match index_key (fst kv) with Some _ => false | None => true end)
     fields)%list.

(** [Object.entries] of a value that is neither [null] nor [undefined]: the
    own properties of an object, the elements of an array or the code
    units of a string under their indices, nothing for a number, a
    boolean or a function. *)
Definition entries (v : value) : list (string * value) :=
  match v with
  | VObj fields => ordered fields
  | VArr items => indexed 0 items
  | VStr s => indexed 0 (map (fun c => VStr (String c EmptyString)) (list_ascii_of_string s))
  | _ => []
  end.

(** [v === undefined]. *)
Definition is_undefined (v : value) : bool :=
  match v with
  | VUndefined => true
  | _ => false
  end.

(** White space that [parseInt] skips, among the code units below 256. *)
Definition is_white (c : ascii) : bool :=
  let n := nat_of_ascii c in
  ((9 <=? n)%nat && (n <=? 13)%nat) || (n =? 32)%nat || (n =? 160)%nat.

Fixpoint trim_start (s : string) : string :=
  match s with
  | EmptyString => EmptyString
  | String c s' => if is_white c then trim_start s' else s
  end.

(** The value of a digit in the given radix, if it is one. *)
Definition digit_of (radix : Z) (c : ascii) : option Z :=
  let n := Z.of_nat (nat_of_ascii c) in
  let d :=
    if (48 <=? n)%Z && (n <=? 57)%Z then Some (n - 48)%Z
    else if (97 <=? n)%Z && (n <=? 122)%Z then Some (n - 87)%Z
    else if (65 <=? n)%Z && (n <=? 90)%Z then Some (n - 55)%Z
    else None in
  match d with
  | Some x => if (x <? radix)%Z then Some x else None
  | None => None
  end.

(** The longest prefix of digits, read in the given radix; [None] when it is
    empty. *)
Fixpoint parse_digits (radix acc : Z) (seen : bool) (s : string) : option Z :=
  match s with
  | EmptyString => if seen then Some acc else None
  | String c s' =>
      match digit_of radix c with
      | Some d => parse_digits radix (acc * radix + d)%Z true s'
      | None => if seen then Some acc else None
      end
  end.

(** A number as [parseInt] gives it. *)
Inductive number : Type :=
| NaN
| Finite (n : Z)
| Infinity (negative : bool).

(** The double nearest to a non-negative integer, ties to the even
    significand; [None] from 2^1024 on, where the double is infinite.
    Below 2^53 every integer is a double. *)
Definition round_double (n : Z) : option Z :=
  if (n <? 2 ^ 53)%Z then Some n
  else
    let shift := (Z.log2 n - 52)%Z in
    let q := Z.shiftr n shift in
    let r := Z.land n (Z.ones shift) in
    let half := Z.shiftl 1 (shift - 1) in
    let q' := if (half <? r)%Z || ((r =? half)%Z && Z.odd q) then (q + 1)%Z else q in
    let m := Z.shiftl q' shift in
    if (m <? 2 ^ 1024)%Z then Some m else None.

(** [parseInt(s)] without a radix: the integer that the longest prefix of
    digits denotes, rounded to a double.  A negative zero is [Finite 0]
    here. *)
Definition parseInt (s : string) : number :=
  let s := trim_start s in
  let signed :=
    match s with
    | String c r =>
        if Ascii.eqb c "-" then (true, r)
        else if Ascii.eqb c "+" then (false, r)
        else (false, s)
    | EmptyString => (false, s)
    end in
  let prefixed :=
    match snd signed with
    | String c0 (String x r) =>
        if Ascii.eqb c0 "0" && (Ascii.eqb x "x" || Ascii.eqb x "X") then (16%Z, r)
        else (10%Z, snd signed)
    | _ => (10%Z, snd signed)
    end in
  match parse_digits (fst prefixed) 0 false (snd prefixed) with
  | None => NaN
  | Some n =>
      match round_double n with
      | Some m => Finite (if fst signed then (- m)%Z else m)
      | None => Infinity (fst signed)
      end
  end.

(** What [parseInt] makes of the integer a text of digits denotes. *)
Definition parsed (o : option Z) : number :=
  match o with
  | None => NaN
  | Some n =>
      match round_double n with
      | Some m => Finite m
      | None => Infinity false
      end
  end.

End JsExtra.

(** ** The configuration validator (ConfigValidator) *)

Module Validator.
Import Str Js JsExtra.

(** [ValidationError].  Every error the validator pushes has severity
    [error] and carries a suggestion. *)
Record ValidationError : Type := {
  message : string;
  path : string;
  severity : string;
  suggestion : option string
}.

Definition error (m p s : string) : ValidationError :=
  {| message := m; path := p; severity := "error"; suggestion := Some s |}.

(** The result of [validate]. *)
Record ValidationResult : Type := {
  valid : bool;
  errors : list ValidationError
}.

Fixpoint skip_digits (s : string) : string :=
  match s with
  | EmptyString => EmptyString
  | String c s' => if is_digit c then skip_digits s' else s
  end.

Definition starts_with_digit (s : string) : bool :=
  match s with
  | EmptyString => false
  | String c _ => is_digit c
  end.

(** [/^\d+\.\d+$/.test(s)]. *)
Definition version_pattern (s : string) : bool :=
  starts_with_digit s &&
  match skip_digits s with
  | String c rest => Ascii.eqb c "." && starts_with_digit rest && all_digits rest
  | EmptyString => false
  end.

Definition SUPPORTED_SERVICES : list string :=
  [ "s3"; "dynamodb"; "lambda"; "sqs"; "sns"; "ec2"; "rds"; "cloudformation";
    "iam"; "sts"; "ssm"; "secretsmanager"; "kms"; "cloudwatch"; "route53";
    "elb"; "autoscaling"; "elasticache"; "redshift"; "athena"; "glue";
    "stepfunctions"; "eventbridge"; "apigateway" ].

(** [Array.prototype.includes] on a list of strings. *)
Definition includes_string (l : list string) (s : string) : bool :=
  existsb (String.eqb s) l.

(** [typeof port !== 'number' || port < 1024 || port > 65535]. *)
Definition bad_port (port : value) : bool :=
  match port with
  | VNum n => (n <? 1024)%Z || (65535 <? n)%Z
  | _ => true
  end.

Definition validateGlobalConfig (global : value) (errors : list ValidationError)
    : list ValidationError :=
  let errors :=
    if negb (is_undefined (prop global "port")) && bad_port (prop global "port")
    then (errors ++
          [ error "Global port must be a number between 1024 and 65535" "global.port"
              "Change port to a value like 3000 or 8080" ])%list
    else errors in
  let errors :=
    if negb (is_undefined (prop global "logLevel")) &&
       negb (match prop global "logLevel" with
             | VStr s => includes_string [ "error"; "warn"; "info"; "debug" ] s
             | _ => false
             end)
    then (errors ++
          [ error "Global logLevel must be one of: error, warn, info, debug" "global.logLevel"
              ("Change logLevel to " ++ dquote ++ "info" ++ dquote ++
               " or one of the valid options") ])%list
    else errors in
  if negb (is_undefined (prop global "delayResponses")) &&
     match prop global "delayResponses" with
     | VNum n => (n <? 0)%Z
     | _ => true
     end
  then (errors ++
        [ error "Global delayResponses must be a non-negative number" "global.delayResponses"
            "Change delayResponses to 0 or a positive number" ])%list
  else errors.

(** [typeof v !== 'object' || v === null]. *)
Definition not_an_object (v : value) : bool :=
  negb (typeof v =? "object") || is_null v.

Definition validateS3Config (serviceName : string) (config : value)
    (errors : list ValidationError) : list ValidationError :=
  if truthy (prop config "buckets") && (typeof (prop config "buckets") =? "object") then
    fold_left
      (fun errors bucket =>
         let bucketName := fst bucket in
         let bucketConfig := snd bucket in
         if not_an_object bucketConfig then
           (errors ++
            [ error ("S3 bucket " ++ bucketName ++ " must be an object")
                ("services." ++ serviceName ++ ".buckets." ++ bucketName)
                ("Change bucket " ++ dquote ++ bucketName ++ dquote ++ " to an object") ])%list
         else if truthy (prop bucketConfig "objects") &&
                 (typeof (prop bucketConfig "objects") =? "object") then
           fold_left
             (fun errors object =>
                let objectKey := fst object in
                let objectConfig := snd object in
                if not_an_object objectConfig then
                  (errors ++
                   [ error ("S3 object " ++ bucketName ++ "/" ++ objectKey ++
                            " must be an object")
                       ("services." ++ serviceName ++ ".buckets." ++ bucketName ++
                        ".objects." ++ objectKey)
                       ("Change object " ++ dquote ++ objectKey ++ dquote ++
                        " to an object with content") ])%list
                else if negb (truthy (prop objectConfig "content")) then
                  (errors ++
                   [ error ("S3 object " ++ bucketName ++ "/" ++ objectKey ++
                            " must have a content property")
                       ("services." ++ serviceName ++ ".buckets." ++ bucketName ++
                        ".objects." ++ objectKey ++ ".content")
                       ("Add " ++ dquote ++ "content" ++ dquote ++ ": " ++ dquote ++
                        "your content here" ++ dquote ++ " to the object") ])%list
                else errors)
             (entries (prop bucketConfig "objects")) errors
         else errors)
      (entries (prop config "buckets")) errors
  else errors.

Definition validateDynamoDBConfig (serviceName : string) (config : value)
    (errors : list ValidationError) : list ValidationError :=
  if truthy (prop config "tables") && (typeof (prop config "tables") =? "object") then
    fold_left
      (fun errors table =>
         let tableName := fst table in
         let tableConfig := snd table in
         if not_an_object tableConfig then
           (errors ++
            [ error ("DynamoDB table " ++ tableName ++ " must be an object")
                ("services." ++ serviceName ++ ".tables." ++ tableName)
                ("Change table " ++ dquote ++ tableName ++ dquote ++ " to an object") ])%list
         else if truthy (prop tableConfig "items") && negb (isArray (prop tableConfig "items"))
         then
           (errors ++
            [ error ("DynamoDB table " ++ tableName ++ ".items must be an array")
                ("services." ++ serviceName ++ ".tables." ++ tableName ++ ".items")
                "Change items to an array of objects" ])%list
         else errors)
      (entries (prop config "tables")) errors
  else errors.

Definition validateLambdaConfig (serviceName : string) (config : value)
    (errors : list ValidationError) : list ValidationError :=
  if truthy (prop config "functions") && (typeof (prop config "functions") =? "object") then
    fold_left
      (fun errors function =>
         let functionName := fst function in
         let functionConfig := snd function in
         if not_an_object functionConfig then
           (errors ++
            [ error ("Lambda function " ++ functionName ++ " must be an object")
                ("services." ++ serviceName ++ ".functions." ++ functionName)
                ("Change function " ++ dquote ++ functionName ++ dquote ++ " to an object") ])%list
         else if truthy (prop functionConfig "response") &&
                 negb (typeof (prop functionConfig "response") =? "object")
         then
           (errors ++
            [ error ("Lambda function " ++ functionName ++ ".response must be an object")
                ("services." ++ serviceName ++ ".functions." ++ functionName ++ ".response")
                "Change response to an object with return value" ])%list
         else errors)
      (entries (prop config "functions")) errors
  else errors.

Definition validateSQSConfig (serviceName : string) (config : value)
    (errors : list ValidationError) : list ValidationError :=
  if truthy (prop config "queues") && (typeof (prop config "queues") =? "object") then
    fold_left
      (fun errors queue =>
         let queueName := fst queue in
         let queueConfig := snd queue in
         if not_an_object queueConfig then
           (errors ++
            [ error ("SQS queue " ++ queueName ++ " must be an object")
                ("services." ++ serviceName ++ ".queues." ++ queueName)
                ("Change queue " ++ dquote ++ queueName ++ dquote ++ " to an object") ])%list
         else errors)
      (entries (prop config "queues")) errors
  else errors.

Definition validateSNSConfig (serviceName : string) (config : value)
    (errors : list ValidationError) : list ValidationError :=
  if truthy (prop config "topics") && (typeof (prop config "topics") =? "object") then
    fold_left
      (fun errors topic =>
         let topicName := fst topic in
         let topicConfig := snd topic in
         if not_an_object topicConfig then
           (errors ++
            [ error ("SNS topic " ++ topicName ++ " must be an object")
                ("services." ++ serviceName ++ ".topics." ++ topicName)
                ("Change topic " ++ dquote ++ topicName ++ dquote ++ " to an object") ])%list
         else errors)
      (entries (prop config "topics")) errors
  else errors.

Definition validateGenericServiceConfig (serviceName : string) (config : value)
    (errors : list ValidationError) : list ValidationError :=
  if negb (is_undefined (prop config "port")) && bad_port (prop config "port")
  then
    (errors ++
     [ error ("Service " ++ serviceName ++ " port must be a number between 1024 and 65535")
         ("services." ++ serviceName ++ ".port")
         "Change port to a value like 3000" ])%list
  else errors.

Definition validateServices (services : value) (errors : list ValidationError)
    : list ValidationError :=
  fold_left
    (fun errors service =>
       let serviceName := fst service in
       let serviceConfig := snd service in
       if negb (includes_string SUPPORTED_SERVICES serviceName) then
         (errors ++
          [ error ("Unsupported service: " ++ serviceName)
              ("services." ++ serviceName)
              ("Use one of: " ++ join ", " SUPPORTED_SERVICES) ])%list
       else if not_an_object serviceConfig then
         (errors ++
          [ error ("Service " ++ serviceName ++ " must be an object")
              ("services." ++ serviceName)
              ("Change " ++ serviceName ++ " to an object with service configuration") ])%list
       else if serviceName =? "s3" then validateS3Config serviceName serviceConfig errors
       else if serviceName =? "dynamodb" then
         validateDynamoDBConfig serviceName serviceConfig errors
       else if serviceName =? "lambda" then validateLambdaConfig serviceName serviceConfig errors
       else if serviceName =? "sqs" then validateSQSConfig serviceName serviceConfig errors
       else if serviceName =? "sns" then validateSNSConfig serviceName serviceConfig errors
       else validateGenericServiceConfig serviceName serviceConfig errors)
    (entries services) errors.

(** [config.version && !/^\d+\.\d+$/.test(config.version)]: the test
    converts its argument to a string, which can throw. *)
Definition version_mismatch (version : value) : result bool :=
  if truthy version then
    match ToString version with
    | Ok s => Ok (negb (version_pattern s))
    | Throw e => Throw e
    | Pending => Pending
    end
  else Ok false.

Definition validate (config : value) : result ValidationResult :=
  if negb (truthy config) || negb (typeof config =? "object") then
    Ok {| valid := false;
          errors :=
            [ error "Configuration must be a valid JSON object" EmptyString
                "Ensure the file contains valid JSON syntax" ] |}
  else
    let errors : list ValidationError := [] in
    let errors :=
      if negb (truthy (prop config "version")) ||
         negb (typeof (prop config "version") =? "string")
      then (errors ++
            [ error ("Configuration must have a " ++ dquote ++ "version" ++ dquote ++ " field")
                "version"
                ("Add " ++ dquote ++ "version" ++ dquote ++ ": " ++ dquote ++ "1.0" ++ dquote ++
                 " to the root of your configuration") ])%list
      else errors in
    let errors :=
      if negb (truthy (prop config "services")) ||
         negb (typeof (prop config "services") =? "object")
      then (errors ++
            [ error ("Configuration must have a " ++ dquote ++ "services" ++ dquote ++ " field")
                "services"
                ("Add " ++ dquote ++ "services" ++ dquote ++
                 ": {} to the root of your configuration") ])%list
      else errors in
    match version_mismatch (prop config "version") with
    | Throw e => Throw e
    | Pending => Pending
    | Ok mismatch =>
        let errors :=
          if mismatch
          then (errors ++
                [ error ("Version must be in format " ++ dquote ++ "x.y" ++ dquote ++
                         " (e.g., " ++ dquote ++ "1.0" ++ dquote ++ ")")
                    "version"
                    ("Change version to " ++ dquote ++ "1.0" ++ dquote ++
                     " or similar format") ])%list
          else errors in
        let errors :=
          if truthy (prop config "services")
          then validateServices (prop config "services") errors
          else errors in
        let errors :=
          if truthy (prop config "global")
          then validateGlobalConfig (prop config "global") errors
          else errors in
        Ok {| valid := (List.length errors =? 0)%nat; errors := errors |}
    end.

(** The errors of a configuration, check by check, given what the test of
    the version text gave. *)
Definition errors_of (config : value) (mismatch : bool) : list ValidationError :=
  ((if negb (truthy (prop config "version")) ||
       negb (typeof (prop config "version") =? "string")
    then [ error ("Configuration must have a " ++ dquote ++ "version" ++ dquote ++ " field")
             "version"
             ("Add " ++ dquote ++ "version" ++ dquote ++ ": " ++ dquote ++ "1.0" ++ dquote ++
              " to the root of your configuration") ]
    else []) ++
   (if negb (truthy (prop config "services")) ||
       negb (typeof (prop config "services") =? "object")
    then [ error ("Configuration must have a " ++ dquote ++ "services" ++ dquote ++ " field")
             "services"
             ("Add " ++ dquote ++ "services" ++ dquote ++
              ": {} to the root of your configuration") ]
    else []) ++
   (if mismatch
    then [ error ("Version must be in format " ++ dquote ++ "x.y" ++ dquote ++
                  " (e.g., " ++ dquote ++ "1.0" ++ dquote ++ ")")
             "version"
             ("Change version to " ++ dquote ++ "1.0" ++ dquote ++ " or similar format") ]
    else []) ++
   (if truthy (prop config "services")
    then validateServices (prop config "services") [] else []) ++
   (if truthy (prop config "global")
    then validateGlobalConfig (prop config "global") [] else []))%list.

(** Whether [validate] returns a result that is valid. *)
Definition accepts (config : value) : bool :=
  match validate config with
  | Ok validation => valid validation
  | _ => false
  end.

Definition getSupportedServices : list string := SUPPORTED_SERVICES.

Definition createTemplate : value :=
  VObj
    [ ("version", VStr "1.0");
      ("services",
       VObj
         [ ("s3",
            VObj [ ("buckets",
                    VObj [ ("my-bucket",
                            VObj [ ("objects",
                                    VObj [ ("example.txt",
                                            VObj [ ("content", VStr "Hello World!");
                                                   ("contentType", VStr "text/plain") ]) ]) ]) ]) ]);
           ("dynamodb",
            VObj [ ("tables",
                    VObj [ ("my-table",
                            VObj [ ("items",
                                    VArr [ VObj [ ("id", VStr "123");
                                                  ("name", VStr "Example Item") ] ]) ]) ]) ]) ]);
      ("global", VObj [ ("port", VNum 3000); ("logLevel", VStr "info") ]) ].

End Validator.

(** ** The rest of the proxy: sending a mock, the target of a splice *)

Module Relay.
Import Str Js JsExtra Proxy.

(** What [sendMockResponse] hands to the response object: the arguments of
    [writeHead] and of [end]. *)
Record Sent : Type := {
  sent_status : Z;
  sent_headers : list (string * value);
  sent_body : value
}.

Definition sendMockResponse (mockResponse : MockResponse) : Sent :=
  {| sent_status := statusCode mockResponse;
     sent_headers :=
       match headers mockResponse with
       | Some hs => hs
       | None => [ ("Content-Type", VStr "application/json") ]
       end;
     sent_body :=
       if typeof (body mockResponse) =? "object" then
         match stringify (body mockResponse) with
         | Some t => VStr t
         | None => VUndefined
         end
       else body mockResponse |}.

(** [process.env[name]]. *)
Definition getenv (e : list (string * string)) (name : string) : option string :=
  header e name.

(** *** The host of a request target

    [url.parse(u).hostname || ''] of the runtime's legacy parser, step by
    step, for a target as the HTTP parser hands it over: without white
    space or control characters.  Outside the model are host names with
    characters beyond ASCII, which the parser converts, and the targets a
    runtime may refuse as invalid. *)

Definition is_upper (c : ascii) : bool :=
  let n := nat_of_ascii c in (65 <=? n)%nat && (n <=? 90)%nat.

Definition is_lower (c : ascii) : bool :=
  let n := nat_of_ascii c in (97 <=? n)%nat && (n <=? 122)%nat.

Definition lower_char (c : ascii) : ascii :=
  if is_upper c then ascii_of_nat (nat_of_ascii c + 32) else c.

Fixpoint toLowerCase (s : string) : string :=
  match s with
  | EmptyString => EmptyString
  | String c r => String (lower_char c) (toLowerCase r)
  end.

Definition protocol_char (c : ascii) : bool :=
  is_upper c || is_lower c || is_digit c ||
  Ascii.eqb c "." || Ascii.eqb c "+" || Ascii.eqb c "-".

(** [protocolPattern = /^[a-z0-9.+-]+:/i]: the protocol, without its
    colon, and what follows it. *)
Fixpoint protocol_go (seen s : string) : option (string * string) :=
  match s with
  | EmptyString => None
  | String c r =>
      if Ascii.eqb c ":" then
        match seen with
        | EmptyString => None
        | _ => Some (seen, r)
        end
      else if protocol_char c then protocol_go (seen ++ String c EmptyString) r
      else None
  end.

Definition protocolOf (s : string) : option (string * string) :=
  protocol_go EmptyString s.

Definition slashedProtocol (proto : string) : bool :=
  existsb (String.eqb proto) [ "http"; "https"; "ftp"; "gopher"; "file"; "ws"; "wss" ].

Definition hostlessProtocol (lowerProto : string) : bool := lowerProto =? "javascript".

(** The longest prefix without [@] and [/], and what follows it. *)
Fixpoint plain_run (s : string) : string * string :=
  match s with
  | EmptyString => (EmptyString, EmptyString)
  | String c r =>
      if Ascii.eqb c "@" || Ascii.eqb c "/" then (EmptyString, s)
      else let (a, b) := plain_run r in (String c a, b)
  end.

(** [hostPattern = /^\/\/[^@/]+@[^@/]+/]. *)
Definition hostPattern (s : string) : bool :=
  match s with
  | String "/" (String "/" r) =>
      match plain_run r with
      | (String _ _, String "@" (String c _)) => negb (Ascii.eqb c "@" || Ascii.eqb c "/")
      | _ => false
      end
  | _ => false
  end.

Definition hostEnding (c : ascii) : bool :=
  Ascii.eqb c "/" || Ascii.eqb c "?" || Ascii.eqb c "#".

(** The characters that are never allowed in a host name. *)
Definition neverInHost (c : ascii) : bool :=
  existsb (Nat.eqb (nat_of_ascii c)) [ 32; 34; 37; 39; 59; 60; 62; 92; 94; 96; 123; 124; 125 ].

(** The scan that ends the host: the index of the last [@] before the
    host ends, and the index at which the host ends, if it does. *)
Fixpoint scan_host (i : nat) (atSign nonHost : option nat) (s : string)
    : option nat * option nat :=
  match s with
  | EmptyString => (atSign, nonHost)
  | String c r =>
      let first := match nonHost with None => Some i | Some _ => nonHost end in
      if hostEnding c then (atSign, first)
      else if neverInHost c then scan_host (S i) atSign first r
      else if Ascii.eqb c "@" then scan_host (S i) (Some i) None r
      else scan_host (S i) atSign nonHost r
  end.

(** [parseHost]: the host without the port that [/:[0-9]*$/] finds. *)
Fixpoint without_port (host : string) : string :=
  match host with
  | EmptyString => EmptyString
  | String c r =>
      if Ascii.eqb c ":" && all_digits r then EmptyString else String c (without_port r)
  end.

(** [getHostname]: the host name is cut at the first character that
    cannot be part of one. *)
Fixpoint valid_part (hostname : string) : string :=
  match hostname with
  | EmptyString => EmptyString
  | String c r =>
      if existsb (Nat.eqb (nat_of_ascii c)) [ 47; 92; 35; 63; 58 ] then EmptyString
      else String c (valid_part r)
  end.

Definition isIpv6Hostname (hostname : string) : bool :=
  startsWith hostname "[" && endsWith hostname "]".

Definition hostname_of (u : string) : string :=
  let parsed :=
    match protocolOf u with
    | Some (proto, rest) => (Some proto, rest)
    | None => (None, u)
    end in
  let proto := fst parsed in
  let rest := snd parsed in
  let lowerProto := match proto with Some p => toLowerCase p | None => EmptyString end in
  let slashes :=
    match proto with
    | Some _ => startsWith rest "//"
    | None => hostPattern rest && startsWith rest "//"
    end in
  let rest :=
    if slashes && negb (hostlessProtocol lowerProto)
    then substring 2 (String.length rest - 2) rest else rest in
  let unslashed := match proto with Some p => negb (slashedProtocol p) | None => false end in
  if negb (hostlessProtocol lowerProto) && (slashes || unslashed) then
    let (atSign, nonHost) := scan_host 0 None None rest in
    let start := match atSign with Some i => S i | None => 0 end in
    let stop := match nonHost with Some i => i | None => String.length rest end in
    let host := substring start (stop - start) rest in
    let hostname := without_port host in
    let hostname := if isIpv6Hostname hostname then hostname else valid_part hostname in
    let hostname :=
      if (255 <? String.length hostname)%nat then EmptyString else toLowerCase hostname in
    if isIpv6Hostname hostname
    then substring 1 (String.length hostname - 2) hostname else hostname
  else EmptyString.

(** *** The plain path

    What became of a plain request: a mock was sent, the request was
    handed to [proxyToRealAws], or the [catch] answered 500. *)
Inductive Handled : Type :=
| Mocked (sent : Sent)
| Relayed
| Failed.

(** [handleRequest], awaited. *)
Definition handleRequest (req : IncomingMessage) : M Handled :=
  fun w =>
    let hostname := hostname_of (orElse (url req) EmptyString) in
    if isAwsRequest hostname then
      match generateMockResponse req hostname w with
      | (Ok (Some mockResponse), w') => (Ok (Mocked (sendMockResponse mockResponse)), w')
      | (Ok None, w') => (Ok Relayed, w')
      | (Throw _, w') => (Ok Failed, w')
      | (Pending, w') => (Pending, w')
      end
    else (Ok Relayed, w).

(** An error answer as the generators build it: no headers of its own and
    an object with the single member [error]. *)
Definition error_answer (r : MockResponse) (msg : string) : Prop :=
  headers r = None /\ body r = VObj [ ("error", VStr msg) ].

(** The options [establishTunnel] hands to [net.createConnection]: the host
    and the port cut out of the CONNECT target.  [net.createConnection]
    checks the port before it connects and throws unless it is an integer
    from 0 to 65535.  The connection itself and the splice of the two
    sockets are the runtime's. *)
Definition establishTunnel (req_url : option string) : result (string * Z) :=
  let hostname := orElse req_url EmptyString in
  let parts := split hostname ":" in
  let host := hd EmptyString parts in
  let port := nth_error parts 1 in
  match parseInt (match port with Some p => p | None => "undefined" end) with
  | NaN => Ok (host, 443%Z)
  | Finite n =>
      if (n =? 0)%Z then Ok (host, 443%Z)
      else if (0 <=? n)%Z && (n <=? 65535)%Z then Ok (host, n)
      else Throw "ERR_SOCKET_BAD_PORT"
  | Infinity _ => Throw "ERR_SOCKET_BAD_PORT"
  end.

End Relay.

(** ** The manager that owns the proxy (src/mockManager.ts) *)

Module Manager.
Import Str Js JsExtra Proxy Validator.

(** The fields of a [MockManager]; its [proxyServer] is the [self] of the
    world. *)
Record MockManager : Type := {
  m_config : option value;
  enabled : bool
}.

(** What [loadConfig] meets at the path of the configuration file: a text
    that [JSON.parse] turns into a value, or one that cannot be read or
    parsed.  [Unlocated] stands for a path that cannot be computed: the
    list of workspace folders is empty or the setting [configFile] is not
    a string. *)
Inductive File : Type :=
| Json (parsed : value)
| Unreadable
| Unlocated.

(** What the manager sees of its surroundings: whether the list of
    workspace folders is defined, what is at the path of the
    configuration file ([None]: no file), whether the file can be
    written, and whether the proxy port can be bound.  Messages to the
    user and to the log are left out; the dialogs that [loadConfig]
    awaits are taken to be answered. *)
Record System : Type := {
  manager : MockManager;
  world : World;
  workspace : bool;
  configFile : option File;
  writable : bool;
  port_free : bool
}.

Definition set_manager (m : MockManager) (s : System) : System :=
  {| manager := m; world := world s; workspace := workspace s;
     configFile := configFile s; writable := writable s; port_free := port_free s |}.

Definition set_world (w : World) (s : System) : System :=
  {| manager := manager s; world := w; workspace := workspace s;
     configFile := configFile s; writable := writable s; port_free := port_free s |}.

Definition set_configFile (f : option File) (s : System) : System :=
  {| manager := manager s; world := world s; workspace := workspace s;
     configFile := f; writable := writable s; port_free := port_free s |}.

(** The parsed configuration seen through the type [MockConfig]. *)
Definition asMockConfig (config : value) : MockConfig :=
  {| version := match prop config "version" with VStr s => s | _ => EmptyString end;
     services := prop config "services" |}.

Definition templateConfig : value :=
  VObj
    [ ("version", VStr "1.0");
      ("services",
       VObj
         [ ("s3",
            VObj [ ("buckets",
                    VObj [ ("example-bucket",
                            VObj [ ("objects",
                                    VObj [ ("test-file.txt",
                                            VObj [ ("content", VStr "Hello, World!");
                                                   ("metadata",
                                                    VObj [ ("ContentType",
                                                            VStr "text/plain") ]) ]) ]) ]) ]) ]);
           ("dynamodb",
            VObj [ ("tables",
                    VObj [ ("Users",
                            VObj [ ("items",
                                    VArr [ VObj [ ("id", VStr "user1");
                                                  ("name", VStr "John Doe");
                                                  ("email", VStr "john@example.com") ] ]) ]) ]) ]) ]) ].

(** [createTemplateConfig]: the template is written when the file can be;
    a failed write is caught. *)
Definition createTemplateConfig (s : System) : System :=
  if writable s then set_configFile (Some (Json templateConfig)) s else s.

(** [loadConfig], awaited.  The path is computed before the [try], so
    that a path that cannot be computed makes the call throw; whatever is
    thrown inside the [try], also by the validator, is caught and
    shown. *)
Definition loadConfig (s : System) : result unit * System :=
  if negb (workspace s) then (Ok tt, s)
  else
    match configFile s with
    | Some Unlocated => (Throw "TypeError", s)
    | Some (Json parsedConfig) =>
        match validate parsedConfig with
        | Ok validation =>
            if negb (valid validation) then (Ok tt, s)
            else
              (Ok tt,
               set_manager {| m_config := Some parsedConfig; enabled := enabled (manager s) |} s)
        | _ => (Ok tt, s)
        end
    | Some Unreadable => (Ok tt, s)
    | None => (Ok tt, createTemplateConfig s)
    end.

(** [startProxy], awaited: a rejected [start] is passed on. *)
Definition startProxy (s : System) : result unit * System :=
  match m_config (manager s) with
  | Some config =>
      let (r, w) := start (asMockConfig config) (port_free s) (world s) in
      (r, set_world w s)
  | None => (Ok tt, s)
  end.

Definition stopProxy (s : System) : result unit * System :=
  let (r, w) := stop (world s) in (r, set_world w s).

Definition enable (s : System) : result unit * System :=
  if enabled (manager s) then (Ok tt, s)
  else
    match loadConfig s with
    | (Ok _, s) =>
        match startProxy s with
        | (Ok _, s) =>
            (Ok tt, set_manager {| m_config := m_config (manager s); enabled := true |} s)
        | (Throw e, s) => (Throw e, s)
        | (Pending, s) => (Pending, s)
        end
    | (Throw e, s) => (Throw e, s)
    | (Pending, s) => (Pending, s)
    end.

Definition disable (s : System) : result unit * System :=
  if negb (enabled (manager s)) then (Ok tt, s)
  else
    match stopProxy s with
    | (Ok _, s) => (Ok tt, set_manager {| m_config := None; enabled := false |} s)
    | (Throw e, s) => (Throw e, s)
    | (Pending, s) => (Pending, s)
    end.

Definition reloadConfig (s : System) : result unit * System :=
  match loadConfig s with
  | (Ok _, s) =>
      match m_config (manager s) with
      | Some config =>
          let (r, w) := updateConfig (asMockConfig config) (world s) in
          (r, set_world w s)
      | None => (Ok tt, s)
      end
  | (Throw e, s) => (Throw e, s)
  | (Pending, s) => (Pending, s)
  end.

Definition isEnabled (s : System) : bool := enabled (manager s).

(** A system right after the extension created its manager. *)
Definition fresh_system (w : World) (ws : bool) (f : option File) (wr pf : bool) : System :=
  {| manager := {| m_config := None; enabled := false |};
     world := w; workspace := ws; configFile := f; writable := wr; port_free := pf |}.

End Manager.

(** ** What the validator accepts, said declaratively *)

Module ValidSpec.
Import Str Js JsExtra Validator.

(** An object, an array or a prototype object: what [typeof] calls an
    object, [null] apart. *)
Definition object_like (v : value) : Prop :=
  (exists fields, v = VObj fields) \/ (exists items, v = VArr items) \/
  (exists name, v = VNative false name).

(** Digits, a dot, digits. *)
Definition version_ok (v : value) : Prop :=
  exists a b,
    v = VStr (a ++ "." ++ b) /\
    a <> EmptyString /\ b <> EmptyString /\
    all_digits a = true /\ all_digits b = true.

(** Absent, or a number from 1024 to 65535. *)
Definition port_ok (p : value) : Prop :=
  p = VUndefined \/ exists n, p = VNum n /\ (1024 <= n <= 65535)%Z.

(** A section that is an object or an array has only entries that pass;
    any other section is not looked into. *)
Definition each_entry (section : value) (ok : value -> Prop) : Prop :=
  object_like section -> forall name e, In (name, e) (entries section) -> ok e.

Definition s3_ok (config : value) : Prop :=
  each_entry (prop config "buckets")
    (fun bucket =>
       object_like bucket /\
       each_entry (prop bucket "objects")
         (fun object => object_like object /\ truthy (prop object "content") = true)).

Definition dynamodb_ok (config : value) : Prop :=
  each_entry (prop config "tables")
    (fun table =>
       object_like table /\
       (truthy (prop table "items") = true -> exists items, prop table "items" = VArr items)).

Definition lambda_ok (config : value) : Prop :=
  each_entry (prop config "functions")
    (fun function =>
       object_like function /\
       (truthy (prop function "response") = true -> object_like (prop function "response"))).

Definition sqs_ok (config : value) : Prop :=
  each_entry (prop config "queues") object_like.

Definition sns_ok (config : value) : Prop :=
  each_entry (prop config "topics") object_like.

Definition service_ok (name : string) (config : value) : Prop :=
  In name SUPPORTED_SERVICES /\
  object_like config /\
  (if name =? "s3" then s3_ok config
   else if name =? "dynamodb" then dynamodb_ok config
   else if name =? "lambda" then lambda_ok config
   else if name =? "sqs" then sqs_ok config
   else if name =? "sns" then sns_ok config
   else port_ok (prop config "port")).

Definition global_ok (global : value) : Prop :=
  port_ok (prop global "port") /\
  (prop global "logLevel" = VUndefined \/
   exists s, prop global "logLevel" = VStr s /\ In s [ "error"; "warn"; "info"; "debug" ]) /\
  (prop global "delayResponses" = VUndefined \/
   exists n, prop global "delayResponses" = VNum n /\ (0 <= n)%Z).

Definition config_ok (config : value) : Prop :=
  object_like config /\
  version_ok (prop config "version") /\
  object_like (prop config "services") /\
  (forall name service,
      In (name, service) (entries (prop config "services")) -> service_ok name service) /\
  (truthy (prop config "global") = true -> global_ok (prop config "global")).

End ValidSpec.

(** ** The callers in the extension (src/extension.ts) *)

Module Extension.
Import Str Js JsExtra Proxy Validator Manager.

(** The handler of the command [awsWalledGarden.toggle] on the manager of
    the extension.  What [enable] or [disable] throws is caught, logged
    and shown; the manager is left as the failed call left it. *)
Definition toggle (s : System) : System :=
  snd (if isEnabled s then disable s else enable s).

Inductive DiagnosticSeverity : Type :=
| Error
| Warning
| Information.

(** What [validateConfigurationFile] puts into a [vscode.Diagnostic]: the
    message, the severity and, when the error carries a suggestion, the
    path and the suggestion of the quick fix.  The range is the first line
    of the document for every diagnostic. *)
Record Diagnostic : Type := {
  d_message : string;
  d_severity : DiagnosticSeverity;
  d_code : option (string * string)
}.

(** An error as every check of the validator pushes it: of severity
    [error], with a suggestion that is not empty. *)
Definition reportable (e : ValidationError) : Prop :=
  severity e = "error" /\ exists c t, suggestion e = Some (String c t).

Definition diagnostic_of (e : ValidationError) : Diagnostic :=
  {| d_message := message e;
     d_severity :=
       if severity e =? "error" then Error
       else if severity e =? "warning" then Warning
       else Information;
     d_code :=
       match suggestion e with
       | Some (String c t) => Some (path e, String c t)
       | _ => None
       end |}.

(** The diagnostic of the [catch] of [validateConfigurationFile]. *)
Definition syntaxDiagnostic : Diagnostic :=
  {| d_message := "Invalid JSON syntax in configuration file";
     d_severity := Error;
     d_code := None |}.

(** The diagnostics that [validateConfigurationFile] sets for a document:
    one per validation error, or the single one of its [catch] when the
    document cannot be opened or parsed or the validator throws. *)
Definition validateConfigurationFile (document : File) : list Diagnostic :=
  match document with
  | Json config =>
      match validate config with
      | Ok validation => map diagnostic_of (errors validation)
      | _ => [ syntaxDiagnostic ]
      end
  | _ => [ syntaxDiagnostic ]
  end.

End Extension.

(** ** More sample inputs *)

Module Sample2.
Import Str Js Proxy.

Definition lambdaResponse : value :=
  VObj [ ("statusCode", VNum 200); ("body", VStr "ok") ].

Definition lambdaFields : list (string * value) :=
  [ ("functions", VObj [ ("myFunction", VObj [ ("response", lambdaResponse) ]) ]) ].

Definition sqsFields : list (string * value) := [ ("queues", VObj []) ].

(** A catalog with a Lambda function and an (empty) SQS section. *)
Definition catalog : MockConfig :=
  {| version := "1.0";
     services := VObj [ ("lambda", VObj lambdaFields); ("sqs", VObj sqsFields) ] |}.

Definition started (c : nat -> Z) : World :=
  snd (start catalog true (fresh_world [] c)).

(** A catalog with one bucket that holds no object. *)
Definition emptyBucket : list (string * value) := [ ("objects", VObj []) ].

Definition emptyBuckets : list (string * value) :=
  [ ("u@s3.amazonaws.com", VObj emptyBucket) ].

Definition emptyCatalog : MockConfig :=
  {| version := "1.0";
     services := VObj [ ("s3", VObj [ ("buckets", VObj emptyBuckets) ]) ] |}.

Definition startedEmpty (c : nat -> Z) : World :=
  snd (start emptyCatalog true (fresh_world [] c)).

End Sample2.

(** * Properties *)

(** ** Facts about the string operations *)

Section StrFacts.
Import Str.

Lemma prefix_empty (s : string) : prefix EmptyString s = true.
Proof. destruct s; reflexivity. Qed.

Lemma prefix_char (c a : ascii) (s : string) :
  prefix (String c EmptyString) (String a s) = Ascii.eqb c a.
Proof.
  simpl. destruct (ascii_dec c a) as [->|Hne].
  - rewrite prefix_empty, Ascii.eqb_refl. reflexivity.
  - symmetry. apply Ascii.eqb_neq. exact Hne.
Qed.

Lemma prefix_append (a b : string) : prefix a (a ++ b) = true.
Proof.
  induction a as [|x a IH]; cbn [append prefix].
  - apply prefix_empty.
  - destruct (ascii_dec x x); [ exact IH | congruence ].
Qed.

Lemma append_assoc (a b c : string) : (a ++ b) ++ c = a ++ (b ++ c).
Proof. induction a as [|x a IH]; simpl; [reflexivity | rewrite IH; reflexivity]. Qed.

Lemma append_empty_r (a : string) : a ++ EmptyString = a.
Proof. induction a as [|x a IH]; simpl; [reflexivity | rewrite IH; reflexivity]. Qed.

Lemma split_go_nonempty (sep : string) (s : string) :
  forall skip acc, split_go sep skip acc s <> [].
Proof.
  induction s as [|c s IH]; intros skip acc; cbn [split_go].
  - discriminate.
  - destruct skip as [|k]; [ | apply IH ].
    destruct (prefix sep (String c s)); [ discriminate | apply IH ].
Qed.

(** Up to the first separator, appending [c ++ p] changes nothing. *)
Lemma split_char_hd_app (c : ascii) (p : string) :
  forall h acc,
    hd EmptyString (split_go (String c EmptyString) 0 acc (h ++ String c p)) =
    hd EmptyString (split_go (String c EmptyString) 0 acc h).
Proof.
  induction h as [|a h IH]; intros acc.
  - cbn [append split_go]. rewrite prefix_char, Ascii.eqb_refl. reflexivity.
  - cbn [append split_go]. rewrite !prefix_char.
    destruct (Ascii.eqb c a); [ reflexivity | apply IH ].
Qed.

(** A string without the separator is a single segment. *)
Lemma split_char_nosep (c : ascii) :
  forall s acc,
    includes s (String c EmptyString) = false ->
    split_go (String c EmptyString) 0 acc s = [acc ++ s].
Proof.
  induction s as [|a s IH]; intros acc H.
  - simpl. rewrite append_empty_r. reflexivity.
  - cbn [includes] in H. apply orb_false_iff in H as [Hp Hi].
    cbn [split_go]. rewrite Hp. rewrite IH by exact Hi.
    rewrite append_assoc. reflexivity.
Qed.

(** The last segment is what follows the last separator. *)
Lemma split_char_last (c : ascii) (seg : string) :
  includes seg (String c EmptyString) = false ->
  forall pre acc d,
    last (split_go (String c EmptyString) 0 acc (pre ++ String c seg)) d = seg.
Proof.
  intros Hseg. induction pre as [|a pre IH]; intros acc d.
  - cbn [append split_go]. rewrite prefix_char, Ascii.eqb_refl.
    cbn [String.length Nat.sub]. rewrite split_char_nosep by exact Hseg.
    reflexivity.
  - cbn [append split_go]. rewrite prefix_char.
    destruct (Ascii.eqb c a).
    + cbn [String.length Nat.sub].
      pose proof (split_go_nonempty (String c EmptyString) (pre ++ String c seg) 0 EmptyString) as Hne.
      destruct (split_go (String c EmptyString) 0 EmptyString (pre ++ String c seg)) as [|x l] eqn:E;
        [ contradiction | ].
      change (last (acc :: x :: l) d) with (last (x :: l) d).
      rewrite <- E. apply IH.
    + apply IH.
Qed.

Lemma pop_last (l : list string) (d : string) :
  l <> [] -> pop l = Some (last l d).
Proof.
  destruct l as [|x l]; [ contradiction | intros _ ].
  unfold pop. f_equal. revert x. induction l as [|y l IH]; intros x; [ reflexivity | ].
  cbn [last]. destruct l; [ reflexivity | apply IH ].
Qed.

(** The segment between the first and the second separator. *)
Lemma split_char_second (c : ascii) (a seg rest : string) :
  includes a (String c EmptyString) = false ->
  includes seg (String c EmptyString) = false ->
  rest = EmptyString \/ (exists r, rest = String c r) ->
  nth_error (split (a ++ String c (seg ++ rest)) (String c EmptyString)) 1 = Some seg.
Proof.
  intros Ha Hseg Hrest. unfold split.
  assert (G : forall acc,
    split_go (String c EmptyString) 0 acc (a ++ String c (seg ++ rest)) =
    (acc ++ a) :: split_go (String c EmptyString) 0 EmptyString (seg ++ rest)).
  { clear Hseg Hrest. induction a as [|x a IH]; intros acc.
    - cbn [append split_go]. rewrite prefix_char, Ascii.eqb_refl.
      rewrite append_empty_r. reflexivity.
    - cbn [includes] in Ha. apply orb_false_iff in Ha as [Hp Hi].
      rewrite prefix_char in Hp.
      cbn [append split_go]. rewrite prefix_char, Hp. rewrite IH by exact Hi.
      rewrite append_assoc. reflexivity. }
  rewrite G. cbn [nth_error].
  assert (K : forall acc,
    hd_error (split_go (String c EmptyString) 0 acc (seg ++ rest)) = Some (acc ++ seg)).
  { clear G Ha. induction seg as [|x seg IH]; intros acc.
    - cbn [append]. rewrite append_empty_r.
      destruct Hrest as [->|[r ->]].
      + reflexivity.
      + cbn [split_go]. rewrite prefix_char, Ascii.eqb_refl. reflexivity.
    - cbn [includes] in Hseg. apply orb_false_iff in Hseg as [Hp Hi].
      rewrite prefix_char in Hp.
      cbn [append split_go]. rewrite prefix_char, Hp. rewrite IH by exact Hi.
      rewrite append_assoc. reflexivity. }
  specialize (K EmptyString).
  destruct (split_go (String c EmptyString) 0 EmptyString (seg ++ rest)); 
    [ discriminate | exact K ].
Qed.

End StrFacts.

(** ** Host classification and the port suffix *)

Section Classification.
Import Str Proxy.

Lemma includes_colon_head (a : ascii) (pat : string) :
  includes (String a pat) ":" = false ->
  Ascii.eqb ":" a = false /\ includes pat ":" = false.
Proof.
  cbn [includes]. intros H. apply orb_false_iff in H as [Hp Hi].
  rewrite prefix_char in Hp. split; assumption.
Qed.

(** A literal without a colon starts [h ++ ":" ++ port] exactly when it
    starts [h]. *)
Lemma prefix_app_colon (port : string) :
  forall pat h,
    includes pat ":" = false ->
    prefix pat (h ++ String ":" port) = prefix pat h.
Proof.
  induction pat as [|a pat IH]; intros h Hpat.
  - rewrite !prefix_empty. reflexivity.
  - apply includes_colon_head in Hpat as [Ha Hpat].
    destruct h as [|b h]; cbn [append prefix].
    + destruct (ascii_dec a ":"%char) as [->|_]; [ | reflexivity ].
      rewrite Ascii.eqb_refl in Ha. discriminate Ha.
    + destruct (ascii_dec a b); [ apply IH; exact Hpat | reflexivity ].
Qed.

(** A literal that starts with a non-digit does not occur in a port. *)
Lemma includes_digits (c0 : ascii) (rest : string) :
  is_digit c0 = false ->
  forall ds, all_digits ds = true -> includes ds (String c0 rest) = false.
Proof.
  intros Hc0. induction ds as [|d ds IH]; intros Hd.
  - reflexivity.
  - cbn [all_digits] in Hd. apply andb_true_iff in Hd as [Hd Hport].
    cbn [includes prefix].
    destruct (ascii_dec c0 d) as [->|_].
    + rewrite Hd in Hc0. discriminate Hc0.
    + apply IH. exact Hport.
Qed.

Lemma includes_app_port (c0 : ascii) (rest port : string) :
  is_digit c0 = false ->
  includes (String c0 rest) ":" = false ->
  all_digits port = true ->
  forall h,
    includes (h ++ String ":" port) (String c0 rest) = includes h (String c0 rest).
Proof.
  intros Hc0 Hpat Hport. induction h as [|b h IH].
  - cbn [append]. cbn [includes].
    pose proof (prefix_app_colon port (String c0 rest) EmptyString Hpat) as E.
    cbn [append] in E. rewrite E.
    rewrite (includes_digits c0 rest Hc0 port Hport). reflexivity.
  - cbn [append includes].
    change (String b (h ++ String ":" port)) with (String b h ++ String ":" port).
    rewrite (prefix_app_colon port (String c0 rest) (String b h) Hpat), IH.
    reflexivity.
Qed.

(** C10.  Appending a [:port] suffix (a colon and decimal digits) to any
    host name changes neither the answer of [isAwsRequest] nor the service
    [identifyService] returns. *)
Theorem port_suffix_classification (hostname port : string) :
  all_digits port = true ->
  isAwsRequest (hostname ++ ":" ++ port) = isAwsRequest hostname /\
  identifyService (hostname ++ ":" ++ port) = identifyService hostname.
Proof.
  intros Hport. change (":" ++ port) with (String ":" port). split.
  - unfold isAwsRequest, split. rewrite split_char_hd_app. reflexivity.
  - unfold identifyService.
    rewrite !(includes_app_port _ _ port) by (reflexivity || exact Hport).
    reflexivity.
Qed.

Lemma port_suffix_classification_witness :
  all_digits "443" = true /\
  isAwsRequest "s3.example.com:443" = isAwsRequest "s3.example.com" /\
  identifyService "s3.example.com:443" = identifyService "s3.example.com".
Proof.
  split; [ reflexivity | ].
  exact (port_suffix_classification "s3.example.com" "443" eq_refl).
Defined.

End Classification.

(** ** Operation extraction *)

Section Operation.
Import Str Proxy.

Lemma extractOperation_target (req : IncomingMessage) (target : string) :
  header (req_headers req) "x-amz-target" = Some target ->
  target <> EmptyString ->
  extractOperation req = orElse (pop (split target ".")) "unknown".
Proof.
  intros H Hne. unfold extractOperation. rewrite H.
  destruct target; [ contradiction | reflexivity ].
Qed.

Lemma extractOperation_fallback (req : IncomingMessage) :
  header (req_headers req) "x-amz-target" = None \/
  header (req_headers req) "x-amz-target" = Some EmptyString ->
  extractOperation req =
  orElse (method req) "GET" ++ "_" ++
  orElse (nth_error (split (orElse (url req) EmptyString) "/") 1) "unknown".
Proof.
  intros [H|H]; unfold extractOperation; rewrite H; reflexivity.
Qed.

Lemma pop_split_last (pre seg : string) :
  includes seg "." = false ->
  pop (split (pre ++ "." ++ seg) ".") = Some seg.
Proof.
  intros Hseg. unfold split. change ("." ++ seg) with (String "." seg).
  rewrite (pop_last _ EmptyString) by apply split_go_nonempty.
  rewrite split_char_last by exact Hseg. reflexivity.
Qed.

(** C8, as stated, fails: the header [x-amz-target: DynamoDB_20120810.] is
    present and its final dot-segment is empty, yet the operation is
    [unknown]. *)
Lemma extractOperation_counterexample :
  ~ (forall (req : IncomingMessage) (pre seg : string),
       header (req_headers req) "x-amz-target" = Some (pre ++ "." ++ seg) ->
       includes seg "." = false ->
       extractOperation req = seg).
Proof.
  intros H.
  specialize (H {| method := Some "POST"; url := Some "/";
                   req_headers := [ ("x-amz-target", "DynamoDB_20120810.") ] |}
                "DynamoDB_20120810" EmptyString eq_refl eq_refl).
  discriminate H.
Qed.

(** C8, amended.  With a non-empty [x-amz-target] header the operation is
    the text after its last dot (the whole value when it has no dot), or
    [unknown] when that text is empty.  With the header absent or empty
    the operation is the method ([GET] when absent or empty), an
    underscore, and the text between the first and the second slash of the
    request target, or [unknown] when that text is empty or the target has
    no slash. *)
Theorem extractOperation_amended (req : IncomingMessage) :
  (forall pre seg,
      header (req_headers req) "x-amz-target" = Some (pre ++ "." ++ seg) ->
      includes seg "." = false ->
      extractOperation req = orElse (Some seg) "unknown") /\
  (forall target,
      header (req_headers req) "x-amz-target" = Some target ->
      target <> EmptyString ->
      includes target "." = false ->
      extractOperation req = target) /\
  (header (req_headers req) "x-amz-target" = None \/
   header (req_headers req) "x-amz-target" = Some EmptyString ->
   (forall a seg rest,
       url req = Some (a ++ "/" ++ seg ++ rest) ->
       includes a "/" = false ->
       includes seg "/" = false ->
       rest = EmptyString \/ (exists r, rest = "/" ++ r) ->
       extractOperation req =
       orElse (method req) "GET" ++ "_" ++ orElse (Some seg) "unknown") /\
   (url req = None \/ (exists u, url req = Some u /\ includes u "/" = false) ->
    extractOperation req = orElse (method req) "GET" ++ "_" ++ "unknown")).
Proof.
  split; [ | split ].
  - intros pre seg H Hseg.
    rewrite (extractOperation_target req _ H).
    + rewrite pop_split_last by exact Hseg. reflexivity.
    + destruct pre; discriminate.
  - intros target H Hne Hdot.
    rewrite (extractOperation_target req _ H Hne).
    unfold split. rewrite split_char_nosep by exact Hdot.
    destruct target; [ contradiction | reflexivity ].
  - intros Hh. rewrite (extractOperation_fallback req Hh). split.
    + intros a seg rest Hu Ha Hseg Hrest. rewrite Hu.
      assert (E : orElse (Some (a ++ "/" ++ seg ++ rest)) EmptyString
                  = a ++ String "/" (seg ++ rest)).
      { destruct a; reflexivity. }
      rewrite E. rewrite split_char_second by assumption. reflexivity.
    + intros [Hu|[u [Hu Hno]]]; rewrite Hu.
      * reflexivity.
      * assert (E : orElse (Some u) EmptyString = u) by (destruct u; reflexivity).
        rewrite E. unfold split. rewrite split_char_nosep by exact Hno.
        reflexivity.
Qed.

Lemma extractOperation_amended_witness :
  extractOperation
    {| method := Some "POST"; url := Some "/";
       req_headers := [ ("x-amz-target", "DynamoDB_20120810.GetItem") ] |} = "GetItem" /\
  extractOperation
    {| method := Some "POST"; url := Some "/";
       req_headers := [ ("x-amz-target", "DynamoDB_20120810.") ] |} = "unknown" /\
  extractOperation
    {| method := Some "GET"; url := Some "/b/k"; req_headers := [] |} = "GET_b" /\
  extractOperation
    {| method := None; url := Some "/"; req_headers := [] |} = "GET_unknown".
Proof.
  split; [ | split; [ | split ] ].
  - exact (proj1 (extractOperation_amended
             {| method := Some "POST"; url := Some "/";
                req_headers := [ ("x-amz-target", "DynamoDB_20120810.GetItem") ] |})
           "DynamoDB_20120810" "GetItem" eq_refl eq_refl).
  - exact (proj1 (extractOperation_amended
             {| method := Some "POST"; url := Some "/";
                req_headers := [ ("x-amz-target", "DynamoDB_20120810.") ] |})
           "DynamoDB_20120810" EmptyString eq_refl eq_refl).
  - exact (proj1 (proj2 (proj2 (extractOperation_amended
             {| method := Some "GET"; url := Some "/b/k"; req_headers := [] |}))
             (or_introl eq_refl))
           EmptyString "b" "/k" eq_refl eq_refl eq_refl
           (or_intror (ex_intro _ "k" eq_refl))).
  - exact (proj1 (proj2 (proj2 (extractOperation_amended
             {| method := None; url := Some "/"; req_headers := [] |}))
             (or_introl eq_refl))
           EmptyString EmptyString EmptyString eq_refl eq_refl eq_refl
           (or_introl eq_refl)).
Defined.

End Operation.

(** ** The response synthesized on an intercepted tunnel *)

Section TunnelResponse.
Import Str Js Proxy Wire.

Lemma generateMockHttpResponse_cases (self : ProxyServer) (hostname requestLine : string) :
  exists body,
    In body [ s3Body; dynamoBody; lambdaBody; notMockedBody ] /\
    generateMockHttpResponse self hostname requestLine =
    Wire.render "HTTP/1.1 200 OK"
      [ jsonContentType; ("Content-Length", decimal (Z.of_nat (String.length body))) ]
      body.
Proof.
  unfold generateMockHttpResponse.
  destruct (includes hostname "s3" && includes requestLine "GET").
  { exists s3Body. split; [ simpl; tauto | vm_compute; reflexivity ]. }
  destruct (includes hostname "dynamodb" && includes requestLine "POST").
  { exists dynamoBody. split; [ simpl; tauto | vm_compute; reflexivity ]. }
  destruct (includes hostname "lambda" && includes requestLine "POST").
  { exists lambdaBody. split; [ simpl; tauto | vm_compute; reflexivity ]. }
  exists notMockedBody. split; [ simpl; tauto | vm_compute; reflexivity ].
Qed.

(** C3.  Whatever the host name and the request line, the raw response has
    the form status line, header lines, blank line, body; the status line
    is [HTTP/1.1 200 OK]; the value of [Content-Length] is the number of
    octets of the body as it is sent (UTF-8), and the body is what follows
    the first blank line. *)
Theorem generateMockHttpResponse_wire (self : ProxyServer) (hostname requestLine : string) :
  exists (hs : list (string * string)) (body : string),
    generateMockHttpResponse self hostname requestLine =
      Wire.render "HTTP/1.1 200 OK" hs body /\
    header hs "Content-Length" = Some (decimal (Z.of_nat (utf8_length body))) /\
    Wire.body_of (generateMockHttpResponse self hostname requestLine) = Some body.
Proof.
  destruct (generateMockHttpResponse_cases self hostname requestLine) as [body [Hin E]].
  exists [ jsonContentType; ("Content-Length", decimal (Z.of_nat (String.length body))) ], body.
  rewrite E. clear E.
  cbn [In] in Hin.
  destruct Hin as [<-|[<-|[<-|[<-|[]]]]];
    (split; [ reflexivity | split; vm_compute; reflexivity ]).
Qed.

(** C4.  The synthesizer does not read the server object, so two servers
    with any two catalogs answer alike, for one response and for a whole
    tunnel; the status line is always [HTTP/1.1 200 OK]; and when none of
    the three mocked combinations applies the answer is still a 200, with
    the body [{"error":"Service not mocked"}]. *)
Theorem tunnel_response_ignores_catalog
    (self1 self2 : ProxyServer) (hostname requestLine : string) :
  generateMockHttpResponse self1 hostname requestLine =
    generateMockHttpResponse self2 hostname requestLine /\
  prefix ("HTTP/1.1 200 OK" ++ CRLF)
    (generateMockHttpResponse self1 hostname requestLine) = true /\
  (includes hostname "s3" && includes requestLine "GET" = false ->
   includes hostname "dynamodb" && includes requestLine "POST" = false ->
   includes hostname "lambda" && includes requestLine "POST" = false ->
   generateMockHttpResponse self1 hostname requestLine =
     Wire.render "HTTP/1.1 200 OK"
       [ jsonContentType; ("Content-Length", "30") ] notMockedBody) /\
  (forall (req_url : option string) (head : string) (chunks : list string),
      match handleConnect self1 req_url head, handleConnect self2 req_url head with
      | Intercepted t1, Intercepted t2 => feed self1 t1 chunks = feed self2 t2 chunks
      | Spliced a, Spliced b => a = b
      | _, _ => False
      end).
Proof.
  split; [ reflexivity | ]. split; [ | split ].
  - destruct (generateMockHttpResponse_cases self1 hostname requestLine) as [body [_ E]].
    rewrite E. unfold Wire.render.
    rewrite <- (append_assoc "HTTP/1.1 200 OK" CRLF). apply prefix_append.
  - intros H1 H2 H3. unfold generateMockHttpResponse.
    rewrite H1, H2, H3. vm_compute. reflexivity.
  - intros req_url head chunks. unfold handleConnect.
    destruct (isAwsRequest (orElse req_url EmptyString)); reflexivity.
Qed.

Lemma tunnel_response_ignores_catalog_witness :
  generateMockHttpResponse new_ProxyServer "sqs.us-east-1.amazonaws.com:443"
    "POST / HTTP/1.1" =
  Wire.render "HTTP/1.1 200 OK"
    [ jsonContentType; ("Content-Length", "30") ] notMockedBody.
Proof.
  exact (proj1 (proj2 (proj2
           (tunnel_response_ignores_catalog new_ProxyServer new_ProxyServer
              "sqs.us-east-1.amazonaws.com:443" "POST / HTTP/1.1")))
           eq_refl eq_refl eq_refl).
Defined.

End TunnelResponse.

(** ** One response per intercepted tunnel *)

Section TunnelStateMachine.
Import Str Js Proxy.

Variable self : ProxyServer.

Lemma Buffer_concat_cons (x : string) (l : list string) :
  Buffer_concat (x :: l) = x ++ Buffer_concat l.
Proof. reflexivity. Qed.

Lemma Buffer_concat_pair (a b : string) : Buffer_concat [ a; b ] = a ++ b.
Proof. unfold Buffer_concat. cbn [fold_right]. rewrite append_empty_r. reflexivity. Qed.

(** Once the request has been answered, a chunk changes nothing. *)
Lemma on_data_answered (t : Tunnel) (chunk : string) :
  expectingRequest t = false -> on_data self t chunk = t.
Proof. intros H. unfold on_data. rewrite H. reflexivity. Qed.

Lemma feed_answered (chunks : list string) :
  forall t, expectingRequest t = false -> feed self t chunks = t.
Proof.
  induction chunks as [|c chunks IH]; intros t H; [ reflexivity | ].
  cbn [feed fold_left]. rewrite on_data_answered by exact H. apply IH. exact H.
Qed.

Lemma feed_app (a b : list string) (t : Tunnel) :
  feed self t (a ++ b)%list = feed self (feed self t a) b.
Proof. unfold feed. apply fold_left_app. Qed.

(** A chunk that leaves the header incomplete is only buffered. *)
Lemma on_data_incomplete (t : Tunnel) (chunk : string) :
  expectingRequest t = true ->
  headerComplete (buffer t ++ chunk) = false ->
  on_data self t chunk =
  {| hostname := hostname t; buffer := buffer t ++ chunk; expectingRequest := true;
     written := written t; end_timers := end_timers t |}.
Proof.
  intros He Hc. unfold on_data. rewrite He, Buffer_concat_pair.
  unfold headerComplete in Hc.
  destruct (indexOf (buffer t ++ chunk) (CRLF ++ CRLF)); [ discriminate Hc | reflexivity ].
Qed.

(** The chunk that completes the header is answered, once. *)
Lemma on_data_complete (t : Tunnel) (chunk : string) :
  expectingRequest t = true ->
  headerComplete (buffer t ++ chunk) = true ->
  exists headerEnd,
    indexOf (buffer t ++ chunk) (CRLF ++ CRLF) = Some headerEnd /\
    on_data self t chunk =
    {| hostname := hostname t; buffer := buffer t ++ chunk; expectingRequest := false;
       written := (written t ++
                   [ generateMockHttpResponse self (hostname t)
                       (requestLineOf (buffer t ++ chunk) headerEnd) ])%list;
       end_timers := S (end_timers t) |}.
Proof.
  intros He Hc. unfold on_data. rewrite He, Buffer_concat_pair.
  unfold headerComplete in Hc.
  destruct (indexOf (buffer t ++ chunk) (CRLF ++ CRLF)) as [i|]; [ | discriminate Hc ].
  exists i. split; reflexivity.
Qed.

(** While every chunk leaves the header incomplete the tunnel only buffers. *)
Lemma feed_incomplete (chunks : list string) :
  forall t,
    expectingRequest t = true ->
    (forall n, n < List.length chunks ->
               headerComplete (buffer t ++ Buffer_concat (firstn (S n) chunks)) = false) ->
    feed self t chunks =
    {| hostname := hostname t; buffer := buffer t ++ Buffer_concat chunks;
       expectingRequest := true; written := written t; end_timers := end_timers t |}.
Proof.
  induction chunks as [|c chunks IH]; intros t He Hall.
  - cbn [feed fold_left Buffer_concat fold_right]. rewrite append_empty_r.
    destruct t; cbn in He |- *; rewrite He; reflexivity.
  - cbn [feed fold_left].
    assert (H0 : headerComplete (buffer t ++ c) = false).
    { specialize (Hall 0 (Nat.lt_0_succ _)). cbn [firstn] in Hall.
      rewrite Buffer_concat_cons in Hall. cbn [Buffer_concat fold_right] in Hall.
      rewrite append_empty_r in Hall. exact Hall. }
    rewrite (on_data_incomplete t c He H0).
    change (fold_left (on_data self) chunks ?x) with (feed self x chunks).
    rewrite IH.
    + cbn. rewrite append_assoc. reflexivity.
    + reflexivity.
    + intros n Hn. cbn [buffer]. rewrite append_assoc.
      rewrite <- Buffer_concat_cons.
      apply (Hall (S n)). cbn [List.length]. lia.
Qed.

(** A tunnel that is still waiting writes at most one more string. *)
Lemma feed_writes_at_most_one (chunks : list string) :
  forall t,
    expectingRequest t = true ->
    List.length (written (feed self t chunks)) <= S (List.length (written t)).
Proof.
  induction chunks as [|c chunks IH]; intros t He.
  - cbn. lia.
  - cbn [feed fold_left].
    change (fold_left (on_data self) chunks ?x) with (feed self x chunks).
    destruct (headerComplete (buffer t ++ c)) eqn:Hc.
    + destruct (on_data_complete t c He Hc) as [i [_ E]]. rewrite E.
      rewrite feed_answered by reflexivity.
      cbn [written]. rewrite length_app. cbn. lia.
    + rewrite (on_data_incomplete t c He Hc).
      etransitivity; [ apply IH; reflexivity | cbn; lia ].
Qed.

Lemma firstn_S_snoc (chunks : list string) (n : nat) :
  n < List.length chunks ->
  exists c, firstn (S n) chunks = (firstn n chunks ++ [ c ])%list /\
            nth_error chunks n = Some c.
Proof.
  revert n. induction chunks as [|x chunks IH]; intros n Hn; [ cbn in Hn; lia | ].
  destruct n as [|n].
  - exists x. split; reflexivity.
  - cbn [List.length] in Hn. destruct (IH n) as [c [E1 E2]]; [ lia | ].
    exists c. split; [ | exact E2 ].
    change (firstn (S (S n)) (x :: chunks)) with (x :: firstn (S n) chunks).
    rewrite E1. reflexivity.
Qed.

Lemma Buffer_concat_app (a b : list string) :
  Buffer_concat (a ++ b)%list = Buffer_concat a ++ Buffer_concat b.
Proof.
  induction a as [|x a IH]; [ reflexivity | ].
  cbn [List.app]. rewrite !Buffer_concat_cons, IH, append_assoc. reflexivity.
Qed.

End TunnelStateMachine.

Section TunnelSingleResponse.
Import Str Js Proxy.

Variable self : ProxyServer.
Variable req_url : option string.
Variable head : string.

Let t0 : Tunnel := handleHttpsTunnel self req_url head.

(** The tunnel after a prefix of the chunks none of which completed the
    header. *)
Lemma feed_prefix_incomplete (chunks : list string) (n : nat) :
  n <= List.length chunks ->
  (forall m, m < n -> headerComplete (head ++ Buffer_concat (firstn (S m) chunks)) = false) ->
  feed self t0 (firstn n chunks) =
  {| hostname := orElse req_url EmptyString;
     buffer := head ++ Buffer_concat (firstn n chunks);
     expectingRequest := true;
     written := [ connectionEstablished ];
     end_timers := 0 |}.
Proof.
  intros Hn Hall.
  rewrite (feed_incomplete self (firstn n chunks) t0); [ reflexivity | reflexivity | ].
  intros m Hm. rewrite length_firstn in Hm.
  rewrite firstn_firstn. replace (Nat.min (S m) n) with (S m) by lia.
  apply Hall. lia.
Qed.

(** The tunnel after the first chunk that completes the header, and after
    any chunks that follow it. *)
Lemma feed_first_complete (chunks : list string) (n : nat) :
  n < List.length chunks ->
  headerComplete (head ++ Buffer_concat (firstn (S n) chunks)) = true ->
  (forall m, m < n -> headerComplete (head ++ Buffer_concat (firstn (S m) chunks)) = false) ->
  exists headerEnd,
    indexOf (head ++ Buffer_concat (firstn (S n) chunks)) (CRLF ++ CRLF) = Some headerEnd /\
    feed self t0 chunks =
    {| hostname := orElse req_url EmptyString;
       buffer := head ++ Buffer_concat (firstn (S n) chunks);
       expectingRequest := false;
       written :=
         [ connectionEstablished;
           generateMockHttpResponse self (orElse req_url EmptyString)
             (requestLineOf (head ++ Buffer_concat (firstn (S n) chunks)) headerEnd) ];
       end_timers := 1 |}.
Proof.
  intros Hn Hc Hall.
  destruct (firstn_S_snoc chunks n Hn) as [c [Esnoc _]].
  assert (Ebuf : head ++ Buffer_concat (firstn (S n) chunks) =
                 (head ++ Buffer_concat (firstn n chunks)) ++ c).
  { rewrite Esnoc, Buffer_concat_app, append_assoc. f_equal. f_equal.
    cbn [Buffer_concat fold_right]. apply append_empty_r. }
  assert (Efeed : feed self t0 chunks =
                  feed self (on_data self (feed self t0 (firstn n chunks)) c)
                    (skipn (S n) chunks)).
  { rewrite <- (firstn_skipn (S n) chunks) at 1.
    rewrite feed_app, Esnoc, feed_app. reflexivity. }
  rewrite (feed_prefix_incomplete chunks n) in Efeed by (lia || exact Hall).
  match type of Efeed with
  | context [ on_data self ?t c ] =>
      destruct (on_data_complete self t c eq_refl) as [i [Ei Et]]
  end.
  { cbn [buffer]. rewrite <- Ebuf. exact Hc. }
  cbn [buffer] in Ei. rewrite <- Ebuf in Ei.
  exists i. split; [ exact Ei | ].
  rewrite Efeed, Et.
  rewrite feed_answered by reflexivity.
  cbn [hostname buffer written end_timers]. rewrite <- Ebuf. reflexivity.
Qed.

(** C2, amended.  On an intercepted tunnel at most one response is ever
    written after the connection was established.  None is written as
    long as no chunk has left the accumulated buffer ([head] followed by
    the chunks so far) with a double CRLF in it.  The first chunk after
    which the buffer holds a double CRLF is answered with the response
    synthesized from the request line; from then on the buffer no longer
    grows, one close is scheduled, and no later chunk writes anything. *)
Theorem tunnel_single_response (chunks : list string) :
  List.length (responses (feed self t0 chunks)) <= 1 /\
  ((forall n, n < List.length chunks ->
              headerComplete (head ++ Buffer_concat (firstn (S n) chunks)) = false) ->
   responses (feed self t0 chunks) = [] /\
   expectingRequest (feed self t0 chunks) = true) /\
  (forall n,
      n < List.length chunks ->
      headerComplete (head ++ Buffer_concat (firstn (S n) chunks)) = true ->
      (forall m, m < n ->
                 headerComplete (head ++ Buffer_concat (firstn (S m) chunks)) = false) ->
      responses (feed self t0 (firstn n chunks)) = [] /\
      (exists headerEnd,
          indexOf (head ++ Buffer_concat (firstn (S n) chunks)) (CRLF ++ CRLF)
            = Some headerEnd /\
          responses (feed self t0 chunks) =
            [ generateMockHttpResponse self (orElse req_url EmptyString)
                (requestLineOf (head ++ Buffer_concat (firstn (S n) chunks)) headerEnd) ]) /\
      buffer (feed self t0 chunks) = head ++ Buffer_concat (firstn (S n) chunks) /\
      expectingRequest (feed self t0 chunks) = false /\
      end_timers (feed self t0 chunks) = 1 /\
      (forall more, feed self (feed self t0 chunks) more = feed self t0 chunks)).
Proof.
  split; [ | split ].
  - unfold responses. rewrite length_skipn.
    pose proof (feed_writes_at_most_one self chunks t0 eq_refl) as H.
    cbn [t0 handleHttpsTunnel written List.length] in H. lia.
  - intros Hall.
    pose proof (feed_prefix_incomplete chunks (List.length chunks) (le_n _)) as E.
    rewrite firstn_all in E. rewrite E; [ split; reflexivity | ].
    intros m Hm. apply Hall. exact Hm.
  - intros n Hn Hc Hall. split.
    + rewrite (feed_prefix_incomplete chunks n) by (lia || exact Hall). reflexivity.
    + destruct (feed_first_complete chunks n Hn Hc Hall) as [i [Ei Et]].
      rewrite Et. split; [ exists i; split; [ exact Ei | reflexivity ] | ].
      repeat split. intros more. apply feed_answered. reflexivity.
Qed.

End TunnelSingleResponse.

Section TunnelExamples.
Import Str Js Proxy.

(** C2, as stated, fails: a client that sends a request line and never the
    blank line gets no response at all. *)
Lemma tunnel_single_response_counterexample :
  ~ (forall (self : ProxyServer) (req_url : option string) (head : string)
            (chunks : list string),
        List.length
          (responses (feed self (handleHttpsTunnel self req_url head) chunks)) = 1).
Proof.
  intros H.
  specialize (H new_ProxyServer Sample.connectTarget EmptyString
                [ "GET /b/k HTTP/1.1" ++ CRLF ]).
  vm_compute in H. discriminate H.
Qed.

Lemma tunnel_single_response_witness :
  responses
    (feed new_ProxyServer
       (handleHttpsTunnel new_ProxyServer Sample.connectTarget EmptyString)
       (firstn 1 Sample.chunks)) = [] /\
  (exists headerEnd,
      indexOf (EmptyString ++ Buffer_concat (firstn 2 Sample.chunks)) (CRLF ++ CRLF)
        = Some headerEnd /\
      responses
        (feed new_ProxyServer
           (handleHttpsTunnel new_ProxyServer Sample.connectTarget EmptyString)
           Sample.chunks) =
      [ generateMockHttpResponse new_ProxyServer
          (orElse Sample.connectTarget EmptyString)
          (requestLineOf (EmptyString ++ Buffer_concat (firstn 2 Sample.chunks))
             headerEnd) ]).
Proof.
  assert (H1 : 1 < List.length Sample.chunks) by (cbn; lia).
  assert (H2 : headerComplete
                 (EmptyString ++ Buffer_concat (firstn 2 Sample.chunks)) = true)
    by reflexivity.
  assert (H3 : forall m, m < 1 ->
                 headerComplete
                   (EmptyString ++ Buffer_concat (firstn (S m) Sample.chunks)) = false).
  { intros m Hm. destruct m as [|m]; [ reflexivity | lia ]. }
  pose proof (proj2 (proj2 (tunnel_single_response new_ProxyServer
                Sample.connectTarget EmptyString Sample.chunks)) 1 H1 H2 H3) as W.
  split; [ exact (proj1 W) | exact (proj1 (proj2 W)) ].
Defined.

End TunnelExamples.

(** ** The S3 generator *)

Section S3Generator.
Import Str Js Proxy.

Lemma decimal_inj (a b : Z) : decimal a = decimal b -> a = b.
Proof.
  unfold decimal. intros H.
  apply (f_equal NilZero.int_of_string) in H.
  assert (N : forall z, Z.to_int z <> Decimal.Pos Decimal.Nil /\
                        Z.to_int z <> Decimal.Neg Decimal.Nil).
  { intros [|p|p]; cbn; split; try discriminate;
      intros E; injection E as E; exact (DecimalPos.Unsigned.to_uint_nonnil p E). }
  rewrite !NilZero.isi in H by apply N.
  injection H as H. apply DecimalZ.to_int_inj. exact H.
Qed.

Lemma orElse_some_empty (s : string) : orElse (Some s) EmptyString = s.
Proof. destruct s; reflexivity. Qed.

Lemma eqb_empty_false (s : string) : s <> EmptyString -> (s =? EmptyString) = false.
Proof. intros H. apply String.eqb_neq. exact H. Qed.

(** The path segments the generator keeps are non-empty. *)
Lemma pathParts_nonempty (u p : string) : In p (pathParts u) -> p <> EmptyString.
Proof.
  unfold pathParts. intros H. apply filter_In in H as [_ H].
  intros ->. discriminate H.
Qed.

Lemma is_method_other (req : IncomingMessage) (a b : string) :
  is_method req a = true -> a <> b -> is_method req b = false.
Proof.
  unfold is_method. destruct (method req) as [m|]; [ | discriminate ].
  intros H Hne. apply String.eqb_eq in H. subst m.
  apply String.eqb_neq. exact Hne.
Qed.

Variables (operation : string) (serviceConfig : value) (req : IncomingMessage).
Variables (bucket key : string).

Hypothesis Hbucket : nth_error (pathParts (orElse (url req) EmptyString)) 0 = Some bucket.
Hypothesis Hkey : join "/" (skipn 1 (pathParts (orElse (url req) EmptyString))) = key.
Hypothesis Hkey_nonempty : key <> EmptyString.

Lemma bucket_nonempty : bucket <> EmptyString.
Proof.
  apply (pathParts_nonempty (orElse (url req) EmptyString)).
  apply (nth_error_In _ 0). exact Hbucket.
Qed.

(** A PUT that names a bucket and a key is acknowledged. *)
Lemma generateS3Response_put (w : World) :
  is_method req "PUT" = true ->
  generateS3Response operation serviceConfig req w =
  (Ok {| statusCode := 200;
         headers := Some [ ("ETag", VStr (dquote ++ decimal (clock w (reads w)) ++ dquote)) ];
         body := VStr EmptyString |},
   set_reads (S (reads w)) w).
Proof.
  intros Hput. unfold generateS3Response. cbv zeta.
  rewrite Hbucket, Hkey, orElse_some_empty.
  rewrite (is_method_other req "PUT" "GET" Hput) by discriminate.
  rewrite Hput, (eqb_empty_false _ bucket_nonempty), (eqb_empty_false _ Hkey_nonempty).
  reflexivity.
Qed.

(** A GET of an object the configuration holds returns it. *)
Lemma generateS3Response_get_hit (w : World) (buckets objectConfig metadata content : value) :
  is_method req "GET" = true ->
  member serviceConfig "buckets" = Ok buckets ->
  opt_member (opt_member (opt_member buckets bucket) "objects") key = objectConfig ->
  truthy objectConfig = true ->
  member objectConfig "metadata" = Ok metadata ->
  member objectConfig "content" = Ok content ->
  generateS3Response operation serviceConfig req w =
  (Ok {| statusCode := 200;
         headers := Some
           [ ("Content-Type",
              or (opt_member metadata "ContentType") (VStr "application/octet-stream"));
             ("ETag", VStr (dquote ++ decimal (clock w (reads w)) ++ dquote));
             ("Last-Modified", VStr (toUTCString (clock w (S (reads w))))) ];
         body := content |},
   set_reads (S (S (reads w))) w).
Proof.
  intros Hget Hb Ho Ht Hm Hc. unfold generateS3Response. cbv zeta.
  rewrite Hbucket, Hkey, orElse_some_empty.
  rewrite Hget, (eqb_empty_false _ bucket_nonempty), (eqb_empty_false _ Hkey_nonempty).
  cbn [andb negb]. unfold bind at 1. unfold bind at 1. unfold lift at 1.
  rewrite Hb, Ho, Ht. unfold bind, lift, Date_now, ret. rewrite Hm, Hc.
  reflexivity.
Qed.

(** A GET of an object the configuration does not hold is a 404. *)
Lemma generateS3Response_get_miss (w : World) (buckets : value) :
  is_method req "GET" = true ->
  member serviceConfig "buckets" = Ok buckets ->
  truthy (opt_member (opt_member (opt_member buckets bucket) "objects") key) = false ->
  generateS3Response operation serviceConfig req w =
  (Ok {| statusCode := 404;
         headers := None;
         body := VObj [ ("error", VStr "Not Found") ] |},
   w).
Proof.
  intros Hget Hb Ht. unfold generateS3Response. cbv zeta.
  rewrite Hbucket, Hkey, orElse_some_empty.
  rewrite Hget, (eqb_empty_false _ bucket_nonempty), (eqb_empty_false _ Hkey_nonempty).
  cbn [andb negb]. unfold bind at 1. unfold bind at 1. unfold lift at 1.
  rewrite Hb, Ht. unfold ret.
  rewrite (is_method_other req "GET" "PUT" Hget) by discriminate.
  reflexivity.
Qed.

End S3Generator.

(** ** Reading a member *)

Section MemberFacts.
Import Str Js.

Lemma own_property_absent (fields : list (string * value)) (k : string) :
  has_own fields k = false -> own_property fields k = VUndefined.
Proof.
  induction fields as [|[k' v] fields IH]; cbn [has_own own_property]; intros H.
  - reflexivity.
  - apply orb_false_iff in H as [H1 H2]. rewrite H1. apply IH. exact H2.
Qed.

Lemma own_property_present (fields : list (string * value)) (k : string) :
  own_property fields k <> VUndefined -> has_own fields k = true.
Proof.
  intros H. destruct (has_own fields k) eqn:E; [ reflexivity | ].
  exfalso. apply H. apply own_property_absent. exact E.
Qed.

(** A key that no object inherits is read from the own properties. *)
Lemma member_plain (fields : list (string * value)) (k : string) :
  inherited [ Object_prototype ] k = VUndefined ->
  member (VObj fields) k = Ok (own_property fields k).
Proof.
  intros H. cbn [member]. destruct (has_own fields k) eqn:E; [ reflexivity | ].
  rewrite H, (own_property_absent _ _ E). reflexivity.
Qed.

(** An own property that is not [undefined] is what a read gives. *)
Lemma member_own (fields : list (string * value)) (k : string) :
  own_property fields k <> VUndefined ->
  member (VObj fields) k = Ok (own_property fields k).
Proof.
  intros H. cbn [member]. rewrite (own_property_present _ _ H). reflexivity.
Qed.

Lemma opt_member_plain (fields : list (string * value)) (k : string) :
  inherited [ Object_prototype ] k = VUndefined ->
  opt_member (VObj fields) k = own_property fields k.
Proof. intros H. unfold opt_member. rewrite (member_plain _ _ H). reflexivity. Qed.

Lemma opt_member_own (fields : list (string * value)) (k : string) :
  own_property fields k <> VUndefined ->
  opt_member (VObj fields) k = own_property fields k.
Proof. intros H. unfold opt_member. rewrite (member_own _ _ H). reflexivity. Qed.

End MemberFacts.

(** ** The plain path: catalog, service, generator *)

Section PlainPath.
Import Str Js Proxy.

Lemma member_truthy (v : value) (k : string) :
  truthy v = true -> exists x, member v k = Ok x.
Proof.
  destruct v; cbn; intros H; try discriminate H; eexists; reflexivity.
Qed.

(** With a catalog that configures the service the host name maps to,
    [generateMockResponse] is the generator of that service. *)
Lemma generateMockResponse_dispatch
    (w : World) (cfg : MockConfig) (hostname service : string)
    (req : IncomingMessage) (serviceConfig : value) :
  config (self w) = Some cfg ->
  truthy (services cfg) = true ->
  identifyService hostname = Some service ->
  member (services cfg) service = Ok serviceConfig ->
  truthy serviceConfig = true ->
  generateMockResponse req hostname w =
  match generateServiceResponse service (extractOperation req) serviceConfig req w with
  | (Ok r, w') => (Ok (Some r), w')
  | (Throw e, w') => (Throw e, w')
  | (Pending, w') => (Pending, w')
  end.
Proof.
  intros Hc Hs Hi Hm Ht. unfold generateMockResponse, this.
  unfold bind at 1. rewrite Hc, Hs, Hi. cbn [negb].
  unfold bind at 1. unfold lift at 1. rewrite Hm, Ht. cbn [negb].
  unfold bind, ret. reflexivity.
Qed.

(** The generator on its own, given a host name that maps to S3 together
    with the target [/b/k]: with a catalog whose [s3] configuration holds
    bucket [b] with object [k] of content [X], the GET is answered 200
    with body [X]; its [Content-Type] is the [ContentType] of the object's
    metadata, or [application/octet-stream] without one.  A GET of
    [/b/missing], when the bucket has no object [missing], is answered
    404. *)
Lemma generateMockResponse_origin_form
    (w : World) (cfg : MockConfig) (hostname : string) (hs : list (string * string))
    (svcs s3 bs b os o : list (string * value)) :
  config (self w) = Some cfg ->
  services cfg = VObj svcs ->
  own_property svcs "s3" = VObj s3 ->
  own_property s3 "buckets" = VObj bs ->
  own_property bs "b" = VObj b ->
  own_property b "objects" = VObj os ->
  own_property os "k" = VObj o ->
  own_property o "content" = VStr "X" ->
  identifyService hostname = Some "s3" ->
  (exists contentType,
      generateMockResponse
        {| method := Some "GET"; url := Some "/b/k"; req_headers := hs |} hostname w =
      (Ok (Some
             {| statusCode := 200;
                headers := Some
                  [ ("Content-Type", contentType);
                    ("ETag", VStr (dquote ++ decimal (clock w (reads w)) ++ dquote));
                    ("Last-Modified", VStr (toUTCString (clock w (S (reads w))))) ];
                body := VStr "X" |}),
       set_reads (S (S (reads w))) w) /\
      (forall m t,
          own_property o "metadata" = VObj m ->
          own_property m "ContentType" = VStr t ->
          t <> EmptyString ->
          contentType = VStr t) /\
      (own_property o "metadata" = VUndefined \/
       (exists m, own_property o "metadata" = VObj m /\
                  own_property m "ContentType" = VUndefined) ->
       contentType = octetStream)) /\
  (own_property os "missing" = VUndefined ->
   generateMockResponse
     {| method := Some "GET"; url := Some "/b/missing"; req_headers := hs |} hostname w =
   (Ok (Some {| statusCode := 404;
                headers := None;
                body := VObj [ ("error", VStr "Not Found") ] |}),
    w)).
Proof.
  intros Hc Hs Hs3 Hbs Hb Hos Ho Hx Hi.
  assert (D : forall req,
    generateMockResponse req hostname w =
    match generateServiceResponse "s3" (extractOperation req) (VObj s3) req w with
    | (Ok r, w') => (Ok (Some r), w')
    | (Throw e, w') => (Throw e, w')
    | (Pending, w') => (Pending, w')
    end).
  { intros req. apply (generateMockResponse_dispatch w cfg); try assumption.
    - rewrite Hs. reflexivity.
    - rewrite Hs, (member_plain _ "s3" eq_refl), Hs3. reflexivity.
    - reflexivity. }
  split.
  - exists (or (opt_member (own_property o "metadata") "ContentType") octetStream).
    split; [ | split ].
    + rewrite D. change (generateServiceResponse "s3") with generateS3Response.
      rewrite (generateS3Response_get_hit _ (VObj s3)
                 {| method := Some "GET"; url := Some "/b/k"; req_headers := hs |}
                 "b" "k"
                 eq_refl eq_refl ltac:(discriminate) w (VObj bs) (VObj o)
                 (own_property o "metadata") (VStr "X")).
      * reflexivity.
      * reflexivity.
      * rewrite (member_plain _ "buckets" eq_refl), Hbs. reflexivity.
      * rewrite (opt_member_plain _ "b" eq_refl), Hb.
        rewrite (opt_member_plain _ "objects" eq_refl), Hos.
        rewrite (opt_member_plain _ "k" eq_refl), Ho. reflexivity.
      * reflexivity.
      * apply (member_plain _ "metadata" eq_refl).
      * rewrite (member_plain _ "content" eq_refl), Hx. reflexivity.
    + intros m t Hm Ht Hne. rewrite Hm.
      rewrite (opt_member_plain _ "ContentType" eq_refl), Ht.
      destruct t; [ contradiction | reflexivity ].
    + intros [Hm|[m [Hm Ht]]]; rewrite Hm; [ reflexivity | ].
      rewrite (opt_member_plain _ "ContentType" eq_refl), Ht. reflexivity.
  - intros Hmiss. rewrite D. change (generateServiceResponse "s3") with generateS3Response.
    rewrite (generateS3Response_get_miss _ (VObj s3)
               {| method := Some "GET"; url := Some "/b/missing"; req_headers := hs |}
               "b" "missing"
               eq_refl eq_refl ltac:(discriminate) w (VObj bs)).
    + reflexivity.
    + reflexivity.
    + rewrite (member_plain _ "buckets" eq_refl), Hbs. reflexivity.
    + rewrite (opt_member_plain _ "b" eq_refl), Hb.
      rewrite (opt_member_plain _ "objects" eq_refl), Hos.
      rewrite (opt_member_plain _ "missing" eq_refl), Hmiss. reflexivity.
Qed.

End PlainPath.

Section PlainPathExamples.
Import Str Js Proxy.

Lemma generateMockResponse_origin_form_example :
  (exists contentType,
      generateMockResponse (Sample.request "GET" "/b/k") "s3.amazonaws.com"
        (Sample.started Sample.ticking) =
      (Ok (Some
             {| statusCode := 200;
                headers := Some
                  [ ("Content-Type", contentType);
                    ("ETag", VStr (dquote ++ "1700000000000" ++ dquote));
                    ("Last-Modified", VStr "Tue, 14 Nov 2023 22:13:20 GMT") ];
                body := VStr "X" |}),
       set_reads 2 (Sample.started Sample.ticking)) /\
      contentType = VStr "text/plain") /\
  generateMockResponse (Sample.request "GET" "/b/missing") "s3.amazonaws.com"
    (Sample.started Sample.ticking) =
  (Ok (Some {| statusCode := 404;
               headers := None;
               body := VObj [ ("error", VStr "Not Found") ] |}),
   Sample.started Sample.ticking).
Proof.
  pose proof (generateMockResponse_origin_form (Sample.started Sample.ticking) Sample.catalog
                "s3.amazonaws.com" []
                Sample.serviceFields Sample.s3Fields Sample.buckets Sample.bucketB
                Sample.objectsOfB Sample.objectK
                eq_refl eq_refl eq_refl eq_refl eq_refl eq_refl eq_refl eq_refl eq_refl)
    as [[ct [E [Hct _]]] Hmiss].
  split.
  - exists ct. split; [ exact E | ].
    apply (Hct [ ("ContentType", VStr "text/plain") ] "text/plain" eq_refl eq_refl).
    discriminate.
  - exact (Hmiss eq_refl).
Defined.

(** The bucket and the key are cut out of [req.url] as it is: for a request
    target in absolute form the scheme and the host are taken for them, and
    the object of the sample catalog is not found. *)
Lemma generateMockResponse_absolute_form :
  pathParts "http://s3.amazonaws.com/b/k" = [ "http:"; "s3.amazonaws.com"; "b"; "k" ] /\
  generateMockResponse (Sample.request "GET" "http://s3.amazonaws.com/b/k")
    "s3.amazonaws.com" (Sample.started Sample.ticking) =
  (Ok (Some {| statusCode := 404;
               headers := None;
               body := VObj [ ("error", VStr "Not Found") ] |}),
   Sample.started Sample.ticking).
Proof. split; reflexivity. Qed.

End PlainPathExamples.

(** ** PUT is not stored; the ETag follows the clock *)

Section S3PutAndETag.
Import Str Js Proxy.

Lemma length_append (a b : string) :
  String.length (a ++ b) = String.length a + String.length b.
Proof. induction a as [|x a IH]; cbn; [ reflexivity | rewrite IH; reflexivity ]. Qed.

Lemma append_inj_r (c : string) : forall a b, a ++ c = b ++ c -> a = b.
Proof.
  induction a as [|x a IH]; intros [|y b] H; cbn in H.
  - reflexivity.
  - apply (f_equal String.length) in H. cbn in H. rewrite length_append in H. lia.
  - apply (f_equal String.length) in H. cbn in H. rewrite length_append in H. lia.
  - injection H as -> H. f_equal. apply IH. exact H.
Qed.

(** The generator on its own.  A PUT that names a bucket and a key is
    answered 200 with an empty body and an ETag made of the clock reading;
    it changes nothing of the server object, in particular not the
    catalog (only a clock reading is consumed); and a GET of the same
    path afterwards, when the lookup of the key gives nothing truthy, is
    answered 404. *)
Lemma generateMockResponse_put_then_get
    (w : World) (cfg : MockConfig) (hostname u bucket key : string)
    (hs1 hs2 : list (string * string)) (serviceConfig : value) :
  config (self w) = Some cfg ->
  truthy (services cfg) = true ->
  identifyService hostname = Some "s3" ->
  member (services cfg) "s3" = Ok serviceConfig ->
  truthy serviceConfig = true ->
  nth_error (pathParts u) 0 = Some bucket ->
  join "/" (skipn 1 (pathParts u)) = key ->
  key <> EmptyString ->
  generateMockResponse
    {| method := Some "PUT"; url := Some u; req_headers := hs1 |} hostname w =
  (Ok (Some
         {| statusCode := 200;
            headers := Some [ ("ETag", VStr (dquote ++ decimal (clock w (reads w)) ++ dquote)) ];
            body := VStr EmptyString |}),
   set_reads (S (reads w)) w) /\
  self (set_reads (S (reads w)) w) = self w /\
  config (self (set_reads (S (reads w)) w)) = Some cfg /\
  (forall buckets,
      member serviceConfig "buckets" = Ok buckets ->
      truthy (opt_member (opt_member (opt_member buckets bucket) "objects") key) = false ->
      generateMockResponse
        {| method := Some "GET"; url := Some u; req_headers := hs2 |} hostname
        (set_reads (S (reads w)) w) =
      (Ok (Some {| statusCode := 404;
                   headers := None;
                   body := VObj [ ("error", VStr "Not Found") ] |}),
       set_reads (S (reads w)) w)).
Proof.
  intros Hc Hs Hi Hm Ht Hb Hk Hne.
  assert (Hb' : forall m hs,
    nth_error (pathParts (orElse (url {| method := m; url := Some u; req_headers := hs |})
                            EmptyString)) 0 = Some bucket).
  { intros m hs. cbn [url]. rewrite orElse_some_empty. exact Hb. }
  assert (Hk' : forall m hs,
    join "/" (skipn 1 (pathParts
      (orElse (url {| method := m; url := Some u; req_headers := hs |}) EmptyString))) = key).
  { intros m hs. cbn [url]. rewrite orElse_some_empty. exact Hk. }
  split; [ | split; [ reflexivity | split; [ exact Hc | ] ] ].
  - rewrite (generateMockResponse_dispatch w cfg hostname "s3" _ serviceConfig)
      by assumption.
    change (generateServiceResponse "s3") with generateS3Response.
    rewrite (generateS3Response_put _ serviceConfig
               {| method := Some "PUT"; url := Some u; req_headers := hs1 |} bucket key
               (Hb' _ _) (Hk' _ _) Hne w eq_refl).
    reflexivity.
  - intros buckets Hbk Hmiss.
    rewrite (generateMockResponse_dispatch _ cfg hostname "s3" _ serviceConfig)
      by assumption.
    change (generateServiceResponse "s3") with generateS3Response.
    rewrite (generateS3Response_get_miss _ serviceConfig
               {| method := Some "GET"; url := Some u; req_headers := hs2 |} bucket key
               (Hb' _ _) (Hk' _ _) Hne _ buckets eq_refl Hbk Hmiss).
    reflexivity.
Qed.

Lemma generateMockResponse_put_then_get_example :
  generateMockResponse (Sample.request "PUT" "/b/new-key") "s3.amazonaws.com"
    (Sample.started Sample.ticking) =
  (Ok (Some
         {| statusCode := 200;
            headers := Some [ ("ETag", VStr (dquote ++ "1700000000000" ++ dquote)) ];
            body := VStr EmptyString |}),
   set_reads 1 (Sample.started Sample.ticking)) /\
  generateMockResponse (Sample.request "GET" "/b/new-key") "s3.amazonaws.com"
    (set_reads 1 (Sample.started Sample.ticking)) =
  (Ok (Some {| statusCode := 404;
               headers := None;
               body := VObj [ ("error", VStr "Not Found") ] |}),
   set_reads 1 (Sample.started Sample.ticking)).
Proof.
  pose proof (generateMockResponse_put_then_get (Sample.started Sample.ticking) Sample.catalog
                "s3.amazonaws.com" "/b/new-key" "b" "new-key" [] []
                (VObj Sample.s3Fields)
                eq_refl eq_refl eq_refl eq_refl eq_refl eq_refl eq_refl
                ltac:(discriminate)) as [Hput [_ [_ Hget]]].
  split; [ exact Hput | ].
  exact (Hget (VObj Sample.buckets) eq_refl eq_refl).
Defined.

(** C7, as stated, fails: when the clock gives the same millisecond to the
    readings of two consecutive GETs, their ETags are equal. *)
Lemma etag_counterexample :
  ~ (forall (w : World) (operation : string) (serviceConfig : value)
            (req : IncomingMessage) (r1 r2 : MockResponse) (w1 w2 : World),
        is_method req "GET" = true ->
        generateS3Response operation serviceConfig req w = (Ok r1, w1) ->
        statusCode r1 = 200%Z ->
        generateS3Response operation serviceConfig req w1 = (Ok r2, w2) ->
        response_header r1 "ETag" <> response_header r2 "ETag").
Proof.
  intros H.
  pose (r := {| statusCode := 200;
                headers := Some
                  [ ("Content-Type", VStr "text/plain");
                    ("ETag", VStr (dquote ++ "1700000000000" ++ dquote));
                    ("Last-Modified", VStr "Tue, 14 Nov 2023 22:13:20 GMT") ];
                body := VStr "X" |}).
  apply (H (Sample.started Sample.frozen) "GET_b" (VObj Sample.s3Fields)
           (Sample.request "GET" "/b/k") r r
           (set_reads 2 (Sample.started Sample.frozen))
           (set_reads 4 (Sample.started Sample.frozen)));
    reflexivity.
Qed.

End S3PutAndETag.

(** ** Through [handleRequest] *)

Section ThroughTheProxy.
Import Str Js JsExtra Proxy Relay.

(** The requests a client sends for the path [/b/k] of the S3 host. *)
Lemma hostname_of_targets :
  hostname_of "http://s3.amazonaws.com/b/k" = "s3.amazonaws.com" /\
  hostname_of "/b/k" = EmptyString /\
  hostname_of "//u@s3.amazonaws.com/constructor" = "s3.amazonaws.com".
Proof. repeat split; vm_compute; reflexivity. Qed.

Lemma handleRequest_s3 (w : World) (cfg : MockConfig) (req : IncomingMessage)
    (svcs s3 : list (string * value)) :
  config (self w) = Some cfg ->
  services cfg = VObj svcs ->
  own_property svcs "s3" = VObj s3 ->
  hostname_of (orElse (url req) EmptyString) = "s3.amazonaws.com" ->
  handleRequest req w =
  match generateS3Response (extractOperation req) (VObj s3) req w with
  | (Ok mockResponse, w') => (Ok (Mocked (sendMockResponse mockResponse)), w')
  | (Throw _, w') => (Ok Failed, w')
  | (Pending, w') => (Pending, w')
  end.
Proof.
  intros Hc Hs Hs3 Hh. unfold handleRequest. rewrite Hh.
  change (isAwsRequest "s3.amazonaws.com") with true. cbv iota.
  rewrite (generateMockResponse_dispatch w cfg "s3.amazonaws.com" "s3" req (VObj s3) Hc).
  - change (generateServiceResponse "s3") with generateS3Response.
    destruct (generateS3Response (extractOperation req) (VObj s3) req w) as [[r|e|] w'];
      reflexivity.
  - rewrite Hs. reflexivity.
  - reflexivity.
  - rewrite Hs, (member_plain _ "s3" eq_refl), Hs3. reflexivity.
  - reflexivity.
Qed.

(** C1, on the code.  Take any catalog whose [s3] configuration has no
    bucket called [http:], whatever it holds under bucket [b].  A GET
    that a client sends through the proxy for the path [/b/k] of the S3
    host carries the target [http://s3.amazonaws.com/b/k]; the generator
    cuts bucket and key out of the whole target, looks for the bucket
    [http:], and the request is answered 404 [Not Found].  A GET with the
    bare target [/b/k] has no host: it never reaches the generator and is
    handed to the real service. *)
Theorem s3_get_through_proxy
    (w : World) (cfg : MockConfig) (hs : list (string * string))
    (svcs s3 bs : list (string * value)) :
  config (self w) = Some cfg ->
  services cfg = VObj svcs ->
  own_property svcs "s3" = VObj s3 ->
  own_property s3 "buckets" = VObj bs ->
  has_own bs "http:" = false ->
  handleRequest
    {| method := Some "GET"; url := Some "http://s3.amazonaws.com/b/k"; req_headers := hs |} w =
  (Ok (Mocked {| sent_status := 404;
                 sent_headers := [ ("Content-Type", VStr "application/json") ];
                 sent_body := VStr (stringify_object [ ("error", VStr "Not Found") ]) |}),
   w) /\
  handleRequest {| method := Some "GET"; url := Some "/b/k"; req_headers := hs |} w =
  (Ok Relayed, w).
Proof.
  intros Hc Hs Hs3 Hbs Hnone. destruct hostname_of_targets as [Habs [Horigin _]].
  split.
  - rewrite (handleRequest_s3 w cfg
               {| method := Some "GET"; url := Some "http://s3.amazonaws.com/b/k";
                  req_headers := hs |} svcs s3 Hc Hs Hs3 Habs).
    rewrite (generateS3Response_get_miss _ (VObj s3)
               {| method := Some "GET"; url := Some "http://s3.amazonaws.com/b/k";
                  req_headers := hs |}
               "http:" "s3.amazonaws.com/b/k"
               eq_refl eq_refl ltac:(discriminate) w (VObj bs)).
    + reflexivity.
    + reflexivity.
    + rewrite (member_plain _ "buckets" eq_refl), Hbs. reflexivity.
    + unfold opt_member at 3. cbn [member]. rewrite Hnone. reflexivity.
  - unfold handleRequest. cbn [url]. rewrite orElse_some_empty, Horigin. reflexivity.
Qed.

Lemma s3_get_through_proxy_witness :
  handleRequest (Sample.request "GET" "http://s3.amazonaws.com/b/k")
    (Sample.started Sample.ticking) =
  (Ok (Mocked {| sent_status := 404;
                 sent_headers := [ ("Content-Type", VStr "application/json") ];
                 sent_body := VStr (stringify_object [ ("error", VStr "Not Found") ]) |}),
   Sample.started Sample.ticking) /\
  handleRequest (Sample.request "GET" "/b/k") (Sample.started Sample.ticking) =
  (Ok Relayed, Sample.started Sample.ticking).
Proof.
  exact (s3_get_through_proxy (Sample.started Sample.ticking) Sample.catalog []
           Sample.serviceFields Sample.s3Fields Sample.buckets
           eq_refl eq_refl eq_refl eq_refl eq_refl).
Defined.

(** C5, on the code.  Take any catalog with a bucket [u@s3.amazonaws.com]
    whose objects have no key [constructor].  A PUT of the target
    [//u@s3.amazonaws.com/constructor] is answered 200 with an empty body
    and an ETag, and leaves the catalog as it was.  The GET of the same
    target that follows is answered 200 too, not 404: the lookup of the
    key finds the member [constructor] that every object inherits.  Its
    body is not the body of the PUT either: there is none. *)
Theorem s3_put_then_get_inherited
    (w : World) (cfg : MockConfig) (hs1 hs2 : list (string * string))
    (svcs s3 bs b os : list (string * value)) :
  config (self w) = Some cfg ->
  services cfg = VObj svcs ->
  own_property svcs "s3" = VObj s3 ->
  own_property s3 "buckets" = VObj bs ->
  own_property bs "u@s3.amazonaws.com" = VObj b ->
  own_property b "objects" = VObj os ->
  has_own os "constructor" = false ->
  let target := "//u@s3.amazonaws.com/constructor" in
  let w1 := set_reads (S (reads w)) w in
  handleRequest {| method := Some "PUT"; url := Some target; req_headers := hs1 |} w =
  (Ok (Mocked {| sent_status := 200;
                 sent_headers :=
                   [ ("ETag", VStr (dquote ++ decimal (clock w (reads w)) ++ dquote)) ];
                 sent_body := VStr EmptyString |}),
   w1) /\
  config (self w1) = Some cfg /\
  handleRequest {| method := Some "GET"; url := Some target; req_headers := hs2 |} w1 =
  (Ok (Mocked {| sent_status := 200;
                 sent_headers :=
                   [ ("Content-Type", octetStream);
                     ("ETag", VStr (dquote ++ decimal (clock w (S (reads w))) ++ dquote));
                     ("Last-Modified", VStr (toUTCString (clock w (S (S (reads w)))))) ];
                 sent_body := VUndefined |}),
   set_reads (S (S (S (reads w)))) w).
Proof.
  intros Hc Hs Hs3 Hbs Hb Hos Hnone. cbv zeta.
  destruct hostname_of_targets as [_ [_ Hh]].
  split; [ | split; [ exact Hc | ] ].
  - rewrite (handleRequest_s3 w cfg
               {| method := Some "PUT"; url := Some "//u@s3.amazonaws.com/constructor";
                  req_headers := hs1 |} svcs s3 Hc Hs Hs3 Hh).
    rewrite (generateS3Response_put _ (VObj s3)
               {| method := Some "PUT"; url := Some "//u@s3.amazonaws.com/constructor";
                  req_headers := hs1 |}
               "u@s3.amazonaws.com" "constructor"
               eq_refl eq_refl ltac:(discriminate) w eq_refl).
    reflexivity.
  - rewrite (handleRequest_s3 (set_reads (S (reads w)) w) cfg
               {| method := Some "GET"; url := Some "//u@s3.amazonaws.com/constructor";
                  req_headers := hs2 |} svcs s3 Hc Hs Hs3 Hh).
    rewrite (generateS3Response_get_hit _ (VObj s3)
               {| method := Some "GET"; url := Some "//u@s3.amazonaws.com/constructor";
                  req_headers := hs2 |}
               "u@s3.amazonaws.com" "constructor"
               eq_refl eq_refl ltac:(discriminate) (set_reads (S (reads w)) w)
               (VObj bs) (VNative true "constructor") VUndefined VUndefined).
    + reflexivity.
    + reflexivity.
    + rewrite (member_plain _ "buckets" eq_refl), Hbs. reflexivity.
    + rewrite (opt_member_own bs "u@s3.amazonaws.com") by (rewrite Hb; discriminate).
      rewrite Hb, (opt_member_plain b "objects" eq_refl), Hos.
      unfold opt_member. cbn [member]. rewrite Hnone. reflexivity.
    + reflexivity.
    + reflexivity.
    + reflexivity.
Qed.

Lemma s3_put_then_get_inherited_witness :
  fst (handleRequest (Sample.request "PUT" "//u@s3.amazonaws.com/constructor")
         (Sample2.startedEmpty Sample.ticking)) =
  Ok (Mocked {| sent_status := 200;
                sent_headers := [ ("ETag", VStr (dquote ++ "1700000000000" ++ dquote)) ];
                sent_body := VStr EmptyString |}) /\
  fst (handleRequest (Sample.request "GET" "//u@s3.amazonaws.com/constructor")
         (set_reads 1 (Sample2.startedEmpty Sample.ticking))) =
  Ok (Mocked {| sent_status := 200;
                sent_headers :=
                  [ ("Content-Type", octetStream);
                    ("ETag", VStr (dquote ++ "1700000000001" ++ dquote));
                    ("Last-Modified", VStr "Tue, 14 Nov 2023 22:13:20 GMT") ];
                sent_body := VUndefined |}).
Proof.
  destruct (s3_put_then_get_inherited (Sample2.startedEmpty Sample.ticking)
              Sample2.emptyCatalog [] []
              [ ("s3", VObj [ ("buckets", VObj Sample2.emptyBuckets) ]) ]
              [ ("buckets", VObj Sample2.emptyBuckets) ]
              Sample2.emptyBuckets Sample2.emptyBucket []
              eq_refl eq_refl eq_refl eq_refl eq_refl eq_refl eq_refl)
    as [Hput [_ Hget]].
  split.
  - exact (f_equal fst Hput).
  - exact (f_equal fst Hget).
Defined.

End ThroughTheProxy.

Section ETag.
Import Str Js Proxy.

(** C7, amended.  Two consecutive GETs of one configured object are both
    answered 200 with the same body; the ETag of each is the quoted
    decimal reading the clock gave while that response was built, so the
    two ETags differ exactly when those two readings differ. *)
Theorem etag_tracks_clock
    (operation : string) (serviceConfig : value) (req : IncomingMessage)
    (bucket key : string) (buckets : value) (w : World) :
  is_method req "GET" = true ->
  nth_error (pathParts (orElse (url req) EmptyString)) 0 = Some bucket ->
  join "/" (skipn 1 (pathParts (orElse (url req) EmptyString))) = key ->
  key <> EmptyString ->
  member serviceConfig "buckets" = Ok buckets ->
  truthy (opt_member (opt_member (opt_member buckets bucket) "objects") key) = true ->
  exists r1 r2,
    generateS3Response operation serviceConfig req w =
      (Ok r1, set_reads (2 + reads w) w) /\
    generateS3Response operation serviceConfig req (set_reads (2 + reads w) w) =
      (Ok r2, set_reads (4 + reads w) w) /\
    statusCode r1 = 200%Z /\ statusCode r2 = 200%Z /\
    body r1 = body r2 /\
    response_header r1 "ETag" =
      Some (VStr (dquote ++ decimal (clock w (reads w)) ++ dquote)) /\
    response_header r2 "ETag" =
      Some (VStr (dquote ++ decimal (clock w (2 + reads w)) ++ dquote)) /\
    (response_header r1 "ETag" = response_header r2 "ETag" <->
     clock w (reads w) = clock w (2 + reads w)).
Proof.
  intros Hget Hb Hk Hne Hbk Ht.
  destruct (member_truthy _ "metadata" Ht) as [metadata Hm].
  destruct (member_truthy _ "content" Ht) as [content Hc].
  pose proof (fun w' => generateS3Response_get_hit operation serviceConfig req bucket key
                Hb Hk Hne w' buckets _ metadata content Hget Hbk eq_refl Ht Hm Hc) as G.
  exists (match fst (generateS3Response operation serviceConfig req w) with
          | Ok r => r
          | _ => {| statusCode := 0; headers := None; body := VUndefined |}
          end).
  exists (match fst (generateS3Response operation serviceConfig req
                       (set_reads (2 + reads w) w)) with
          | Ok r => r
          | _ => {| statusCode := 0; headers := None; body := VUndefined |}
          end).
  rewrite !G. cbn [fst].
  split; [ reflexivity | ]. split; [ reflexivity | ].
  cbn [statusCode body response_header headers find fst snd reads clock set_reads].
  repeat (split; [ reflexivity | ]).
  change (("ETag" =? "ETag")%string) with true. cbn iota.
  change (("Content-Type" =? "ETag")%string) with false. cbn iota.
  split.
  - intros H. injection H as H. apply append_inj_r in H.
    apply decimal_inj. exact H.
  - intros H. cbn [Nat.add] in H. rewrite H. reflexivity.
Qed.

Lemma etag_tracks_clock_witness :
  exists r1 r2,
    generateS3Response "GET_b" (VObj Sample.s3Fields) (Sample.request "GET" "/b/k")
      (Sample.started Sample.ticking) =
      (Ok r1, set_reads 2 (Sample.started Sample.ticking)) /\
    generateS3Response "GET_b" (VObj Sample.s3Fields) (Sample.request "GET" "/b/k")
      (set_reads 2 (Sample.started Sample.ticking)) =
      (Ok r2, set_reads 4 (Sample.started Sample.ticking)) /\
    body r1 = body r2 /\
    response_header r1 "ETag" = Some (VStr (dquote ++ "1700000000000" ++ dquote)) /\
    response_header r2 "ETag" = Some (VStr (dquote ++ "1700000000002" ++ dquote)).
Proof.
  destruct (etag_tracks_clock "GET_b" (VObj Sample.s3Fields)
              (Sample.request "GET" "/b/k") "b" "k" (VObj Sample.buckets)
              (Sample.started Sample.ticking)
              eq_refl eq_refl eq_refl ltac:(discriminate) eq_refl eq_refl)
    as [r1 [r2 [E1 [E2 [_ [_ [Eb [T1 [T2 _]]]]]]]]].
  exists r1, r2. repeat split; assumption.
Defined.

End ETag.

(** ** The DynamoDB generator *)

Section DynamoDB.
Import Str Js Proxy.

(** C6, as stated, fails: an operation that contains both [GetItem] and
    [PutItem] is answered as a [GetItem], with an [Item] in the body. *)
Lemma dynamodb_counterexample :
  ~ (forall (operation : string) (serviceConfig : value) (req : IncomingMessage)
            (w w' : World) (r : MockResponse),
        includes operation "PutItem" = true ->
        generateDynamoDBResponse operation serviceConfig req w = (Ok r, w') ->
        statusCode r = 200%Z /\ body r = VObj []).
Proof.
  intros H.
  destruct (H "GetItemPutItem" (VObj Sample.dynamoFields)
              (Sample.request "POST" "/") (Sample.started Sample.ticking)
              (Sample.started Sample.ticking)
              {| statusCode := 200; headers := None;
                 body := VObj [ ("Item", Sample.user1) ] |}
              eq_refl eq_refl) as [_ Hbody].
  discriminate Hbody.
Qed.

(** C6, amended.  An operation that contains [GetItem] is answered 200
    with, as [Item], the first item of the table [Users] when there is a
    truthy one and an empty object otherwise; an operation that contains
    [PutItem] and not [GetItem] is answered 200 with an empty object; any
    other operation is answered 400. *)
Theorem dynamodb_generator
    (operation : string) (serviceConfig : value) (req : IncomingMessage) (w : World) :
  (includes operation "GetItem" = true ->
   forall fs ts us first rest,
     serviceConfig = VObj fs ->
     own_property fs "tables" = VObj ts ->
     own_property ts "Users" = VObj us ->
     own_property us "items" = VArr (first :: rest) ->
     truthy first = true ->
     generateDynamoDBResponse operation serviceConfig req w =
     (Ok {| statusCode := 200; headers := None;
            body := VObj [ ("Item", first) ] |}, w)) /\
  (includes operation "GetItem" = true ->
   forall tables,
     member serviceConfig "tables" = Ok tables ->
     truthy (opt_member (opt_member (opt_member tables "Users") "items") "0") = false ->
     generateDynamoDBResponse operation serviceConfig req w =
     (Ok {| statusCode := 200; headers := None;
            body := VObj [ ("Item", VObj []) ] |}, w)) /\
  (includes operation "GetItem" = false ->
   includes operation "PutItem" = true ->
   generateDynamoDBResponse operation serviceConfig req w =
   (Ok {| statusCode := 200; headers := None; body := VObj [] |}, w)) /\
  (includes operation "GetItem" = false ->
   includes operation "PutItem" = false ->
   generateDynamoDBResponse operation serviceConfig req w =
   (Ok {| statusCode := 400; headers := None;
          body := VObj [ ("error", VStr "Unsupported operation") ] |}, w)).
Proof.
  unfold generateDynamoDBResponse. repeat split.
  - intros Hg fs ts us first rest -> Htab Hus Hit Htr. rewrite Hg.
    unfold bind, lift, ret. rewrite (member_plain _ "tables" eq_refl), Htab.
    rewrite (opt_member_plain _ "Users" eq_refl), Hus.
    rewrite (opt_member_plain _ "items" eq_refl), Hit.
    change (opt_member (VArr (first :: rest)) "0") with first.
    unfold or. rewrite Htr. reflexivity.
  - intros Hg tables Hm Hf. rewrite Hg. unfold bind, lift, ret. rewrite Hm.
    unfold or. rewrite Hf. reflexivity.
  - intros Hg Hp. rewrite Hg, Hp. reflexivity.
  - intros Hg Hp. rewrite Hg, Hp. reflexivity.
Qed.

Lemma dynamodb_generator_witness :
  generateDynamoDBResponse "GetItem" (VObj Sample.dynamoFields)
    (Sample.request "POST" "/") (Sample.started Sample.ticking) =
  (Ok {| statusCode := 200; headers := None;
         body := VObj [ ("Item", Sample.user1) ] |}, Sample.started Sample.ticking) /\
  generateDynamoDBResponse "GetItem" (VObj Sample.s3Fields)
    (Sample.request "POST" "/") (Sample.started Sample.ticking) =
  (Ok {| statusCode := 200; headers := None;
         body := VObj [ ("Item", VObj []) ] |}, Sample.started Sample.ticking) /\
  generateDynamoDBResponse "PutItem" (VObj Sample.dynamoFields)
    (Sample.request "POST" "/") (Sample.started Sample.ticking) =
  (Ok {| statusCode := 200; headers := None; body := VObj [] |},
   Sample.started Sample.ticking) /\
  generateDynamoDBResponse "Query" (VObj Sample.dynamoFields)
    (Sample.request "POST" "/") (Sample.started Sample.ticking) =
  (Ok {| statusCode := 400; headers := None;
         body := VObj [ ("error", VStr "Unsupported operation") ] |},
   Sample.started Sample.ticking).
Proof.
  split; [ | split; [ | split ] ].
  - exact (proj1 (dynamodb_generator "GetItem" (VObj Sample.dynamoFields)
                    (Sample.request "POST" "/") (Sample.started Sample.ticking))
             eq_refl _ _ _ _ _ eq_refl eq_refl eq_refl eq_refl eq_refl).
  - exact (proj1 (proj2 (dynamodb_generator "GetItem" (VObj Sample.s3Fields)
                    (Sample.request "POST" "/") (Sample.started Sample.ticking)))
             eq_refl VUndefined eq_refl eq_refl).
  - exact (proj1 (proj2 (proj2 (dynamodb_generator "PutItem" (VObj Sample.dynamoFields)
                    (Sample.request "POST" "/") (Sample.started Sample.ticking))))
             eq_refl eq_refl).
  - exact (proj2 (proj2 (proj2 (dynamodb_generator "Query" (VObj Sample.dynamoFields)
                    (Sample.request "POST" "/") (Sample.started Sample.ticking))))
             eq_refl eq_refl).
Defined.

End DynamoDB.

(** ** Stopping the server *)

Section Lifecycle.
Import Str Js Proxy.

Lemma run_tasks_ok (ts : list Task) :
  forall w, fst (run_tasks ts w) = Ok tt.
Proof.
  induction ts as [|[] ts IH]; intros w; [ reflexivity | ].
  cbn [run_tasks]. unfold bind. cbn. apply IH.
Qed.

Lemma run_tasks_frame (ts : list Task) :
  forall w,
    listening (snd (run_tasks ts w)) = listening w /\
    tasks (snd (run_tasks ts w)) = tasks w /\
    config (self (snd (run_tasks ts w))) = config (self w) /\
    resolved (snd (run_tasks ts w)) = List.length ts + resolved w.
Proof.
  induction ts as [|[] ts IH]; intros w; [ repeat split | ].
  cbn [run_tasks]. unfold bind. cbn.
  match goal with |- context [ run_tasks ts ?x ] => destruct (IH x) as [H1 [H2 [H3 H4]]] end.
  rewrite H1, H2, H3, H4. cbn. repeat split. lia.
Qed.

Lemma run_tasks_connections (ts : list Task) :
  forall w,
    connections (snd (run_tasks ts w)) = connections w /\
    closing (snd (run_tasks ts w)) = closing w.
Proof.
  induction ts as [|[] ts IH]; intros w; [ repeat split | ].
  cbn [run_tasks]. unfold bind. cbn.
  match goal with |- context [ run_tasks ts ?x ] => destruct (IH x) as [H1 H2] end.
  rewrite H1, H2. split; reflexivity.
Qed.

Lemma run_tasks_server (ts : list Task) :
  forall w,
    server (self (snd (run_tasks ts w))) =
    match ts with [] => server (self w) | _ :: _ => None end.
Proof.
  induction ts as [|[] ts IH]; intros w; [ reflexivity | ].
  cbn [run_tasks]. unfold bind. cbn. rewrite IH. destruct ts; reflexivity.
Qed.

(** Closing the only listener leaves none. *)
Lemma remove_only (h : nat) (l : list nat) :
  (forall x, In x l -> x = h) -> List.remove Nat.eq_dec h l = [].
Proof.
  induction l as [|x l IH]; intros H; [ reflexivity | ].
  cbn [List.remove]. destruct (Nat.eq_dec h x) as [_|Hne].
  - apply IH. intros y Hy. apply H. right. exact Hy.
  - exfalso. apply Hne. symmetry. apply H. left. reflexivity.
Qed.

Lemma existsb_removed (h : nat) (l : list nat) :
  existsb (Nat.eqb h) (List.remove Nat.eq_dec h l) = false.
Proof.
  destruct (existsb (Nat.eqb h) (List.remove Nat.eq_dec h l)) eqn:E; [ | reflexivity ].
  apply existsb_exists in E as [x [Hin Hx]]. apply Nat.eqb_eq in Hx. subst x.
  exfalso. exact (remove_In Nat.eq_dec l h Hin).
Qed.

Lemma set_tasks_nil (w : World) : tasks w = [] -> set_tasks (fun _ => []) w = w.
Proof. destruct w. cbn. intros ->. reflexivity. Qed.

Lemma stop_call_eq (w : World) :
  stop_call w =
  match server (self w) with
  | Some h =>
      if has_connection h w
      then (Ok tt,
            set_closing (fun q => (q ++ [ (h, CloseCallback) ])%list)
              (set_listening (List.remove Nat.eq_dec h) w))
      else (Ok tt,
            set_tasks (fun q => (q ++ [ CloseCallback ])%list)
              (set_listening (List.remove Nat.eq_dec h) w))
  | None => (Ok tt, set_resolved (S (resolved w)) w)
  end.
Proof.
  unfold stop_call, this, bind, server_close, resolve. cbv beta iota.
  destruct (server (self w)); reflexivity.
Qed.

Lemma stop_call_ok (w : World) : fst (stop_call w) = Ok tt.
Proof.
  rewrite stop_call_eq. destruct (server (self w)) as [h|]; [ | reflexivity ].
  destruct (has_connection h w); reflexivity.
Qed.

Lemma run_loop_ok (w : World) : fst (run_loop w) = Ok tt.
Proof. unfold run_loop. apply run_tasks_ok. Qed.

Lemma run_loop_idle (w : World) : tasks w = [] -> run_loop w = (Ok tt, w).
Proof.
  intros Ht. unfold run_loop. rewrite Ht. cbn [run_tasks ret].
  rewrite set_tasks_nil by exact Ht. reflexivity.
Qed.

Lemma stop_eq (w : World) :
  stop w =
  (if awaits_connections w then Pending else Ok tt, snd (run_loop (snd (stop_call w)))).
Proof.
  unfold stop. unfold bind at 1.
  pose proof (stop_call_ok w) as H1.
  destruct (stop_call w) as [r w1]. cbn [fst snd] in *. subst r.
  pose proof (run_loop_ok w1) as H2.
  destruct (run_loop w1) as [r w2]. cbn [fst snd] in *. subst r. reflexivity.
Qed.

Lemma run_loop_result (w : World) :
  fst (run_loop w) = Ok tt /\
  tasks (snd (run_loop w)) = [] /\
  listening (snd (run_loop w)) = listening w /\
  config (self (snd (run_loop w))) = config (self w) /\
  server (self (snd (run_loop w))) =
    match tasks w with [] => server (self w) | _ :: _ => None end.
Proof.
  unfold run_loop.
  pose proof (run_tasks_frame (tasks w) (set_tasks (fun _ => []) w)) as [H1 [H2 [H3 _]]].
  pose proof (run_tasks_server (tasks w) (set_tasks (fun _ => []) w)) as H5.
  rewrite H1, H2, H3, H5.
  split; [ apply run_tasks_ok | repeat split ].
Qed.

(** [await stop()] on any world: it does not throw, nothing is left ready
    to run, the catalog is kept and the socket of the server is closed. *)
Lemma stop_frame (w : World) :
  fst (stop w) = (if awaits_connections w then Pending else Ok tt) /\
  tasks (snd (stop w)) = [] /\
  config (self (snd (stop w))) = config (self w) /\
  listening (snd (stop w)) =
    match server (self w) with
    | Some h => List.remove Nat.eq_dec h (listening w)
    | None => listening w
    end.
Proof.
  rewrite stop_eq, stop_call_eq. cbn [fst snd].
  split; [ reflexivity | ].
  destruct (server (self w)) as [h|] eqn:Hs; [ destruct (has_connection h w) | ];
    cbn [snd];
    match goal with |- context [ run_loop ?x ] =>
      destruct (run_loop_result x) as [_ [H2 [H3 [H4 _]]]]
    end;
    rewrite H2, H3, H4; repeat split.
Qed.

(** [await stop()] when no connection of the server is open: it returns
    and the server field is [null]. *)
Lemma stop_result (w : World) :
  awaits_connections w = false ->
  fst (stop w) = Ok tt /\
  tasks (snd (stop w)) = [] /\
  server (self (snd (stop w))) = None /\
  config (self (snd (stop w))) = config (self w) /\
  listening (snd (stop w)) =
    match server (self w) with
    | Some h => List.remove Nat.eq_dec h (listening w)
    | None => listening w
    end.
Proof.
  intros Ha. destruct (stop_frame w) as [Hok [Ht [Hc Hl]]]. rewrite Ha in Hok.
  split; [ exact Hok | ]. split; [ exact Ht | ].
  split; [ | split; [ exact Hc | exact Hl ] ].
  rewrite stop_eq, stop_call_eq. cbn [snd]. unfold awaits_connections in Ha.
  destruct (server (self w)) as [h|] eqn:Hs.
  - rewrite Ha.
    match goal with |- context [ run_loop ?x ] =>
      destruct (run_loop_result x) as [_ [_ [_ [_ H5]]]]
    end.
    rewrite H5. cbn. destruct (tasks w); reflexivity.
  - match goal with |- context [ run_loop ?x ] =>
      destruct (run_loop_result x) as [_ [_ [_ [_ H5]]]]
    end.
    rewrite H5. cbn. rewrite Hs. destruct (tasks w); reflexivity.
Qed.

(** On a stopped server with nothing pending, [await stop()] only resolves
    its promise. *)
Lemma stop_stopped (w : World) :
  server (self w) = None -> tasks w = [] ->
  stop w = (Ok tt, set_resolved (S (resolved w)) w).
Proof.
  intros Hs Ht. rewrite stop_eq, stop_call_eq. unfold awaits_connections.
  rewrite Hs. cbn [snd].
  unfold run_loop. cbn [tasks set_resolved]. rewrite Ht.
  cbn [run_tasks ret]. f_equal.
  destruct w. cbn in *. subst. reflexivity.
Qed.

(** C9, as stated, fails twice.  While a client is connected, [stop] does
    not complete: its promise stays pending.  And after a [start] on a
    server that is already listening, whose own [listen] fails, two calls
    of [stop] complete and leave the socket of the first server
    listening. *)
Lemma stop_idempotent_counterexample :
  fst (stop (snd (client_connects 0 (Sample.started Sample.ticking)))) = Pending /\
  fst (stop (snd (start Sample.catalog false (Sample.started Sample.ticking)))) = Ok tt /\
  listening
    (snd (stop (snd (stop (snd (start Sample.catalog false
                                  (Sample.started Sample.ticking))))))) = [ 0 ].
Proof. split; [ | split ]; reflexivity. Qed.

(** C9, amended.  [stop] never throws.  On a server that was never started
    or is already stopped, with no callback pending, it completes at once
    and changes nothing but its promise.  On a started server it makes
    the socket of that server stop listening at once and its promise is
    pending exactly while a connection of that server is open.  With no
    connection open it completes and leaves the server stopped, so that a
    second [stop] is a no-op, and two calls made before either promise
    settles end the same way.  With one connection open it completes in
    the turn after that connection has ended. *)
Theorem stop_idempotent (w : World) :
  (server (self w) = None -> tasks w = [] ->
   stop w = (Ok tt, set_resolved (S (resolved w)) w)) /\
  (forall h,
      server (self w) = Some h ->
      fst (stop w) = (if has_connection h w then Pending else Ok tt) /\
      ~ In h (listening (snd (stop w))) /\
      (has_connection h w = false ->
       server (self (snd (stop w))) = None /\
       stop (snd (stop w)) =
         (Ok tt, set_resolved (S (resolved (snd (stop w)))) (snd (stop w))) /\
       (let w' := snd (stop_call (snd (stop_call w))) in
        fst (stop_call w) = Ok tt /\
        fst (stop_call (snd (stop_call w))) = Ok tt /\
        fst (run_loop w') = Ok tt /\
        ~ In h (listening (snd (run_loop w'))) /\
        server (self (snd (run_loop w'))) = None /\
        tasks (snd (run_loop w')) = [])) /\
      (connections w = [ h ] -> closing w = [] -> tasks w = [] ->
       let w1 := snd (stop w) in
       let w2 := snd (run_loop (snd (connection_ends h w1))) in
       server (self w1) = Some h /\
       resolved w1 = resolved w /\
       server (self w2) = None /\
       resolved w2 = S (resolved w))) /\
  (forall e c,
      stop (fresh_world e c) = (Ok tt, set_resolved 1 (fresh_world e c)) /\
      no_listening_socket (snd (stop (fresh_world e c)))).
Proof.
  split; [ apply stop_stopped | ]. split; [ | intros e c; split; reflexivity ].
  intros h Hs.
  destruct (stop_frame w) as [Hok [Ht [_ Hl]]].
  unfold awaits_connections in Hok. rewrite Hs in Hok, Hl.
  split; [ exact Hok | ].
  split; [ rewrite Hl; apply remove_In | ].
  split.
  - intros Hc.
    assert (Ha : awaits_connections w = false).
    { unfold awaits_connections. rewrite Hs. exact Hc. }
    destruct (stop_result w Ha) as [_ [_ [Hnone _]]].
    split; [ exact Hnone | ].
    split; [ apply stop_stopped; assumption | ].
    cbv zeta. rewrite !stop_call_eq. rewrite Hs, Hc.
    cbn [fst snd self set_tasks set_listening]. rewrite Hs.
    assert (Hc' : has_connection h
                    (set_tasks (fun q => (q ++ [ CloseCallback ])%list)
                       (set_listening (List.remove Nat.eq_dec h) w)) = false)
      by exact Hc.
    rewrite Hc'. cbn [fst snd].
    split; [ reflexivity | ]. split; [ reflexivity | ].
    match goal with |- context [ run_loop ?x ] =>
      destruct (run_loop_result x) as [H1 [H2 [H3 [_ H5]]]]
    end.
    rewrite H1, H2, H3, H5. cbn.
    split; [ reflexivity | ]. split; [ apply remove_In | ].
    split; [ destruct (tasks w); reflexivity | reflexivity ].
  - intros Hconn Hclosing Htasks. cbv zeta.
    assert (Hc : has_connection h w = true).
    { unfold has_connection. rewrite Hconn. cbn. rewrite Nat.eqb_refl. reflexivity. }
    assert (Hw1 : snd (stop w) =
                  set_closing (fun q => (q ++ [ (h, CloseCallback) ])%list)
                    (set_listening (List.remove Nat.eq_dec h) w)).
    { rewrite stop_eq, stop_call_eq, Hs, Hc. cbn [snd].
      rewrite run_loop_idle; [ reflexivity | exact Htasks ]. }
    rewrite Hw1.
    unfold connection_ends, has_connection.
    cbn [connections listening closing tasks set_tasks set_closing set_listening
         set_connections self resolved].
    rewrite Hconn, Hclosing, Hs. cbn [remove_one]. rewrite Nat.eqb_refl.
    cbn [existsb orb]. rewrite existsb_removed.
    cbn [snd app filter fst map]. rewrite Nat.eqb_refl. cbn [map snd negb filter app].
    unfold run_loop.
    cbn [tasks set_tasks set_closing set_connections set_listening]. rewrite Htasks.
    cbn [app run_tasks run_task]. unfold bind, resolve, ret. cbn.
    repeat split.
Qed.

Lemma stop_idempotent_witness :
  fst (stop (Sample.started Sample.ticking)) = Ok tt /\
  ~ In 0 (listening (snd (stop (Sample.started Sample.ticking)))) /\
  stop (snd (stop (Sample.started Sample.ticking))) =
    (Ok tt, set_resolved 2 (snd (stop (Sample.started Sample.ticking)))).
Proof.
  destruct (proj1 (proj2 (stop_idempotent (Sample.started Sample.ticking))) 0 eq_refl)
    as [H1 [H2 [H3 _]]].
  destruct (H3 eq_refl) as [_ [H4 _]].
  split; [ exact H1 | ]. split; [ exact H2 | exact H4 ].
Defined.

End Lifecycle.

(** * Further properties of the proxy, the validator and the manager *)

(** ** The generators never throw *)

Section GeneratorsTotal.
Import Str Js JsExtra Proxy Relay.

Lemma generateS3Response_total
    (operation : string) (serviceConfig : value) (req : IncomingMessage) (w : World) :
  truthy serviceConfig = true ->
  exists r w',
    generateS3Response operation serviceConfig req w = (Ok r, w') /\
    self w' = self w /\
    (statusCode r = 200%Z \/ (statusCode r = 404%Z /\ error_answer r "Not Found")).
Proof.
  intros Ht.
  destruct (member_truthy serviceConfig "buckets" Ht) as [buckets Hb].
  unfold generateS3Response. cbv zeta.
  set (bucket := orElse (nth_error (pathParts (orElse (url req) EmptyString)) 0) EmptyString).
  set (key := join "/" (skipn 1 (pathParts (orElse (url req) EmptyString)))).
  set (addressed := negb (bucket =? EmptyString) && negb (key =? EmptyString)).
  unfold bind, lift, ret, Date_now. rewrite Hb.
  destruct (is_method req "GET" && addressed).
  - destruct (truthy (opt_member (opt_member (opt_member buckets bucket) "objects") key))
      eqn:Ho.
    + destruct (member_truthy _ "metadata" Ho) as [m Hm].
      destruct (member_truthy _ "content" Ho) as [c Hc].
      rewrite Hm, Hc. eexists. eexists. split; [ reflexivity | ].
      split; [ reflexivity | left; reflexivity ].
    + destruct (is_method req "PUT" && addressed);
        eexists; eexists; (split; [ reflexivity | ]); (split; [ reflexivity | ]).
      * left. reflexivity.
      * right. split; [ reflexivity | split; reflexivity ].
  - destruct (is_method req "PUT" && addressed);
      eexists; eexists; (split; [ reflexivity | ]); (split; [ reflexivity | ]).
    + left. reflexivity.
    + right. split; [ reflexivity | split; reflexivity ].
Qed.

Lemma generateDynamoDBResponse_total
    (operation : string) (serviceConfig : value) (req : IncomingMessage) (w : World) :
  truthy serviceConfig = true ->
  exists r,
    generateDynamoDBResponse operation serviceConfig req w = (Ok r, w) /\
    (statusCode r = 200%Z \/
     (statusCode r = 400%Z /\ error_answer r "Unsupported operation")).
Proof.
  intros Ht.
  destruct (member_truthy serviceConfig "tables" Ht) as [tables Hb].
  unfold generateDynamoDBResponse, bind, lift, ret. rewrite Hb.
  destruct (includes operation "GetItem"); [ eexists; split; [ reflexivity | left; reflexivity ] | ].
  destruct (includes operation "PutItem"); eexists; (split; [ reflexivity | ]).
  - left. reflexivity.
  - right. split; [ reflexivity | split; reflexivity ].
Qed.

Lemma generateLambdaResponse_total
    (operation : string) (serviceConfig : value) (req : IncomingMessage) (w : World) :
  truthy serviceConfig = true ->
  exists r,
    generateLambdaResponse operation serviceConfig req w = (Ok r, w) /\
    (statusCode r = 200%Z \/
     (statusCode r = 404%Z /\ error_answer r "Function not found")).
Proof.
  intros Ht.
  destruct (member_truthy serviceConfig "functions" Ht) as [functions Hf].
  unfold generateLambdaResponse, bind, lift, ret. rewrite Hf.
  destruct (includes operation "Invoke").
  - destruct (truthy (opt_member (opt_member functions (extractFunctionName req)) "response"))
      eqn:Hr.
    + assert (Hfc : exists x, member (opt_member functions (extractFunctionName req))
                                "response" = Ok x).
      { destruct (opt_member functions (extractFunctionName req)); try discriminate Hr;
          eexists; reflexivity. }
      destruct Hfc as [x Hx]. rewrite Hx.
      eexists. split; [ reflexivity | left; reflexivity ].
    + eexists. split; [ reflexivity | right; split; [ reflexivity | split; reflexivity ] ].
  - eexists. split; [ reflexivity | right; split; [ reflexivity | split; reflexivity ] ].
Qed.

(** The answer of the generator a service is dispatched to. *)
Lemma generateServiceResponse_answer
    (service operation : string) (serviceConfig : value) (req : IncomingMessage) (w : World) :
  truthy serviceConfig = true ->
  exists r w',
    generateServiceResponse service operation serviceConfig req w = (Ok r, w') /\
    self w' = self w /\
    (statusCode r = 200%Z \/
     (exists msg, (statusCode r = 400%Z \/ statusCode r = 404%Z \/ statusCode r = 501%Z) /\
                  error_answer r msg)).
Proof.
  intros Ht. unfold generateServiceResponse.
  destruct (service =? "s3").
  { destruct (generateS3Response_total operation serviceConfig req w Ht)
      as [r [w' [E [Hself Hshape]]]].
    exists r, w'. split; [ exact E | split; [ exact Hself | ] ].
    destruct Hshape as [H|[H Herr]]; [ left; exact H | right ].
    exists "Not Found". split; [ right; left; exact H | exact Herr ]. }
  destruct (service =? "dynamodb").
  { destruct (generateDynamoDBResponse_total operation serviceConfig req w Ht)
      as [r [E Hshape]].
    exists r, w. split; [ exact E | split; [ reflexivity | ] ].
    destruct Hshape as [H|[H Herr]]; [ left; exact H | right ].
    exists "Unsupported operation". split; [ left; exact H | exact Herr ]. }
  destruct (service =? "lambda").
  { destruct (generateLambdaResponse_total operation serviceConfig req w Ht)
      as [r [E Hshape]].
    exists r, w. split; [ exact E | split; [ reflexivity | ] ].
    destruct Hshape as [H|[H Herr]]; [ left; exact H | right ].
    exists "Function not found". split; [ right; left; exact H | exact Herr ]. }
  eexists. exists w. split; [ reflexivity | split; [ reflexivity | ] ].
  right. eexists. split; [ right; right; reflexivity | split; reflexivity ].
Qed.

(** The plain-path generator either gives [null] at once or hands over to
    the generator of a service with a truthy configuration. *)
Lemma generateMockResponse_cases (req : IncomingMessage) (hostname : string) (w : World) :
  generateMockResponse req hostname w = (Ok None, w) \/
  exists service serviceConfig,
    truthy serviceConfig = true /\
    generateMockResponse req hostname w =
    match generateServiceResponse service (extractOperation req) serviceConfig req w with
    | (Ok r, w') => (Ok (Some r), w')
    | (Throw e, w') => (Throw e, w')
    | (Pending, w') => (Pending, w')
    end.
Proof.
  destruct (config (self w)) as [cfg|] eqn:Hc.
  2: { left. unfold generateMockResponse, this. unfold bind at 1. rewrite Hc. reflexivity. }
  destruct (truthy (services cfg)) eqn:Hs.
  2: { left. unfold generateMockResponse, this. unfold bind at 1. rewrite Hc, Hs.
       reflexivity. }
  destruct (identifyService hostname) as [service|] eqn:Hi.
  2: { left. unfold generateMockResponse, this. unfold bind at 1. rewrite Hc, Hs, Hi.
       reflexivity. }
  destruct (member_truthy (services cfg) service Hs) as [serviceConfig Hm].
  destruct (truthy serviceConfig) eqn:Ht.
  2: { left. unfold generateMockResponse, this. unfold bind at 1. rewrite Hc, Hs, Hi.
       cbn [negb]. unfold bind at 1. unfold lift at 1. rewrite Hm, Ht. reflexivity. }
  right. exists service, serviceConfig. split; [ exact Ht | ].
  apply (generateMockResponse_dispatch w cfg hostname service req serviceConfig);
    assumption.
Qed.

(** X1.  Whatever the catalog, the host name and the request, the plain-path
    generator returns: it never throws.  It leaves the server object as it
    is.  It gives [null] or a response whose status is 200, or 400, 404 or
    501 with no headers of its own and a body of the form
    [{error: message}]. *)
Theorem generateMockResponse_total
    (req : IncomingMessage) (hostname : string) (w : World) :
  exists (answer : option MockResponse) (w' : World),
    generateMockResponse req hostname w = (Ok answer, w') /\
    self w' = self w /\
    match answer with
    | None => w' = w
    | Some r =>
        statusCode r = 200%Z \/
        (exists msg, (statusCode r = 400%Z \/ statusCode r = 404%Z \/ statusCode r = 501%Z) /\
                     error_answer r msg)
    end.
Proof.
  destruct (generateMockResponse_cases req hostname w)
    as [E|[service [serviceConfig [Ht E]]]].
  - exists None, w. split; [ exact E | split; reflexivity ].
  - destruct (generateServiceResponse_answer service (extractOperation req)
                serviceConfig req w Ht) as [r [w' [Er [Hself Hshape]]]].
    rewrite Er in E. exists (Some r), w'.
    split; [ exact E | split; [ exact Hself | exact Hshape ] ].
Qed.

End GeneratorsTotal.

(** ** What the plain path sends, relays and leaves unimplemented *)

Section PlainPathAnswers.
Import Str Js JsExtra Proxy Relay.

Lemma sendMockResponse_error (r : MockResponse) (msg : string) :
  error_answer r msg ->
  sendMockResponse r =
  {| sent_status := statusCode r;
     sent_headers := [ ("Content-Type", VStr "application/json") ];
     sent_body := VStr ("{" ++ quote "error" ++ ":" ++ quote msg ++ "}") |}.
Proof.
  intros [Hh Hb]. unfold sendMockResponse. rewrite Hh, Hb. reflexivity.
Qed.

(** X2.  Every answer of the plain-path generator other than a 200 reaches the
    client as JSON: status 400, 404 or 501, the single header
    [Content-Type: application/json], and as body the JSON text of an object
    with the one member [error]. *)
Theorem mock_errors_sent_as_json
    (req : IncomingMessage) (hostname : string) (w w' : World) (r : MockResponse) :
  generateMockResponse req hostname w = (Ok (Some r), w') ->
  statusCode r <> 200%Z ->
  exists msg,
    (statusCode r = 400%Z \/ statusCode r = 404%Z \/ statusCode r = 501%Z) /\
    sendMockResponse r =
    {| sent_status := statusCode r;
       sent_headers := [ ("Content-Type", VStr "application/json") ];
       sent_body := VStr ("{" ++ quote "error" ++ ":" ++ quote msg ++ "}") |}.
Proof.
  intros E Hne.
  destruct (generateMockResponse_cases req hostname w)
    as [E0|[service [serviceConfig [Ht E1]]]].
  - rewrite E in E0. discriminate E0.
  - destruct (generateServiceResponse_answer service (extractOperation req)
                serviceConfig req w Ht) as [r' [w2 [Er [_ Hshape]]]].
    rewrite Er, E in E1. injection E1 as -> _.
    destruct Hshape as [H|[msg [Hst Herr]]]; [ contradiction | ].
    exists msg. split; [ exact Hst | apply sendMockResponse_error; exact Herr ].
Qed.

Lemma mock_errors_sent_as_json_witness :
  exists msg,
    sendMockResponse
      {| statusCode := 404; headers := None;
         body := VObj [ ("error", VStr "Not Found") ] |} =
    {| sent_status := 404;
       sent_headers := [ ("Content-Type", VStr "application/json") ];
       sent_body := VStr ("{" ++ quote "error" ++ ":" ++ quote msg ++ "}") |}.
Proof.
  destruct (mock_errors_sent_as_json (Sample.request "GET" "/b/missing")
              "s3.amazonaws.com" (Sample.started Sample.ticking)
              (Sample.started Sample.ticking)
              {| statusCode := 404; headers := None;
                 body := VObj [ ("error", VStr "Not Found") ] |}
              eq_refl ltac:(discriminate)) as [msg [_ E]].
  exists msg. exact E.
Defined.

Lemma generateServiceResponse_total
    (service operation : string) (serviceConfig : value) (req : IncomingMessage) (w : World) :
  truthy serviceConfig = true ->
  exists r w', generateServiceResponse service operation serviceConfig req w = (Ok r, w').
Proof.
  intros Ht. unfold generateServiceResponse.
  destruct (service =? "s3").
  { destruct (generateS3Response_total operation serviceConfig req w Ht) as [r [w' [E _]]].
    exists r, w'. exact E. }
  destruct (service =? "dynamodb").
  { destruct (generateDynamoDBResponse_total operation serviceConfig req w Ht) as [r [E _]].
    exists r, w. exact E. }
  destruct (service =? "lambda").
  { destruct (generateLambdaResponse_total operation serviceConfig req w Ht) as [r [E _]].
    exists r, w. exact E. }
  eexists. exists w. reflexivity.
Qed.

(** X3.  The plain-path generator gives [null], so that the request goes to the
    real service, in exactly these cases: no catalog is loaded; its
    [services] is falsy; the host name contains none of the five service
    names; or the catalog has no truthy entry for the service found. *)
Theorem generateMockResponse_null_iff
    (req : IncomingMessage) (hostname : string) (w : World) :
  fst (generateMockResponse req hostname w) = Ok None <->
  match config (self w) with
  | None => True
  | Some cfg =>
      truthy (services cfg) = false \/
      match identifyService hostname with
      | None => True
      | Some service => truthy (prop (services cfg) service) = false
      end
  end.
Proof.
  unfold generateMockResponse, this. unfold bind at 1.
  destruct (config (self w)) as [cfg|]; [ | split; [ intros _; exact I | reflexivity ] ].
  destruct (truthy (services cfg)) eqn:Hs; cbn [negb];
    [ | split; [ intros _; left; reflexivity | reflexivity ] ].
  destruct (identifyService hostname) as [service|];
    [ | split; [ intros _; right; exact I | reflexivity ] ].
  destruct (member_truthy (services cfg) service Hs) as [serviceConfig Hm].
  unfold prop. unfold bind at 1. unfold lift at 1. rewrite Hm.
  destruct (truthy serviceConfig) eqn:Ht; cbn [negb].
  - destruct (generateServiceResponse_total service (extractOperation req) serviceConfig
                req w Ht) as [r [w' E]].
    unfold bind, ret. rewrite E. cbn [fst].
    split; [ discriminate | intros [H|H]; discriminate H ].
  - split; [ intros _; right; reflexivity | reflexivity ].
Qed.

(** X4.  A host that maps to SQS or SNS and whose service has an entry in the
    catalog is not relayed: it is answered 501 with a message that names
    the service. *)
Theorem unimplemented_service_501
    (w : World) (cfg : MockConfig) (hostname service : string)
    (req : IncomingMessage) (serviceConfig : value) :
  config (self w) = Some cfg ->
  truthy (services cfg) = true ->
  identifyService hostname = Some service ->
  service = "sqs" \/ service = "sns" ->
  member (services cfg) service = Ok serviceConfig ->
  truthy serviceConfig = true ->
  generateMockResponse req hostname w =
  (Ok (Some {| statusCode := 501;
               headers := None;
               body := VObj [ ("error",
                               VStr ("Service " ++ service ++ " not implemented")) ] |}),
   w).
Proof.
  intros Hc Hs Hi Hsvc Hm Ht.
  rewrite (generateMockResponse_dispatch w cfg hostname service req serviceConfig)
    by assumption.
  destruct Hsvc as [->| ->]; reflexivity.
Qed.

Lemma unimplemented_service_501_witness :
  generateMockResponse (Sample.request "POST" "/") "sqs.us-east-1.amazonaws.com"
    (Sample2.started Sample.ticking) =
  (Ok (Some {| statusCode := 501;
               headers := None;
               body := VObj [ ("error", VStr "Service sqs not implemented") ] |}),
   Sample2.started Sample.ticking).
Proof.
  exact (unimplemented_service_501 (Sample2.started Sample.ticking) Sample2.catalog
           "sqs.us-east-1.amazonaws.com" "sqs" (Sample.request "POST" "/")
           (VObj Sample2.sqsFields)
           eq_refl eq_refl eq_refl (or_introl eq_refl) eq_refl eq_refl).
Defined.

(** X5.  The Lambda generator.  An operation without [Invoke] is a 404 whatever
    is configured.  With [Invoke], the answer is the [response] configured
    for the function named [myFunction], whatever the request says, when
    that response is truthy; a missing function and a falsy response
    (0, the empty string, [false], [null]) are a 404. *)
Theorem lambda_generator
    (operation : string) (serviceConfig : value) (req : IncomingMessage) (w : World) :
  (includes operation "Invoke" = false ->
   generateLambdaResponse operation serviceConfig req w =
   (Ok {| statusCode := 404; headers := None;
          body := VObj [ ("error", VStr "Function not found") ] |}, w)) /\
  (includes operation "Invoke" = true ->
   forall fs fns f response,
     serviceConfig = VObj fs ->
     own_property fs "functions" = VObj fns ->
     own_property fns "myFunction" = VObj f ->
     own_property f "response" = response ->
     (truthy response = true ->
      generateLambdaResponse operation serviceConfig req w =
      (Ok {| statusCode := 200;
             headers := Some [ ("Content-Type", VStr "application/json") ];
             body := response |}, w)) /\
     (truthy response = false ->
      generateLambdaResponse operation serviceConfig req w =
      (Ok {| statusCode := 404; headers := None;
             body := VObj [ ("error", VStr "Function not found") ] |}, w))) /\
  (includes operation "Invoke" = true ->
   forall fs fns,
     serviceConfig = VObj fs ->
     own_property fs "functions" = VObj fns ->
     own_property fns "myFunction" = VUndefined ->
     generateLambdaResponse operation serviceConfig req w =
     (Ok {| statusCode := 404; headers := None;
            body := VObj [ ("error", VStr "Function not found") ] |}, w)).
Proof.
  unfold generateLambdaResponse, bind, lift, ret, extractFunctionName.
  split; [ | split ].
  - intros H. rewrite H. reflexivity.
  - intros H fs fns f response -> Hf Hm Hr. rewrite H.
    rewrite (member_plain fs "functions" eq_refl), Hf.
    rewrite (opt_member_plain fns "myFunction" eq_refl), Hm.
    rewrite (opt_member_plain f "response" eq_refl), (member_plain f "response" eq_refl), Hr.
    split; intros Ht; rewrite Ht; reflexivity.
  - intros H fs fns -> Hf Hm. rewrite H.
    rewrite (member_plain fs "functions" eq_refl), Hf.
    rewrite (opt_member_plain fns "myFunction" eq_refl), Hm. reflexivity.
Qed.

Lemma lambda_generator_witness :
  generateLambdaResponse "Invoke" (VObj Sample2.lambdaFields)
    (Sample.request "POST" "/2015-03-31/functions/other/invocations")
    (Sample2.started Sample.ticking) =
  (Ok {| statusCode := 200;
         headers := Some [ ("Content-Type", VStr "application/json") ];
         body := Sample2.lambdaResponse |}, Sample2.started Sample.ticking) /\
  generateLambdaResponse "Invoke"
    (VObj [ ("functions", VObj [ ("myFunction", VObj [ ("response", VNum 0) ]) ]) ])
    (Sample.request "POST" "/") (Sample2.started Sample.ticking) =
  (Ok {| statusCode := 404; headers := None;
         body := VObj [ ("error", VStr "Function not found") ] |},
   Sample2.started Sample.ticking).
Proof.
  split.
  - exact (proj1 (proj1 (proj2 (lambda_generator "Invoke" (VObj Sample2.lambdaFields)
             (Sample.request "POST" "/2015-03-31/functions/other/invocations")
             (Sample2.started Sample.ticking)))
             eq_refl _ _ _ _ eq_refl eq_refl eq_refl eq_refl) eq_refl).
  - exact (proj2 (proj1 (proj2 (lambda_generator "Invoke"
             (VObj [ ("functions", VObj [ ("myFunction", VObj [ ("response", VNum 0) ]) ]) ])
             (Sample.request "POST" "/") (Sample2.started Sample.ticking)))
             eq_refl _ _ _ _ eq_refl eq_refl eq_refl eq_refl) eq_refl).
Defined.

End PlainPathAnswers.

(** ** Path segments, and which CONNECT targets are intercepted *)

Section PathsAndTargets.
Import Str Js JsExtra Proxy Relay.

(** Splitting at the first separator. *)
Lemma split_char_app_sep (c : ascii) (x : string) :
  forall a acc,
    includes a (String c EmptyString) = false ->
    split_go (String c EmptyString) 0 acc (a ++ String c x) =
    (acc ++ a) :: split_go (String c EmptyString) 0 EmptyString x.
Proof.
  induction a as [|y a IH]; intros acc Ha.
  - cbn [append split_go]. rewrite prefix_char, Ascii.eqb_refl.
    rewrite append_empty_r. reflexivity.
  - cbn [includes] in Ha. apply orb_false_iff in Ha as [Hp Hi].
    rewrite prefix_char in Hp.
    cbn [append split_go]. rewrite prefix_char, Hp. rewrite IH by exact Hi.
    rewrite append_assoc. reflexivity.
Qed.

(** [split] undoes [join] on segments that do not contain the separator. *)
Lemma split_join (c : ascii) :
  forall (segs : list string) (s : string),
    Forall (fun p => includes p (String c EmptyString) = false) (s :: segs) ->
    split (join (String c EmptyString) (s :: segs)) (String c EmptyString) = s :: segs.
Proof.
  unfold split, join.
  induction segs as [|t segs IH]; intros s H.
  - cbn [String.concat]. apply split_char_nosep. inversion H; assumption.
  - inversion H as [|? ? Hs Hrest]; subst.
    change (String.concat (String c EmptyString) (s :: t :: segs))
      with (s ++ String c (String.concat (String c EmptyString) (t :: segs))).
    rewrite split_char_app_sep by exact Hs.
    rewrite IH by exact Hrest. reflexivity.
Qed.

(** X6.  The generator addresses an object by the non-empty segments of the
    request target: for segments without a slash, [pathParts] of their join
    is the list of the non-empty ones, so that leading, trailing and doubled
    slashes change neither the bucket nor the key. *)
Theorem pathParts_join (segs : list string) :
  Forall (fun p => includes p "/" = false) segs ->
  pathParts (join "/" segs) = filter (fun p => negb (p =? EmptyString)) segs.
Proof.
  intros H. unfold pathParts. destruct segs as [|s segs]; [ reflexivity | ].
  rewrite (split_join "/" segs s H). reflexivity.
Qed.

Lemma pathParts_join_witness :
  pathParts "/b/k" = [ "b"; "k" ] /\
  pathParts "b/k" = [ "b"; "k" ] /\
  pathParts "//b///k/" = [ "b"; "k" ].
Proof.
  split; [ | split ].
  - apply (pathParts_join [ ""; "b"; "k" ]). repeat constructor.
  - apply (pathParts_join [ "b"; "k" ]). repeat constructor.
  - apply (pathParts_join [ ""; ""; "b"; ""; ""; "k"; "" ]). repeat constructor.
Defined.

Lemma endsWith_app (a lit : string) : endsWith (a ++ lit) lit = true.
Proof.
  induction a as [|x a IH].
  - cbn [append]. destruct lit; cbn [endsWith]; rewrite String.eqb_refl; reflexivity.
  - cbn [append endsWith]. rewrite IH. apply orb_true_r.
Qed.

Lemma includes_char_app (c : ascii) (b : string) :
  forall a,
    includes (a ++ b) (String c EmptyString) =
    includes a (String c EmptyString) || includes b (String c EmptyString).
Proof.
  induction a as [|x a IH].
  - reflexivity.
  - cbn [append includes]. rewrite !prefix_char, IH. apply orb_assoc.
Qed.

(** The clean host name of a target [host:rest]. *)
Lemma split_colon_host (host rest : string) :
  includes host ":" = false ->
  hd EmptyString (split (host ++ ":" ++ rest) ":") = host /\
  hd EmptyString (split host ":") = host.
Proof.
  intros H. unfold split. change (":" ++ rest) with (String ":" rest).
  rewrite split_char_hd_app. rewrite split_char_nosep by exact H. split; reflexivity.
Qed.

(** X7.  A CONNECT to a host whose name ends in [.amazonaws.com], with or without
    a port, is never forwarded: whatever catalog is loaded, and with none,
    the tunnel is terminated locally and the client is told that the
    connection is established.  When the target contains none of [s3],
    [dynamodb] and [lambda], the request sent into the tunnel is answered
    200 with the body [{"error":"Service not mocked"}]. *)
Theorem connect_amazonaws_intercepted
    (self : ProxyServer) (name rest head : string) :
  includes name ":" = false ->
  let target := (name ++ ".amazonaws.com") ++ ":" ++ rest in
  let t := {| hostname := target; buffer := head; expectingRequest := true;
              written := [ connectionEstablished ]; end_timers := 0 |} in
  handleConnect self (Some target) head = Intercepted t /\
  handleConnect self (Some (name ++ ".amazonaws.com")) head =
    Intercepted {| hostname := name ++ ".amazonaws.com"; buffer := head;
                   expectingRequest := true;
                   written := [ connectionEstablished ]; end_timers := 0 |} /\
  (forall chunk,
      includes target "s3" = false ->
      includes target "dynamodb" = false ->
      includes target "lambda" = false ->
      headerComplete (head ++ chunk) = true ->
      responses (feed self t [ chunk ]) =
      [ Wire.render "HTTP/1.1 200 OK"
          [ Wire.jsonContentType; ("Content-Length", "30") ] Wire.notMockedBody ]).
Proof.
  intros Hname. cbv zeta.
  assert (Hclean : includes (name ++ ".amazonaws.com") ":" = false).
  { rewrite includes_char_app, Hname. reflexivity. }
  destruct (split_colon_host (name ++ ".amazonaws.com") rest Hclean) as [H1 H2].
  assert (Haws : forall h, hd EmptyString (split h ":") = name ++ ".amazonaws.com" ->
                           isAwsRequest h = true).
  { intros h Hh. unfold isAwsRequest. rewrite Hh. cbn [awsPatterns existsb test].
    rewrite endsWith_app. reflexivity. }
  split; [ | split ].
  - unfold handleConnect, handleHttpsTunnel. rewrite !orElse_some_empty.
    rewrite (Haws _ H1). reflexivity.
  - unfold handleConnect, handleHttpsTunnel. rewrite !orElse_some_empty.
    rewrite (Haws _ H2). reflexivity.
  - intros chunk Hs3 Hdy Hla Hc.
    cbn [feed fold_left].
    match goal with
    | |- context [ on_data self ?t chunk ] =>
        destruct (on_data_complete self t chunk eq_refl Hc) as [i [_ E]]
    end.
    rewrite E. unfold responses. cbn [written hostname List.app skipn].
    f_equal. unfold generateMockHttpResponse. rewrite Hs3, Hdy, Hla.
    vm_compute. reflexivity.
Qed.

Lemma connect_amazonaws_intercepted_witness :
  handleConnect new_ProxyServer (Some "ec2.us-east-1.amazonaws.com:443") EmptyString =
  Intercepted {| hostname := "ec2.us-east-1.amazonaws.com:443"; buffer := EmptyString;
                 expectingRequest := true;
                 written := [ connectionEstablished ]; end_timers := 0 |}.
Proof.
  exact (proj1 (connect_amazonaws_intercepted new_ProxyServer "ec2.us-east-1" "443"
                  EmptyString eq_refl)).
Defined.

End PathsAndTargets.

(** ** The target of a spliced tunnel *)

Section SpliceTarget.
Import Str Js JsExtra Proxy Relay.

Lemma is_digit_cases (c : ascii) :
  is_digit c = true ->
  c = "0"%char \/ c = "1"%char \/ c = "2"%char \/ c = "3"%char \/ c = "4"%char \/
  c = "5"%char \/ c = "6"%char \/ c = "7"%char \/ c = "8"%char \/ c = "9"%char.
Proof.
  destruct c as [[] [] [] [] [] [] [] []]; cbn; intros H; try discriminate H; tauto.
Qed.

Lemma all_digits_uint (d : Decimal.uint) :
  all_digits (NilEmpty.string_of_uint d) = true.
Proof. induction d; cbn [NilEmpty.string_of_uint all_digits]; try rewrite IHd; reflexivity. Qed.

(** Reading digits after a positive accumulator. *)
Lemma parse_digits_acc (d : Decimal.uint) :
  forall acc : positive,
    parse_digits 10 (Zpos acc) true (NilEmpty.string_of_uint d) =
    Some (Zpos (Pos.of_uint_acc d acc)).
Proof.
  induction d; intros acc; cbn [NilEmpty.string_of_uint parse_digits Pos.of_uint_acc];
    [ reflexivity | .. ];
    match goal with
    | |- context [ digit_of 10 ?c ] =>
        let v := eval vm_compute in (digit_of 10 c) in
        change (digit_of 10 c) with v
    end;
    cbv iota beta;
    match goal with
    | |- parse_digits 10 ?a true _ = Some (Zpos (Pos.of_uint_acc _ ?p)) =>
        replace a with (Zpos p) by lia
    end;
    apply IHd.
Qed.

(** Reading digits from zero. *)
Lemma parse_digits_zero (d : Decimal.uint) :
  parse_digits 10 0 true (NilEmpty.string_of_uint d) = Some (Z.of_N (Pos.of_uint d)).
Proof.
  induction d; cbn [NilEmpty.string_of_uint parse_digits Pos.of_uint];
    [ reflexivity | .. ];
    match goal with
    | |- context [ digit_of 10 ?c ] =>
        let v := eval vm_compute in (digit_of 10 c) in
        change (digit_of 10 c) with v
    end;
    cbv iota beta;
    [ exact IHd | .. ];
    match goal with
    | |- parse_digits 10 ?a true _ = Some (Z.of_N (Npos (Pos.of_uint_acc _ ?p))) =>
        change a with (Zpos p)
    end;
    apply parse_digits_acc.
Qed.

Lemma parse_digits_seen (s : string) (c : ascii) (acc : Z) :
  is_digit c = true ->
  parse_digits 10 acc false (String c s) = parse_digits 10 acc true (String c s).
Proof.
  intros H. apply is_digit_cases in H.
  repeat (destruct H as [->|H]; [ reflexivity | ]). subst. reflexivity.
Qed.

Lemma digit_not_special (c : ascii) :
  is_digit c = true ->
  is_white c = false /\ Ascii.eqb c "-" = false /\ Ascii.eqb c "+" = false /\
  Ascii.eqb c "x" || Ascii.eqb c "X" = false.
Proof.
  intros H. apply is_digit_cases in H.
  repeat (destruct H as [->|H]; [ repeat split; reflexivity | ]).
  subst. repeat split; reflexivity.
Qed.

Lemma round_double_small (n : Z) : (n < 2 ^ 53)%Z -> round_double n = Some n.
Proof.
  intros H. unfold round_double. apply Z.ltb_lt in H. rewrite H. reflexivity.
Qed.

(** From 2^53 on the nearest double is not below 2^52. *)
Lemma round_double_large (n m : Z) :
  (2 ^ 53 <= n)%Z -> round_double n = Some m -> (2 ^ 52 <= m)%Z.
Proof.
  intros H. unfold round_double.
  destruct (Z.ltb_spec n (2 ^ 53)) as [Hlt|_]; [ lia | ].
  cbv zeta.
  assert (Hk : (53 <= Z.log2 n)%Z) by (apply Z.log2_le_pow2; lia).
  set (shift := (Z.log2 n - 52)%Z).
  assert (Hshift : (1 <= shift)%Z) by (unfold shift; lia).
  set (q := Z.shiftr n shift).
  assert (Hpow : (1 <= 2 ^ shift)%Z).
  { pose proof (Z.pow_pos_nonneg 2 shift ltac:(lia) ltac:(lia)). lia. }
  assert (Hq : (2 ^ 52 <= q)%Z).
  { unfold q. rewrite Z.shiftr_div_pow2 by lia.
    apply Z.div_le_lower_bound; [ lia | ].
    rewrite <- Z.pow_add_r by lia.
    replace (shift + 52)%Z with (Z.log2 n) by (unfold shift; lia).
    apply Z.log2_spec. lia. }
  match goal with |- context [ Z.shiftl ?x shift ] => set (q' := x) end.
  assert (Hq' : (q <= q')%Z).
  { unfold q'. match goal with |- context [ if ?b then _ else _ ] => destruct b end; lia. }
  destruct (Z.shiftl q' shift <? 2 ^ 1024)%Z; [ | discriminate ].
  intros Hm. injection Hm as <-. rewrite Z.shiftl_mul_pow2 by lia.
  clearbody q q'. nia.
Qed.

(** On a text of decimal digits [parseInt] is the plain reading, rounded. *)
Lemma parseInt_digits (c : ascii) (s : string) :
  is_digit c = true -> all_digits s = true ->
  parseInt (String c s) = parsed (parse_digits 10 0 true (String c s)).
Proof.
  intros Hc Hs.
  rewrite <- (parse_digits_seen s c 0 Hc).
  destruct (digit_not_special c Hc) as [Hw [Hm [Hp _]]].
  unfold parseInt. cbv zeta. cbn [trim_start]. rewrite Hw, Hm, Hp. cbn [fst snd].
  destruct s as [|x s].
  - cbn [fst snd]. reflexivity.
  - cbn [all_digits] in Hs. apply andb_true_iff in Hs as [Hx _].
    destruct (digit_not_special x Hx) as [_ [_ [_ Hxx]]].
    rewrite Hxx, andb_false_r. cbn [fst snd]. reflexivity.
Qed.

(** [parseInt] reads back what the decimal rendering wrote, rounded to a
    double. *)
Lemma parseInt_decimal (n : Z) : (0 < n)%Z -> parseInt (decimal n) = parsed (Some n).
Proof.
  intros Hn. destruct n as [|p|p]; try lia.
  unfold decimal. cbn [Z.to_int NilZero.string_of_int].
  pose proof (DecimalPos.Unsigned.to_uint_nonnil p) as Hnn.
  pose proof (DecimalPos.Unsigned.of_to p) as Hof.
  pose proof (all_digits_uint (Pos.to_uint p)) as Hd.
  pose proof (parse_digits_zero (Pos.to_uint p)) as Hp.
  unfold NilZero.string_of_uint.
  destruct (Pos.to_uint p) as [|d|d|d|d|d|d|d|d|d|d] eqn:E; [ contradiction | .. ];
    cbn [NilEmpty.string_of_uint] in *;
    (rewrite parseInt_digits;
     [ rewrite Hp, Hof; reflexivity
     | reflexivity
     | cbn [all_digits] in Hd; apply andb_true_iff in Hd as [_ Hd]; exact Hd ]).
Qed.

(** Below 2^53 the reading is exact. *)
Lemma parseInt_decimal_exact (n : Z) :
  (0 < n < 2 ^ 53)%Z -> parseInt (decimal n) = Finite n.
Proof.
  intros [Hn Hlt]. rewrite (parseInt_decimal n Hn). unfold parsed.
  rewrite (round_double_small n Hlt). reflexivity.
Qed.

(** Above 65535 the reading is above 65535 too, or infinite. *)
Lemma parseInt_decimal_large (n : Z) :
  (65535 < n)%Z ->
  (exists m, parseInt (decimal n) = Finite m /\ (65535 < m)%Z) \/
  parseInt (decimal n) = Infinity false.
Proof.
  intros Hn. rewrite (parseInt_decimal n) by lia. unfold parsed.
  destruct (Z.ltb_spec n (2 ^ 53)) as [Hlt|Hge].
  - rewrite (round_double_small n Hlt). left. exists n. split; [ reflexivity | exact Hn ].
  - destruct (round_double n) as [m|] eqn:E; [ left | right; reflexivity ].
    exists m. split; [ reflexivity | ].
    pose proof (round_double_large n m Hge E). lia.
Qed.

End SpliceTarget.

Section SpliceTargetPort.
Import Str Js JsExtra Proxy Relay.

Lemma decimal_all_digits (n : Z) : (0 < n)%Z -> all_digits (decimal n) = true.
Proof.
  intros Hn. destruct n as [|p|p]; try lia.
  unfold decimal. cbn [Z.to_int NilZero.string_of_int]. unfold NilZero.string_of_uint.
  pose proof (all_digits_uint (Pos.to_uint p)) as Hd.
  destruct (Pos.to_uint p); [ reflexivity | exact Hd .. ].
Qed.

(** The second part of a target [host:n...] is [n]. *)
Lemma establishTunnel_port (host rest : string) (n : Z) :
  includes host ":" = false ->
  (0 < n)%Z ->
  rest = EmptyString \/ (exists r, rest = String ":" r) ->
  establishTunnel (Some (host ++ ":" ++ decimal n ++ rest)) =
  match parseInt (decimal n) with
  | NaN => Ok (host, 443%Z)
  | Finite p =>
      if (p =? 0)%Z then Ok (host, 443%Z)
      else if (0 <=? p)%Z && (p <=? 65535)%Z then Ok (host, p)
      else Throw "ERR_SOCKET_BAD_PORT"
  | Infinity _ => Throw "ERR_SOCKET_BAD_PORT"
  end.
Proof.
  intros Hhost Hn Hrest. unfold establishTunnel. rewrite orElse_some_empty.
  change (":" ++ decimal n ++ rest) with (String ":" (decimal n ++ rest)).
  assert (Hd : includes (decimal n) ":" = false).
  { apply includes_digits; [ reflexivity | apply decimal_all_digits; exact Hn ]. }
  rewrite (split_char_second ":" host (decimal n) rest Hhost Hd Hrest).
  unfold split. rewrite split_char_app_sep by exact Hhost.
  reflexivity.
Qed.

(** X8.  The host and the port a spliced tunnel connects to.  For a target
    whose host part has no colon: [host:n], with [n] an integer from 1 to
    65535 written in decimal, gives that host and port [n], also when more
    colon-separated text follows; with [n] above 65535 the connection is
    refused with an exception, since no such port exists; the port is 443
    when the target has no colon, when nothing follows the colon, and when
    the port is written [0]. *)
Theorem establishTunnel_target (host : string) :
  includes host ":" = false ->
  (forall n rest,
      (0 < n <= 65535)%Z ->
      rest = EmptyString \/ (exists r, rest = String ":" r) ->
      establishTunnel (Some (host ++ ":" ++ decimal n ++ rest)) = Ok (host, n)) /\
  (forall n rest,
      (65535 < n)%Z ->
      rest = EmptyString \/ (exists r, rest = String ":" r) ->
      establishTunnel (Some (host ++ ":" ++ decimal n ++ rest)) =
      Throw "ERR_SOCKET_BAD_PORT") /\
  establishTunnel (Some host) = Ok (host, 443%Z) /\
  establishTunnel (Some (host ++ ":")) = Ok (host, 443%Z) /\
  establishTunnel (Some (host ++ ":0")) = Ok (host, 443%Z).
Proof.
  intros Hhost. split; [ | split; [ | unfold establishTunnel; split; [ | split ] ] ].
  - intros n rest Hn Hrest.
    rewrite (establishTunnel_port host rest n Hhost) by (lia || exact Hrest).
    rewrite (parseInt_decimal_exact n) by lia.
    destruct (Z.eqb_spec n 0); [ lia | ].
    destruct (Z.leb_spec 0 n); [ | lia ].
    destruct (Z.leb_spec n 65535); [ reflexivity | lia ].
  - intros n rest Hn Hrest.
    rewrite (establishTunnel_port host rest n Hhost) by (lia || exact Hrest).
    destruct (parseInt_decimal_large n Hn) as [[m [-> Hm]]| ->]; [ | reflexivity ].
    destruct (Z.eqb_spec m 0); [ lia | ].
    destruct (Z.leb_spec m 65535); [ lia | ].
    rewrite andb_false_r. reflexivity.
  - rewrite orElse_some_empty. unfold split. rewrite split_char_nosep by exact Hhost.
    reflexivity.
  - rewrite orElse_some_empty. unfold split.
    change (host ++ ":") with (host ++ String ":" EmptyString).
    rewrite split_char_app_sep by exact Hhost. reflexivity.
  - rewrite orElse_some_empty. unfold split.
    change (host ++ ":0") with (host ++ String ":" "0").
    rewrite split_char_app_sep by exact Hhost. reflexivity.
Qed.

Lemma establishTunnel_target_witness :
  establishTunnel (Some "example.com:8443") = Ok ("example.com", 8443%Z) /\
  establishTunnel (Some "example.com:65536") = Throw "ERR_SOCKET_BAD_PORT" /\
  establishTunnel (Some "example.com") = Ok ("example.com", 443%Z) /\
  establishTunnel (Some "example.com:0") = Ok ("example.com", 443%Z).
Proof.
  destruct (establishTunnel_target "example.com" eq_refl) as [H1 [H2 [H3 [_ H4]]]].
  split; [ | split; [ | split; [ exact H3 | exact H4 ] ] ].
  - exact (H1 8443%Z EmptyString ltac:(lia) (or_introl eq_refl)).
  - exact (H2 65536%Z EmptyString ltac:(lia) (or_introl eq_refl)).
Defined.

End SpliceTargetPort.

(** ** Starting and stopping: the environment and the listeners *)

Section StartStop.
Import Str Js JsExtra Proxy Relay.

Lemma getenv_delete_same (name : string) (e : list (string * string)) :
  getenv (env_delete name e) name = None.
Proof.
  unfold getenv. induction e as [|[n v] e IH]; [ reflexivity | ].
  cbn [env_delete]. destruct (n =? name) eqn:E; [ exact IH | ].
  cbn [header]. rewrite E. exact IH.
Qed.

Lemma getenv_delete_other (name other : string) (e : list (string * string)) :
  other <> name ->
  getenv (env_delete name e) other = getenv e other.
Proof.
  intros Hne. unfold getenv. induction e as [|[n v] e IH]; [ reflexivity | ].
  cbn [env_delete header]. destruct (n =? name) eqn:E.
  - apply String.eqb_eq in E. subst n.
    destruct (name =? other) eqn:E2; [ | exact IH ].
    apply String.eqb_eq in E2. congruence.
  - cbn [header]. destruct (n =? other); [ reflexivity | exact IH ].
Qed.

Lemma getenv_set_other (name other v : string) (e : list (string * string)) :
  other <> name ->
  getenv (env_set name v e) other = getenv e other.
Proof.
  intros Hne. unfold env_set, getenv. cbn [header].
  destruct (name =? other) eqn:E.
  - apply String.eqb_eq in E. congruence.
  - apply (getenv_delete_other name other e Hne).
Qed.

(** What the pending callbacks leave of the environment. *)
Lemma run_tasks_env (ts : list Task) :
  forall w,
    (forall name, name <> "HTTP_PROXY" -> name <> "HTTPS_PROXY" ->
                  getenv (env (snd (run_tasks ts w))) name = getenv (env w) name) /\
    (ts <> [] ->
     getenv (env (snd (run_tasks ts w))) "HTTP_PROXY" = None /\
     getenv (env (snd (run_tasks ts w))) "HTTPS_PROXY" = None).
Proof.
  induction ts as [|[] ts IH]; intros w.
  - split; [ reflexivity | intros H; contradiction ].
  - cbn [run_tasks run_task]. unfold bind, resolve. cbn [fst snd].
    match goal with |- context [ run_tasks ts ?x ] => destruct (IH x) as [Ho Hd] end.
    split.
    + intros name H1 H2. rewrite Ho by assumption. cbn [env set_resolved set_self set_env].
      rewrite !getenv_delete_other by assumption. reflexivity.
    + intros _. destruct ts as [|t ts].
      * cbn [run_tasks ret snd env set_resolved set_self set_env]. split.
        -- rewrite getenv_delete_other by discriminate. apply getenv_delete_same.
        -- apply getenv_delete_same.
      * apply Hd. discriminate.
Qed.

(** The server a [start] creates has no connection, whether its [listen]
    succeeds or not. *)
Lemma start_no_connection (cfg : MockConfig) (port_free : bool) (w : World) :
  has_connection (next_handle w) (snd (start cfg port_free w)) = false /\
  awaits_connections (snd (start cfg port_free w)) = false.
Proof.
  unfold awaits_connections, has_connection, start.
  destruct port_free; cbn [snd self server connections set_env set_listening
    set_next_handle set_connections set_self with_server with_config];
    rewrite existsb_removed; split; reflexivity.
Qed.

(** What a successful [start] leaves. *)
Lemma start_result (cfg : MockConfig) (w : World) :
  fst (start cfg true w) = Ok tt /\
  server (self (snd (start cfg true w))) = Some (next_handle w) /\
  config (self (snd (start cfg true w))) = Some cfg /\
  listening (snd (start cfg true w)) = next_handle w :: listening w /\
  getenv (env (snd (start cfg true w))) "HTTP_PROXY"
    = Some ("http://localhost:" ++ decimal (port (self w))) /\
  getenv (env (snd (start cfg true w))) "HTTPS_PROXY"
    = Some ("http://localhost:" ++ decimal (port (self w))) /\
  (forall name, name <> "HTTP_PROXY" -> name <> "HTTPS_PROXY" ->
                getenv (env (snd (start cfg true w))) name = getenv (env w) name).
Proof.
  split; [ reflexivity | ]. split; [ reflexivity | ]. split; [ reflexivity | ].
  split; [ reflexivity | ].
  split; [ unfold start, getenv; cbn; reflexivity | ].
  split; [ unfold start, getenv; cbn; reflexivity | ].
  intros name H1 H2.
  change (env (snd (start cfg true w))) with
    (env_set "HTTPS_PROXY" ("http://localhost:" ++ decimal (port (self w)))
       (env_set "HTTP_PROXY" ("http://localhost:" ++ decimal (port (self w))) (env w))).
  rewrite !getenv_set_other by assumption. reflexivity.
Qed.

(** What an awaited [stop] leaves of a server that has a handle and no
    open connection. *)
Lemma stop_environment (w : World) (h : nat) :
  server (self w) = Some h ->
  has_connection h w = false ->
  fst (stop w) = Ok tt /\
  listening (snd (stop w)) = List.remove Nat.eq_dec h (listening w) /\
  config (self (snd (stop w))) = config (self w) /\
  getenv (env (snd (stop w))) "HTTP_PROXY" = None /\
  getenv (env (snd (stop w))) "HTTPS_PROXY" = None /\
  (forall name, name <> "HTTP_PROXY" -> name <> "HTTPS_PROXY" ->
                getenv (env (snd (stop w))) name = getenv (env w) name).
Proof.
  intros Hsrv Hconn.
  assert (Ha : awaits_connections w = false).
  { unfold awaits_connections. rewrite Hsrv. exact Hconn. }
  destruct (stop_result w Ha) as [Hok [_ [_ [Hc Hl]]]]. rewrite Hsrv in Hl.
  split; [ exact Hok | ]. split; [ exact Hl | ]. split; [ exact Hc | ].
  rewrite stop_eq, stop_call_eq, Hsrv, Hconn. cbn [snd]. unfold run_loop.
  cbn [tasks set_tasks set_listening].
  match goal with |- context [ run_tasks ?ts ?x ] =>
    destruct (run_tasks_env ts x) as [Ho Hd]
  end.
  destruct Hd as [Hd1 Hd2]; [ destruct (tasks w); discriminate | ].
  split; [ exact Hd1 | ]. split; [ exact Hd2 | ].
  intros name H1 H2. rewrite Ho by assumption. reflexivity.
Qed.

(** X9.  [start] points both proxy variables at the server and keeps the
    catalog; [stop] afterwards closes the listener and removes both
    variables, whatever they held before [start], leaves every other
    variable alone, and keeps the catalog in the stopped server. *)
Theorem start_stop_environment (cfg : MockConfig) (w : World) :
  let w1 := snd (start cfg true w) in
  let w2 := snd (stop w1) in
  fst (start cfg true w) = Ok tt /\
  getenv (env w1) "HTTP_PROXY" = Some ("http://localhost:" ++ decimal (port (self w))) /\
  getenv (env w1) "HTTPS_PROXY" = Some ("http://localhost:" ++ decimal (port (self w))) /\
  In (next_handle w) (listening w1) /\
  config (self w1) = Some cfg /\
  ~ In (next_handle w) (listening w2) /\
  getenv (env w2) "HTTP_PROXY" = None /\
  getenv (env w2) "HTTPS_PROXY" = None /\
  (forall name, name <> "HTTP_PROXY" -> name <> "HTTPS_PROXY" ->
                getenv (env w2) name = getenv (env w) name) /\
  config (self w2) = Some cfg.
Proof.
  cbv zeta.
  destruct (start_result cfg w) as [Hok [Hsrv [Hc [Hl [E1 [E2 Ho]]]]]].
  destruct (stop_environment _ _ Hsrv (proj1 (start_no_connection cfg true w)))
    as [_ [Sl [Sc [D1 [D2 So]]]]].
  split; [ exact Hok | ]. split; [ exact E1 | ]. split; [ exact E2 | ].
  split; [ rewrite Hl; left; reflexivity | ]. split; [ exact Hc | ].
  split; [ rewrite Sl; apply remove_In | ].
  split; [ exact D1 | ]. split; [ exact D2 | ].
  split; [ | rewrite Sc; exact Hc ].
  intros name H1 H2. rewrite So by assumption. apply Ho; assumption.
Qed.

(** X10.  A [start] on a server that is already listening, whose own [listen]
    then fails because the port is taken, still replaces the catalog and
    the server handle.  The server started first is no longer reachable:
    [stop] returns with that first server still listening, and so does
    a second [stop]. *)
Theorem second_start_orphans_listener (cfg cfg' : MockConfig) (w : World) :
  listening w = [] -> tasks w = [] ->
  let w1 := snd (start cfg true w) in
  let w2 := snd (start cfg' false w1) in
  let w3 := snd (stop w2) in
  fst (start cfg' false w1) = Throw "listen" /\
  config (self w2) = Some cfg' /\
  fst (stop w2) = Ok tt /\
  server (self w3) = None /\
  listening w3 = [ next_handle w ] /\
  listening (snd (stop w3)) = [ next_handle w ].
Proof.
  intros Hl Ht. cbv zeta.
  split; [ reflexivity | ]. split; [ reflexivity | ].
  destruct (stop_result (snd (start cfg' false (snd (start cfg true w))))
              (proj2 (start_no_connection cfg' false _)))
    as [Hok [Htasks [Hs [_ Hlist]]]].
  split; [ exact Hok | ]. split; [ exact Hs | ].
  assert (E : listening (snd (stop (snd (start cfg' false (snd (start cfg true w)))))) =
              [ next_handle w ]).
  { rewrite Hlist. cbn -[Nat.eq_dec]. rewrite Hl. cbn -[Nat.eq_dec].
    destruct (Nat.eq_dec (S (next_handle w)) (next_handle w)) as [H|_]; [ lia | reflexivity ]. }
  split; [ exact E | ].
  rewrite (stop_stopped _ Hs Htasks). cbn [snd listening set_resolved]. exact E.
Qed.

Lemma second_start_orphans_listener_witness :
  listening
    (snd (stop (snd (start Sample2.catalog false
                       (snd (start Sample.catalog true
                               (fresh_world [] Sample.ticking))))))) = [ 0 ].
Proof.
  exact (proj1 (proj2 (proj2 (proj2 (proj2
           (second_start_orphans_listener Sample.catalog Sample2.catalog
              (fresh_world [] Sample.ticking) eq_refl eq_refl)))))).
Defined.

End StartStop.

(** ** What follows the request head in a tunnel *)

Section TunnelTrailingData.
Import Str Js JsExtra Proxy Relay.

Lemma prefix_length (p : string) :
  forall s, prefix p s = true -> String.length p <= String.length s.
Proof.
  induction p as [|a p IH]; intros s H; [ cbn; lia | ].
  destruct s as [|b s]; [ discriminate H | ].
  cbn [prefix] in H. destruct (ascii_dec a b); [ | discriminate H ].
  cbn [String.length]. specialize (IH s H). lia.
Qed.

Lemma prefix_app_l (e : string) (p : string) :
  forall x, prefix p x = true -> prefix p (x ++ e) = true.
Proof.
  induction p as [|a p IH]; intros x H; [ apply prefix_empty | ].
  destruct x as [|b x]; [ discriminate H | ].
  cbn [prefix append] in *. destruct (ascii_dec a b); [ apply IH; exact H | discriminate H ].
Qed.

Lemma prefix_app_short (e : string) (p : string) :
  forall x,
    prefix p (x ++ e) = true -> String.length p <= String.length x -> prefix p x = true.
Proof.
  induction p as [|a p IH]; intros x H Hlen; [ apply prefix_empty | ].
  destruct x as [|b x]; [ cbn in Hlen; lia | ].
  cbn [prefix append] in *. destruct (ascii_dec a b); [ | discriminate H ].
  apply IH; [ exact H | cbn [String.length] in Hlen; lia ].
Qed.

Lemma indexOf_bound (p : string) :
  forall s i, indexOf s p = Some i -> i + String.length p <= String.length s.
Proof.
  induction s as [|c s IH]; intros i H.
  - cbn [indexOf] in H. destruct (prefix p EmptyString) eqn:E; [ | discriminate H ].
    injection H as <-. apply prefix_length in E. lia.
  - cbn [indexOf] in H. destruct (prefix p (String c s)) eqn:E.
    + injection H as <-. apply prefix_length in E. lia.
    + destruct (indexOf s p) as [j|] eqn:Ej; [ | discriminate H ].
      injection H as <-. specialize (IH j eq_refl). cbn [String.length]. lia.
Qed.

(** The first occurrence of a pattern stays the first when text is
    appended. *)
Lemma indexOf_app (p e : string) :
  forall x i, indexOf x p = Some i -> indexOf (x ++ e) p = Some i.
Proof.
  induction x as [|c x IH]; intros i H.
  - cbn [indexOf] in H. destruct (prefix p EmptyString) eqn:E; [ | discriminate H ].
    injection H as <-. cbn [append].
    destruct p; [ | discriminate E ].
    destruct e; cbn [indexOf]; rewrite ?prefix_empty; reflexivity.
  - cbn [indexOf] in H. cbn [append indexOf].
    destruct (prefix p (String c x)) eqn:E.
    + injection H as <-.
      change (String c (x ++ e)) with (String c x ++ e).
      rewrite (prefix_app_l e p _ E). reflexivity.
    + destruct (indexOf x p) as [j|] eqn:Ej; [ | discriminate H ].
      injection H as <-.
      destruct (prefix p (String c (x ++ e))) eqn:E2.
      * exfalso.
        change (String c (x ++ e)) with (String c x ++ e) in E2.
        pose proof (indexOf_bound p x j Ej) as Hb.
        rewrite (prefix_app_short e p (String c x) E2) in E; [ discriminate E | ].
        cbn [String.length]. lia.
      * rewrite (IH j eq_refl). reflexivity.
Qed.

Lemma substring_app (e : string) :
  forall x n, n <= String.length x -> substring 0 n (x ++ e) = substring 0 n x.
Proof.
  induction x as [|c x IH]; intros n Hn.
  - cbn in Hn. assert (n = 0) by lia. subst n. destruct e; reflexivity.
  - destruct n as [|n]; [ reflexivity | ].
    cbn [append substring]. f_equal. apply IH. cbn [String.length] in Hn. lia.
Qed.

(** X11.  Whatever follows the blank line in the chunk that completes the request
    head (a body, a second request) has no influence: the same response is
    written, once, and the same close is scheduled. *)
Theorem on_data_ignores_trailing
    (self : ProxyServer) (t : Tunnel) (chunk extra : string) :
  expectingRequest t = true ->
  headerComplete (buffer t ++ chunk) = true ->
  written (on_data self t (chunk ++ extra)) = written (on_data self t chunk) /\
  expectingRequest (on_data self t (chunk ++ extra)) = false /\
  end_timers (on_data self t (chunk ++ extra)) = end_timers (on_data self t chunk) /\
  (forall more,
      written (feed self (on_data self t (chunk ++ extra)) more) =
      written (on_data self t chunk)).
Proof.
  intros He Hc.
  destruct (on_data_complete self t chunk He Hc) as [i [Ei E]].
  assert (Ei' : indexOf (buffer t ++ chunk ++ extra) (CRLF ++ CRLF) = Some i).
  { rewrite <- append_assoc. apply indexOf_app. exact Ei. }
  assert (Hc' : headerComplete (buffer t ++ chunk ++ extra) = true).
  { unfold headerComplete. rewrite Ei'. reflexivity. }
  destruct (on_data_complete self t (chunk ++ extra) He Hc') as [j [Ej E']].
  rewrite Ei' in Ej. injection Ej as <-.
  assert (Hline : requestLineOf (buffer t ++ chunk ++ extra) i =
                  requestLineOf (buffer t ++ chunk) i).
  { unfold requestLineOf, slice0. rewrite <- append_assoc.
    rewrite substring_app; [ reflexivity | ].
    pose proof (indexOf_bound _ _ _ Ei). lia. }
  rewrite E, E'. cbn [written expectingRequest end_timers]. rewrite Hline.
  split; [ reflexivity | ]. split; [ reflexivity | ]. split; [ reflexivity | ].
  intros more. rewrite feed_answered by reflexivity. reflexivity.
Qed.

Lemma on_data_ignores_trailing_witness :
  written
    (on_data new_ProxyServer
       (handleHttpsTunnel new_ProxyServer Sample.connectTarget EmptyString)
       (("PUT /b/k HTTP/1.1" ++ CRLF ++ CRLF) ++ "the body")) =
  written
    (on_data new_ProxyServer
       (handleHttpsTunnel new_ProxyServer Sample.connectTarget EmptyString)
       ("PUT /b/k HTTP/1.1" ++ CRLF ++ CRLF)).
Proof.
  exact (proj1 (on_data_ignores_trailing new_ProxyServer
                  (handleHttpsTunnel new_ProxyServer Sample.connectTarget EmptyString)
                  ("PUT /b/k HTTP/1.1" ++ CRLF ++ CRLF) "the body" eq_refl eq_refl)).
Defined.

End TunnelTrailingData.

(** ** The validator *)

Section ValidatorLoops.
Import Str Js JsExtra Validator ValidSpec.

(** A loop whose body only appends to the error list. *)
Lemma fold_left_accumulates {A E : Type} (step : list E -> A -> list E) :
  (forall errs x, step errs x = (errs ++ step [] x)%list) ->
  forall l errs, fold_left step l errs = (errs ++ flat_map (step []) l)%list.
Proof.
  intros Hstep. induction l as [|x l IH]; intros errs.
  - cbn. rewrite app_nil_r. reflexivity.
  - cbn [fold_left flat_map]. rewrite IH, Hstep, <- app_assoc. reflexivity.
Qed.

Lemma flat_map_nil {A E : Type} (f : A -> list E) (l : list A) :
  flat_map f l = [] <-> (forall x, In x l -> f x = []).
Proof.
  induction l as [|x l IH]; cbn [flat_map In].
  - split; [ intros _ y [] | reflexivity ].
  - split.
    + intros H. apply app_eq_nil in H as [H1 H2]. intros y [<-|Hy]; [ exact H1 | ].
      apply IH; assumption.
    + intros H. rewrite (H x (or_introl eq_refl)).
      apply IH. intros y Hy. apply H. right. exact Hy.
Qed.

Lemma app_singleton_not_nil {E : Type} (l : list E) (e : E) : (l ++ [ e ])%list <> [].
Proof. destruct l; discriminate. Qed.

Lemma not_an_object_false (v : value) : not_an_object v = false <-> object_like v.
Proof.
  unfold object_like. destruct v as [| |b|n|s|items|fields|[|] name]; cbn; split; intros H;
    try discriminate H; try reflexivity;
    try (destruct H as [[? H]|[[? H]|[? H]]]; discriminate H).
  - right. left. eexists. reflexivity.
  - left. eexists. reflexivity.
  - right. right. eexists. reflexivity.
Qed.

Lemma guard_object (v : value) :
  truthy v && (typeof v =? "object") = true <-> object_like v.
Proof.
  unfold object_like. destruct v as [| |b|n|s|items|fields|[|] name]; cbn; split; intros H;
    try discriminate H; try reflexivity;
    try (destruct H as [[? H]|[[? H]|[? H]]]; discriminate H).
  - destruct b; discriminate H.
  - destruct n; discriminate H.
  - destruct s; discriminate H.
  - right. left. eexists. reflexivity.
  - left. eexists. reflexivity.
  - right. right. eexists. reflexivity.
Qed.

Lemma bad_port_false (p : value) :
  negb (is_undefined p) && bad_port p = false <-> port_ok p.
Proof.
  unfold port_ok. destruct p as [| |b|n|s|items|fields|callable name]; cbn; split; intros H;
    try discriminate H; try reflexivity; try (left; reflexivity);
    try (destruct H as [H|[? [H _]]]; discriminate H).
  - right. exists n. split; [ reflexivity | ].
    apply orb_false_iff in H as [H1 H2].
    apply Z.ltb_ge in H1. apply Z.ltb_ge in H2. lia.
  - destruct H as [H|[m [H Hr]]]; [ discriminate H | ].
    injection H as ->. apply orb_false_iff. split; apply Z.ltb_ge; lia.
Qed.

End ValidatorLoops.

Section ValidatorChecks.
Import Str Js JsExtra Validator ValidSpec.

Lemma check_then {E : Type} (b : bool) (e : E) (rest : list E) (P Q : Prop) :
  (b = false <-> P) -> (rest = [] <-> Q) ->
  ((if b then ([] ++ [ e ])%list else rest) = [] <-> P /\ Q).
Proof.
  intros HP HQ. destruct b.
  - split; [ discriminate | ]. intros [H _]. apply HP in H. discriminate H.
  - split.
    + intros H. split; [ apply HP; reflexivity | apply HQ; exact H ].
    + intros [_ H]. apply HQ. exact H.
Qed.

Lemma check_last {E : Type} (b : bool) (e : E) (P : Prop) :
  (b = false <-> P) ->
  ((if b then ([] ++ [ e ])%list else []) = [] <-> P).
Proof.
  intros HP. destruct b.
  - split; [ discriminate | ]. intros H. apply HP in H. discriminate H.
  - split; [ intros _; apply HP; reflexivity | reflexivity ].
Qed.

(** The loop over the entries of a section, behind its guard. *)
Lemma section_loop_app {E : Type} (step : list E -> string * value -> list E)
    (section : value) (errs : list E) :
  (forall errs x, step errs x = (errs ++ step [] x)%list) ->
  (if truthy section && (typeof section =? "object")
   then fold_left step (entries section) errs else errs)
  = (errs ++ (if truthy section && (typeof section =? "object")
              then fold_left step (entries section) [] else []))%list.
Proof.
  intros Hstep. destruct (truthy section && (typeof section =? "object")).
  - rewrite (fold_left_accumulates step Hstep _ errs).
    rewrite (fold_left_accumulates step Hstep _ []). reflexivity.
  - rewrite app_nil_r. reflexivity.
Qed.

Lemma section_loop_nil {E : Type} (step : list E -> string * value -> list E)
    (section : value) (ok : value -> Prop) :
  (forall errs x, step errs x = (errs ++ step [] x)%list) ->
  (forall name e, step [] (name, e) = [] <-> ok e) ->
  ((if truthy section && (typeof section =? "object")
    then fold_left step (entries section) [] else []) = []
   <-> each_entry section ok).
Proof.
  intros Hstep Hok. unfold each_entry.
  destruct (truthy section && (typeof section =? "object")) eqn:Hg.
  - rewrite (fold_left_accumulates step Hstep _ []). cbn [app].
    rewrite flat_map_nil. split.
    + intros H _ name e Hin. apply (proj1 (Hok name e)). apply (H (name, e)). exact Hin.
    + intros H [name e] Hin. apply (proj2 (Hok name e)).
      apply (H (proj1 (guard_object _) Hg) name e Hin).
  - split; [ | reflexivity ].
    intros _ Hobj. apply guard_object in Hobj. congruence.
Qed.

Lemma validateS3Config_app (name : string) (config : value) (errs : list ValidationError) :
  validateS3Config name config errs = (errs ++ validateS3Config name config [])%list.
Proof.
  unfold validateS3Config. apply section_loop_app.
  intros errs' [bucketName bucket]. cbn [fst snd].
  destruct (not_an_object bucket); [ reflexivity | ].
  apply section_loop_app.
  intros errs'' [objectKey object]. cbn [fst snd].
  destruct (not_an_object object); [ reflexivity | ].
  destruct (negb (truthy (prop object "content"))); [ reflexivity | ].
  rewrite app_nil_r. reflexivity.
Qed.

Lemma validateS3Config_nil (name : string) (config : value) :
  validateS3Config name config [] = [] <-> s3_ok config.
Proof.
  unfold validateS3Config, s3_ok. apply section_loop_nil.
  - intros errs' [bucketName bucket]. cbn [fst snd].
    destruct (not_an_object bucket); [ reflexivity | ].
    apply section_loop_app.
    intros errs'' [objectKey object]. cbn [fst snd].
    destruct (not_an_object object); [ reflexivity | ].
    destruct (negb (truthy (prop object "content"))); [ reflexivity | ].
    rewrite app_nil_r. reflexivity.
  - intros bucketName bucket. cbn [fst snd].
    apply check_then; [ apply not_an_object_false | ].
    apply section_loop_nil.
    + intros errs'' [objectKey object]. cbn [fst snd].
      destruct (not_an_object object); [ reflexivity | ].
      destruct (negb (truthy (prop object "content"))); [ reflexivity | ].
      rewrite app_nil_r. reflexivity.
    + intros objectKey object. cbn [fst snd].
      apply check_then; [ apply not_an_object_false | ].
      apply check_last. apply negb_false_iff.
Qed.

Lemma items_check (items : value) :
  truthy items && negb (isArray items) = false
  <-> (truthy items = true -> exists l, items = VArr l).
Proof.
  destruct (truthy items) eqn:Ht.
  - destruct items as [| |b|n|s|l|fields|callable name]; try discriminate Ht;
      cbn [isArray negb andb]; split; intros H;
      try discriminate H; try reflexivity;
      try (destruct (H eq_refl) as [l' Hl]; discriminate Hl).
    intros _. exists l. reflexivity.
  - cbn [andb]. split; [ intros _ H; discriminate H | reflexivity ].
Qed.

Lemma response_check (r : value) :
  truthy r && negb (typeof r =? "object") = false
  <-> (truthy r = true -> object_like r).
Proof.
  unfold object_like. destruct (truthy r) eqn:Ht.
  - destruct r as [| |b|n|s|l|fields|[|] name]; try discriminate Ht;
      cbn [typeof negb andb String.eqb Ascii.eqb Bool.eqb]; split; intros H;
      try discriminate H; try reflexivity;
      try (destruct (H eq_refl) as [[? Hl]|[[? Hl]|[? Hl]]]; discriminate Hl).
    + intros _. right. left. eexists. reflexivity.
    + intros _. left. eexists. reflexivity.
    + intros _. right. right. eexists. reflexivity.
  - cbn [andb]. split; [ intros _ H; discriminate H | reflexivity ].
Qed.

Lemma validateDynamoDBConfig_app (name : string) (config : value) (errs : list ValidationError) :
  validateDynamoDBConfig name config errs = (errs ++ validateDynamoDBConfig name config [])%list.
Proof.
  unfold validateDynamoDBConfig. apply section_loop_app.
  intros errs' [tableName table]. cbn [fst snd].
  destruct (not_an_object table); [ reflexivity | ].
  destruct (truthy (prop table "items") && negb (isArray (prop table "items")));
    [ reflexivity | rewrite app_nil_r; reflexivity ].
Qed.

Lemma validateDynamoDBConfig_nil (name : string) (config : value) :
  validateDynamoDBConfig name config [] = [] <-> dynamodb_ok config.
Proof.
  unfold validateDynamoDBConfig, dynamodb_ok. apply section_loop_nil.
  - intros errs' [tableName table]. cbn [fst snd].
    destruct (not_an_object table); [ reflexivity | ].
    destruct (truthy (prop table "items") && negb (isArray (prop table "items")));
      [ reflexivity | rewrite app_nil_r; reflexivity ].
  - intros tableName table. cbn [fst snd].
    apply check_then; [ apply not_an_object_false | ].
    apply check_last. apply items_check.
Qed.

Lemma validateLambdaConfig_app (name : string) (config : value) (errs : list ValidationError) :
  validateLambdaConfig name config errs = (errs ++ validateLambdaConfig name config [])%list.
Proof.
  unfold validateLambdaConfig. apply section_loop_app.
  intros errs' [functionName function]. cbn [fst snd].
  destruct (not_an_object function); [ reflexivity | ].
  destruct (truthy (prop function "response") &&
            negb (typeof (prop function "response") =? "object"));
    [ reflexivity | rewrite app_nil_r; reflexivity ].
Qed.

Lemma validateLambdaConfig_nil (name : string) (config : value) :
  validateLambdaConfig name config [] = [] <-> lambda_ok config.
Proof.
  unfold validateLambdaConfig, lambda_ok. apply section_loop_nil.
  - intros errs' [functionName function]. cbn [fst snd].
    destruct (not_an_object function); [ reflexivity | ].
    destruct (truthy (prop function "response") &&
              negb (typeof (prop function "response") =? "object"));
      [ reflexivity | rewrite app_nil_r; reflexivity ].
  - intros functionName function. cbn [fst snd].
    apply check_then; [ apply not_an_object_false | ].
    apply check_last. apply response_check.
Qed.

Lemma validateSQSConfig_app (name : string) (config : value) (errs : list ValidationError) :
  validateSQSConfig name config errs = (errs ++ validateSQSConfig name config [])%list.
Proof.
  unfold validateSQSConfig. apply section_loop_app.
  intros errs' [queueName queue]. cbn [fst snd].
  destruct (not_an_object queue); [ reflexivity | rewrite app_nil_r; reflexivity ].
Qed.

Lemma validateSQSConfig_nil (name : string) (config : value) :
  validateSQSConfig name config [] = [] <-> sqs_ok config.
Proof.
  unfold validateSQSConfig, sqs_ok. apply section_loop_nil.
  - intros errs' [queueName queue]. cbn [fst snd].
    destruct (not_an_object queue); [ reflexivity | rewrite app_nil_r; reflexivity ].
  - intros queueName queue. cbn [fst snd].
    apply check_last. apply not_an_object_false.
Qed.

Lemma validateSNSConfig_app (name : string) (config : value) (errs : list ValidationError) :
  validateSNSConfig name config errs = (errs ++ validateSNSConfig name config [])%list.
Proof.
  unfold validateSNSConfig. apply section_loop_app.
  intros errs' [topicName topic]. cbn [fst snd].
  destruct (not_an_object topic); [ reflexivity | rewrite app_nil_r; reflexivity ].
Qed.

Lemma validateSNSConfig_nil (name : string) (config : value) :
  validateSNSConfig name config [] = [] <-> sns_ok config.
Proof.
  unfold validateSNSConfig, sns_ok. apply section_loop_nil.
  - intros errs' [topicName topic]. cbn [fst snd].
    destruct (not_an_object topic); [ reflexivity | rewrite app_nil_r; reflexivity ].
  - intros topicName topic. cbn [fst snd].
    apply check_last. apply not_an_object_false.
Qed.

Lemma validateGenericServiceConfig_app (name : string) (config : value)
    (errs : list ValidationError) :
  validateGenericServiceConfig name config errs
  = (errs ++ validateGenericServiceConfig name config [])%list.
Proof.
  unfold validateGenericServiceConfig.
  destruct (negb (is_undefined (prop config "port")) && bad_port (prop config "port"));
    [ reflexivity | rewrite app_nil_r; reflexivity ].
Qed.

Lemma validateGenericServiceConfig_nil (name : string) (config : value) :
  validateGenericServiceConfig name config [] = [] <-> port_ok (prop config "port").
Proof.
  unfold validateGenericServiceConfig. apply check_last. apply bad_port_false.
Qed.

End ValidatorChecks.

Section ValidatorWhole.
Import Str Js JsExtra Validator ValidSpec.

Lemma includes_string_In (l : list string) (s : string) :
  includes_string l s = true <-> In s l.
Proof.
  unfold includes_string. rewrite existsb_exists. split.
  - intros [x [Hin Heq]]. apply String.eqb_eq in Heq. subst x. exact Hin.
  - intros Hin. exists s. split; [ exact Hin | apply String.eqb_refl ].
Qed.

Lemma supported_check (name : string) :
  negb (includes_string SUPPORTED_SERVICES name) = false <-> In name SUPPORTED_SERVICES.
Proof. rewrite negb_false_iff. apply includes_string_In. Qed.

Lemma service_step_app (errs : list ValidationError) (name : string) (config : value) :
  (if name =? "s3" then validateS3Config name config errs
   else if name =? "dynamodb" then validateDynamoDBConfig name config errs
   else if name =? "lambda" then validateLambdaConfig name config errs
   else if name =? "sqs" then validateSQSConfig name config errs
   else if name =? "sns" then validateSNSConfig name config errs
   else validateGenericServiceConfig name config errs)
  = (errs ++
     (if name =? "s3" then validateS3Config name config []
      else if name =? "dynamodb" then validateDynamoDBConfig name config []
      else if name =? "lambda" then validateLambdaConfig name config []
      else if name =? "sqs" then validateSQSConfig name config []
      else if name =? "sns" then validateSNSConfig name config []
      else validateGenericServiceConfig name config []))%list.
Proof.
  destruct (name =? "s3"); [ apply validateS3Config_app | ].
  destruct (name =? "dynamodb"); [ apply validateDynamoDBConfig_app | ].
  destruct (name =? "lambda"); [ apply validateLambdaConfig_app | ].
  destruct (name =? "sqs"); [ apply validateSQSConfig_app | ].
  destruct (name =? "sns"); [ apply validateSNSConfig_app | ].
  apply validateGenericServiceConfig_app.
Qed.

Lemma validateServices_step (errs : list ValidationError) (x : string * value) :
  (if negb (includes_string SUPPORTED_SERVICES (fst x)) then
     (errs ++
      [ error ("Unsupported service: " ++ fst x) ("services." ++ fst x)
          ("Use one of: " ++ join ", " SUPPORTED_SERVICES) ])%list
   else if not_an_object (snd x) then
     (errs ++
      [ error ("Service " ++ fst x ++ " must be an object") ("services." ++ fst x)
          ("Change " ++ fst x ++ " to an object with service configuration") ])%list
   else if fst x =? "s3" then validateS3Config (fst x) (snd x) errs
   else if fst x =? "dynamodb" then validateDynamoDBConfig (fst x) (snd x) errs
   else if fst x =? "lambda" then validateLambdaConfig (fst x) (snd x) errs
   else if fst x =? "sqs" then validateSQSConfig (fst x) (snd x) errs
   else if fst x =? "sns" then validateSNSConfig (fst x) (snd x) errs
   else validateGenericServiceConfig (fst x) (snd x) errs)
  = (errs ++
     (if negb (includes_string SUPPORTED_SERVICES (fst x)) then
        ([] ++
         [ error ("Unsupported service: " ++ fst x) ("services." ++ fst x)
             ("Use one of: " ++ join ", " SUPPORTED_SERVICES) ])%list
      else if not_an_object (snd x) then
        ([] ++
         [ error ("Service " ++ fst x ++ " must be an object") ("services." ++ fst x)
             ("Change " ++ fst x ++ " to an object with service configuration") ])%list
      else if fst x =? "s3" then validateS3Config (fst x) (snd x) []
      else if fst x =? "dynamodb" then validateDynamoDBConfig (fst x) (snd x) []
      else if fst x =? "lambda" then validateLambdaConfig (fst x) (snd x) []
      else if fst x =? "sqs" then validateSQSConfig (fst x) (snd x) []
      else if fst x =? "sns" then validateSNSConfig (fst x) (snd x) []
      else validateGenericServiceConfig (fst x) (snd x) []))%list.
Proof.
  destruct (negb (includes_string SUPPORTED_SERVICES (fst x))); [ reflexivity | ].
  destruct (not_an_object (snd x)); [ reflexivity | ].
  apply service_step_app.
Qed.

Lemma validateServices_app (services : value) (errs : list ValidationError) :
  validateServices services errs = (errs ++ validateServices services [])%list.
Proof.
  unfold validateServices.
  rewrite (fold_left_accumulates _ validateServices_step _ errs).
  rewrite (fold_left_accumulates _ validateServices_step _ []).
  reflexivity.
Qed.

Lemma validateServices_nil (services : value) :
  validateServices services [] = []
  <-> (forall name service, In (name, service) (entries services) -> service_ok name service).
Proof.
  unfold validateServices.
  rewrite (fold_left_accumulates _ validateServices_step _ []). cbn [app].
  rewrite flat_map_nil.
  assert (Hstep : forall name service,
             (if negb (includes_string SUPPORTED_SERVICES name) then
                ([] ++
                 [ error ("Unsupported service: " ++ name) ("services." ++ name)
                     ("Use one of: " ++ join ", " SUPPORTED_SERVICES) ])%list
              else if not_an_object service then
                ([] ++
                 [ error ("Service " ++ name ++ " must be an object") ("services." ++ name)
                     ("Change " ++ name ++ " to an object with service configuration") ])%list
              else if name =? "s3" then validateS3Config name service []
              else if name =? "dynamodb" then validateDynamoDBConfig name service []
              else if name =? "lambda" then validateLambdaConfig name service []
              else if name =? "sqs" then validateSQSConfig name service []
              else if name =? "sns" then validateSNSConfig name service []
              else validateGenericServiceConfig name service []) = []
             <-> service_ok name service).
  { intros name service. unfold service_ok.
    apply check_then; [ apply supported_check | ].
    apply check_then; [ apply not_an_object_false | ].
    destruct (name =? "s3"); [ apply validateS3Config_nil | ].
    destruct (name =? "dynamodb"); [ apply validateDynamoDBConfig_nil | ].
    destruct (name =? "lambda"); [ apply validateLambdaConfig_nil | ].
    destruct (name =? "sqs"); [ apply validateSQSConfig_nil | ].
    destruct (name =? "sns"); [ apply validateSNSConfig_nil | ].
    apply validateGenericServiceConfig_nil. }
  split.
  - intros H name service Hin. apply (proj1 (Hstep name service)).
    apply (H (name, service) Hin).
  - intros H [name service] Hin. apply (proj2 (Hstep name service)). apply H. exact Hin.
Qed.

Lemma logLevel_check (l : value) :
  negb (is_undefined l) &&
  negb (match l with
        | VStr s => includes_string [ "error"; "warn"; "info"; "debug" ] s
        | _ => false
        end) = false
  <-> (l = VUndefined \/
       exists s, l = VStr s /\ In s [ "error"; "warn"; "info"; "debug" ]).
Proof.
  destruct l as [| |b|n|s|items|fields|callable name]; cbn [is_undefined negb andb]; split; intros H;
    try discriminate H; try reflexivity; try (left; reflexivity);
    try (destruct H as [H|[? [H _]]]; discriminate H).
  - right. exists s. split; [ reflexivity | ].
    apply includes_string_In. apply negb_false_iff. exact H.
  - destruct H as [H|[s' [H Hin]]]; [ discriminate H | ].
    injection H as <-. apply negb_false_iff. apply includes_string_In. exact Hin.
Qed.

Lemma delay_check (d : value) :
  negb (is_undefined d) &&
  match d with
  | VNum n => (n <? 0)%Z
  | _ => true
  end = false
  <-> (d = VUndefined \/ exists n, d = VNum n /\ (0 <= n)%Z).
Proof.
  destruct d as [| |b|n|s|items|fields|callable name]; cbn [is_undefined negb andb]; split; intros H;
    try discriminate H; try reflexivity; try (left; reflexivity);
    try (destruct H as [H|[? [H _]]]; discriminate H).
  - right. exists n. split; [ reflexivity | ]. apply Z.ltb_ge. exact H.
  - destruct H as [H|[m [H Hm]]]; [ discriminate H | ].
    injection H as <-. apply Z.ltb_ge. exact Hm.
Qed.

Lemma validateGlobalConfig_app (global : value) (errs : list ValidationError) :
  validateGlobalConfig global errs = (errs ++ validateGlobalConfig global [])%list.
Proof.
  unfold validateGlobalConfig.
  destruct (negb (is_undefined (prop global "port")) && bad_port (prop global "port"));
    destruct (negb (is_undefined (prop global "logLevel")) && _);
    destruct (negb (is_undefined (prop global "delayResponses")) && _);
    cbn [app]; rewrite <- ?app_assoc, ?app_nil_r; reflexivity.
Qed.

Lemma validateGlobalConfig_nil (global : value) :
  validateGlobalConfig global [] = [] <-> global_ok global.
Proof.
  unfold validateGlobalConfig, global_ok.
  rewrite <- bad_port_false, <- logLevel_check, <- delay_check.
  destruct (negb (is_undefined (prop global "port")) && bad_port (prop global "port"));
    destruct (negb (is_undefined (prop global "logLevel")) && _);
    destruct (negb (is_undefined (prop global "delayResponses")) && _);
    cbn [app]; split; intros H;
    try discriminate H; try (repeat split; reflexivity);
    try (destruct H as [H1 [H2 H3]]; discriminate).
Qed.

(** The version pattern: a non-empty run of digits, a dot, a non-empty run
    of digits, and nothing else. *)
Lemma skip_digits_app (a : string) (c : ascii) (rest : string) :
  all_digits a = true -> is_digit c = false ->
  skip_digits (a ++ String c rest) = String c rest.
Proof.
  intros Ha Hc. induction a as [|x a IH]; cbn [append skip_digits].
  - rewrite Hc. reflexivity.
  - cbn [all_digits] in Ha. apply andb_true_iff in Ha as [Hx Ha].
    rewrite Hx. apply IH. exact Ha.
Qed.

Lemma skip_digits_split (s : string) :
  exists a, s = a ++ skip_digits s /\ all_digits a = true /\
            (starts_with_digit s = true -> a <> EmptyString).
Proof.
  induction s as [|c s IH].
  - exists EmptyString. cbn. repeat split. discriminate.
  - cbn [skip_digits starts_with_digit]. destruct (is_digit c) eqn:Hc.
    + destruct IH as [a [Hs [Ha _]]]. exists (String c a). cbn [append all_digits].
      rewrite Hc, Ha. split; [ f_equal; exact Hs | ]. split; [ reflexivity | ].
      intros _. discriminate.
    + exists EmptyString. cbn. repeat split. discriminate.
Qed.

Lemma version_pattern_iff (s : string) :
  version_pattern s = true
  <-> exists a b, s = a ++ "." ++ b /\ a <> EmptyString /\ b <> EmptyString /\
                  all_digits a = true /\ all_digits b = true.
Proof.
  unfold version_pattern. split.
  - intros H. apply andb_true_iff in H as [Hs H].
    destruct (skip_digits_split s) as [a [Hsplit [Ha Hne]]].
    destruct (skip_digits s) as [|c rest]; [ discriminate H | ].
    apply andb_true_iff in H as [H Hall]. apply andb_true_iff in H as [Hc Hrest].
    apply Ascii.eqb_eq in Hc. subst c.
    exists a, rest. split; [ exact Hsplit | ]. split; [ apply Hne; exact Hs | ].
    split; [ intros ->; discriminate Hrest | ]. split; assumption.
  - intros [a [b [-> [Hane [Hbne [Ha Hb]]]]]].
    cbn [append]. rewrite (skip_digits_app a "." b Ha eq_refl).
    destruct a as [|x a]; [ contradiction | ].
    destruct b as [|y b]; [ contradiction | ].
    cbn [append starts_with_digit]. cbn [all_digits] in Ha.
    apply andb_true_iff in Ha as [Hx _]. rewrite Hx.
    pose proof Hb as Hb'. cbn [all_digits] in Hb'. apply andb_true_iff in Hb' as [Hy _].
    rewrite Hy, Hb. reflexivity.
Qed.

End ValidatorWhole.

Section ValidatorAccepts.
Import Str Js JsExtra Validator ValidSpec.

Lemma not_object_guard (v : value) :
  negb (truthy v) || negb (typeof v =? "object") = false <-> object_like v.
Proof.
  rewrite <- guard_object.
  destruct (truthy v); destruct (typeof v =? "object"); cbn; split; congruence.
Qed.

Lemma object_like_truthy (v : value) : object_like v -> truthy v = true.
Proof. intros [[? ->]|[[? ->]|[? ->]]]; reflexivity. Qed.

Lemma length_zero {E : Type} (l : list E) : (List.length l =? 0)%nat = true <-> l = [].
Proof. destruct l; cbn; split; intros H; try reflexivity; discriminate H. Qed.

Lemma version_checks (v : value) :
  negb (truthy v) || negb (typeof v =? "string") = false /\
  version_mismatch v = Ok false
  <-> version_ok v.
Proof.
  unfold version_ok, version_mismatch. split.
  - intros [H1 H2]. apply orb_false_iff in H1 as [Ht Hs].
    apply negb_false_iff in Ht. apply negb_false_iff in Hs.
    destruct v as [| |b|n|s|items|fields|[|] name]; try discriminate Hs.
    rewrite Ht in H2. cbn [ToString] in H2. injection H2 as H2.
    apply negb_false_iff in H2.
    apply version_pattern_iff in H2 as [a [b [-> H]]]. exists a, b.
    split; [ reflexivity | exact H ].
  - intros [a [b [-> [Hane [Hbne [Ha Hb]]]]]].
    assert (Ht : truthy (VStr (a ++ "." ++ b)) = true).
    { destruct a; [ contradiction | reflexivity ]. }
    rewrite Ht. cbn [negb orb andb typeof ToString]. split; [ reflexivity | ].
    f_equal. apply negb_false_iff. apply version_pattern_iff. exists a, b.
    repeat split; assumption.
Qed.

(** What [validate] gives for an object-like configuration: it throws
    when the test of the version text does, and otherwise returns the
    errors of its checks in their order. *)
Lemma validate_object (config : value) :
  object_like config ->
  validate config =
  match version_mismatch (prop config "version") with
  | Ok mismatch =>
      Ok {| valid := (List.length (errors_of config mismatch) =? 0)%nat;
            errors := errors_of config mismatch |}
  | Throw e => Throw e
  | Pending => Pending
  end.
Proof.
  intros Hobj. unfold validate.
  rewrite (proj2 (not_object_guard config) Hobj). cbv zeta.
  destruct (version_mismatch (prop config "version")) as [mismatch| |]; try reflexivity.
  assert (E : forall l, l = errors_of config mismatch ->
                        Ok {| valid := (List.length l =? 0)%nat; errors := l |} =
                        Ok {| valid := (List.length (errors_of config mismatch) =? 0)%nat;
                              errors := errors_of config mismatch |}).
  { intros l ->. reflexivity. }
  apply E. unfold errors_of.
  destruct (negb (truthy (prop config "version")) || _);
    destruct (negb (truthy (prop config "services")) || _);
    destruct mismatch;
    destruct (truthy (prop config "services"));
    destruct (truthy (prop config "global"));
    rewrite ?(validateGlobalConfig_app _ (_ ++ _)), ?(validateGlobalConfig_app _ (validateServices _ _)),
      ?(validateServices_app _ (_ ++ _));
    cbn [app]; rewrite ?app_nil_r, <- ?app_assoc; cbn [app]; reflexivity.
Qed.

(** What [validate] gives for anything else. *)
Lemma validate_not_object (config : value) :
  ~ object_like config ->
  validate config =
  Ok {| valid := false;
        errors :=
          [ error "Configuration must be a valid JSON object" EmptyString
              "Ensure the file contains valid JSON syntax" ] |}.
Proof.
  intros Hobj. unfold validate.
  destruct (negb (truthy config) || negb (typeof config =? "object")) eqn:E;
    [ reflexivity | ].
  exfalso. apply Hobj. apply not_object_guard. exact E.
Qed.

Lemma validate_valid_object (config : value) (r : ValidationResult) :
  validate config = Ok r -> valid r = true -> object_like config.
Proof.
  intros Hr Hvalid. apply not_object_guard. unfold validate in Hr.
  destruct (negb (truthy config) || negb (typeof config =? "object"));
    [ | reflexivity ].
  injection Hr as <-. discriminate Hvalid.
Qed.

(** Soundness: what an accepted configuration is known to satisfy. *)
Lemma validate_valid_sound (config : value) (r : ValidationResult) :
  validate config = Ok r -> valid r = true -> config_ok config.
Proof.
  unfold config_ok. intros Hr Hvalid.
  pose proof (validate_valid_object config r Hr Hvalid) as Hobj.
  rewrite (validate_object config Hobj) in Hr.
  destruct (version_mismatch (prop config "version")) as [mismatch| |] eqn:Hm;
    try discriminate Hr.
  injection Hr as <-. cbn [valid] in Hvalid.
  apply length_zero in Hvalid. unfold errors_of in Hvalid.
  apply app_eq_nil in Hvalid as [E1 Herrors].
  apply app_eq_nil in Herrors as [E2 Herrors].
  apply app_eq_nil in Herrors as [E3 Herrors].
  apply app_eq_nil in Herrors as [E4 E5].
  assert (C1 : negb (truthy (prop config "version")) ||
               negb (typeof (prop config "version") =? "string") = false).
  { destruct (negb (truthy (prop config "version")) || _);
      [ discriminate E1 | reflexivity ]. }
  assert (C2 : negb (truthy (prop config "services")) ||
               negb (typeof (prop config "services") =? "object") = false).
  { destruct (negb (truthy (prop config "services")) || _);
      [ discriminate E2 | reflexivity ]. }
  assert (C3 : mismatch = false).
  { destruct mismatch; [ discriminate E3 | reflexivity ]. }
  subst mismatch.
  apply not_object_guard in C2.
  split; [ exact Hobj | ].
  split; [ apply version_checks; split; assumption | ].
  split; [ exact C2 | ].
  split.
  - rewrite (object_like_truthy _ C2) in E4. apply validateServices_nil. exact E4.
  - intros Hg. rewrite Hg in E5. apply validateGlobalConfig_nil. exact E5.
Qed.

(** Completeness: nothing else is asked of a configuration. *)
Lemma validate_valid_complete (config : value) :
  config_ok config -> exists r, validate config = Ok r /\ valid r = true.
Proof.
  unfold config_ok.
  intros [Hobj [Hversion [Hservices [Hentries Hglobal]]]].
  rewrite (validate_object config Hobj).
  apply version_checks in Hversion as [C1 C3]. rewrite C3.
  eexists. split; [ reflexivity | ]. cbn [valid].
  apply length_zero. unfold errors_of. rewrite C1.
  rewrite (proj2 (not_object_guard _) Hservices).
  rewrite (object_like_truthy _ Hservices).
  rewrite (proj2 (validateServices_nil _) Hentries).
  destruct (truthy (prop config "global")); [ | reflexivity ].
  rewrite (proj2 (validateGlobalConfig_nil _) (Hglobal eq_refl)). reflexivity.
Qed.

Lemma accepts_true (config : value) :
  accepts config = true <-> exists r, validate config = Ok r /\ valid r = true.
Proof.
  unfold accepts. split.
  - destruct (validate config) as [r| |]; try discriminate.
    intros H. exists r. split; [ reflexivity | exact H ].
  - intros [r [-> H]]. exact H.
Qed.

(** X12.  The validator accepts a parsed configuration, that is, returns a
    result that is valid, exactly when the configuration is an
    object (or an array) whose version is digits, a dot, digits; whose
    services member is an object (or an array) in which every entry has a
    supported name, an object as value and passes the checks of its
    service; and whose global member, when truthy, has a port, a log level
    and a delay that are absent or in range. *)
Theorem validate_accepts_exactly (config : value) :
  (exists r, validate config = Ok r /\ valid r = true) <-> config_ok config.
Proof.
  split.
  - intros [r [Hr Hvalid]]. exact (validate_valid_sound config r Hr Hvalid).
  - apply validate_valid_complete.
Qed.

End ValidatorAccepts.

(** ** What validation buys the proxy *)

Section ValidatedCatalog.
Import Str Js JsExtra Proxy Validator ValidSpec.

Lemma own_property_In (fields : list (string * value)) (k : string) :
  own_property fields k <> VUndefined -> In (k, own_property fields k) fields.
Proof.
  induction fields as [|[k' v] fields IH]; cbn [own_property]; intros H.
  - contradiction.
  - destruct (k' =? k) eqn:E.
    + apply String.eqb_eq in E. subst k'. left. reflexivity.
    + right. apply IH. exact H.
Qed.

Lemma object_like_member (v : value) (k : string) :
  object_like v -> member v k = Ok (prop v k) /\ opt_member v k = prop v k.
Proof. intros [[? ->]|[[? ->]|[? ->]]]; split; reflexivity. Qed.

Lemma prop_plain (fields : list (string * value)) (k : string) :
  inherited [ Object_prototype ] k = VUndefined ->
  prop (VObj fields) k = own_property fields k.
Proof. intros H. unfold prop. rewrite (member_plain _ _ H). reflexivity. Qed.

Lemma insert_by_index_In (i : nat) (kv : string * value) (l : list (nat * (string * value))) :
  forall x, In x (insert_by_index i kv l) <-> x = (i, kv) \/ In x l.
Proof.
  induction l as [|[j kv'] l IH]; intros x; cbn [insert_by_index In].
  - split; [ intros [H|[]]; left; symmetry; exact H | intros [H|[]]; left; symmetry; exact H ].
  - destruct (i <? j)%nat; cbn [In].
    + split; [ intros [H|H]; [ left; symmetry; exact H | right; exact H ]
             | intros [H|H]; [ left; symmetry; exact H | right; exact H ] ].
    + rewrite IH. tauto.
Qed.

(** Enumeration reorders the own properties and drops none. *)
Lemma In_ordered (fields : list (string * value)) (kv : string * value) :
  In kv (ordered fields) <-> In kv fields.
Proof.
  unfold ordered. rewrite in_app_iff, filter_In, in_map_iff.
  assert (Hidx : forall x, In x (index_entries fields) <->
                           In (snd x) fields /\ index_key (fst (snd x)) = Some (fst x)).
  { induction fields as [|f fields IH]; intros x; cbn [index_entries In].
    - tauto.
    - destruct (index_key (fst f)) as [i|] eqn:E.
      + rewrite insert_by_index_In, IH. split.
        * intros [->|[H1 H2]]; [ split; [ left; reflexivity | exact E ] | tauto ].
        * intros [[H1|H1] H2]; [ | tauto ].
          left. destruct x as [n y]. cbn [fst snd] in *. subst y.
          rewrite E in H2. injection H2 as <-. reflexivity.
      + rewrite IH. split; [ tauto | ].
        intros [[H1|H1] H2]; [ | tauto ].
        subst f. rewrite E in H2. discriminate H2. }
  split.
  - intros [[x [<- Hx]]|[H _]]; [ apply Hidx in Hx; tauto | exact H ].
  - intros H. destruct (index_key (fst kv)) as [i|] eqn:E.
    + left. exists (i, kv). split; [ reflexivity | ]. apply Hidx. split; assumption.
    + right. split; [ exact H | reflexivity ].
Qed.

Lemma prop_object_source (v : value) (k : string) (fields : list (string * value)) :
  prop v k = VObj fields -> v <> VUndefined.
Proof. intros H ->. discriminate H. Qed.

(** X13.  In a configuration the validator accepts, a GET of an object that
    the [s3] catalog lists (bucket and object maps being objects) is
    answered 200 with the object's [content], and that body is truthy: a
    validated object is never served with an undefined or empty body. *)
Theorem validated_object_served
    (config : value) (bucketFields objectFields : list (string * value))
    (operation : string) (req : IncomingMessage) (bucket key : string) (w : World) :
  accepts config = true ->
  prop (prop (prop config "services") "s3") "buckets" = VObj bucketFields ->
  prop (own_property bucketFields bucket) "objects" = VObj objectFields ->
  own_property objectFields key <> VUndefined ->
  is_method req "GET" = true ->
  nth_error (pathParts (orElse (url req) EmptyString)) 0 = Some bucket ->
  join "/" (skipn 1 (pathParts (orElse (url req) EmptyString))) = key ->
  key <> EmptyString ->
  exists response,
    generateS3Response operation (prop (prop config "services") "s3") req w
      = (Ok response, set_reads (S (S (reads w))) w) /\
    statusCode response = 200%Z /\
    body response = prop (own_property objectFields key) "content" /\
    truthy (body response) = true.
Proof.
  intros Hvalid Hbuckets Hobjects Hkeyed Hget Hbucket Hkey Hne.
  apply accepts_true in Hvalid as [r [Hr Hvalid]].
  apply (validate_valid_sound config r Hr) in Hvalid.
  destruct Hvalid as [_ [_ [Hservices [Hentries _]]]].
  set (serviceConfig := prop (prop config "services") "s3") in *.
  assert (Hs3 : In ("s3", serviceConfig) (entries (prop config "services"))).
  { pose proof (prop_object_source _ _ _ Hbuckets) as Hdef.
    destruct Hservices as [[sf Hsf]|[[items Hitems]|[name Hname]]].
    - unfold serviceConfig in *. rewrite Hsf in *. cbn [entries].
      rewrite (prop_plain sf "s3" eq_refl) in *.
      apply In_ordered. apply own_property_In. exact Hdef.
    - unfold serviceConfig in Hdef. rewrite Hitems in Hdef. exfalso. apply Hdef. reflexivity.
    - unfold serviceConfig in Hdef. rewrite Hname in Hdef. exfalso. apply Hdef. reflexivity. }
  destruct (Hentries _ _ Hs3) as [_ [Hservice Hs3ok]]. cbn in Hs3ok.
  unfold s3_ok, each_entry in Hs3ok. rewrite Hbuckets in Hs3ok.
  pose proof (prop_object_source _ _ _ Hobjects) as Hbdef.
  destruct (Hs3ok (or_introl (ex_intro _ bucketFields eq_refl)) bucket _
              (proj2 (In_ordered _ _) (own_property_In _ _ Hbdef))) as [Hbobj Hobjs].
  rewrite Hobjects in Hobjs.
  destruct (Hobjs (or_introl (ex_intro _ objectFields eq_refl)) key _
              (proj2 (In_ordered _ _) (own_property_In _ _ Hkeyed))) as [Hoobj Hcontent].
  destruct (object_like_member _ "buckets" Hservice) as [Mb _].
  destruct (object_like_member _ "objects" Hbobj) as [_ Mo].
  destruct (object_like_member _ "metadata" Hoobj) as [Mm _].
  destruct (object_like_member _ "content" Hoobj) as [Mc _].
  eexists. split; [ | split; [ | split ] ].
  - apply (generateS3Response_get_hit operation serviceConfig req bucket key
             Hbucket Hkey Hne w (VObj bucketFields) (own_property objectFields key)
             (prop (own_property objectFields key) "metadata")
             (prop (own_property objectFields key) "content")).
    + exact Hget.
    + rewrite Mb, Hbuckets. reflexivity.
    + rewrite (opt_member_own bucketFields bucket Hbdef).
      rewrite Mo, Hobjects. apply opt_member_own. exact Hkeyed.
    + apply object_like_truthy. exact Hoobj.
    + exact Mm.
    + exact Mc.
  - reflexivity.
  - reflexivity.
  - exact Hcontent.
Qed.

End ValidatedCatalog.

Section ValidatedCatalogExample.
Import Str Js JsExtra Proxy Validator ValidSpec.

Lemma validated_object_served_witness :
  exists response,
    generateS3Response "GET_example-bucket"
      (prop (prop Manager.templateConfig "services") "s3")
      (Sample.request "GET" "/example-bucket/test-file.txt")
      (fresh_world [] Sample.ticking)
      = (Ok response, set_reads 2 (fresh_world [] Sample.ticking)) /\
    statusCode response = 200%Z /\
    body response = VStr "Hello, World!" /\
    truthy (body response) = true.
Proof.
  apply (validated_object_served Manager.templateConfig
           [ ("example-bucket",
              VObj [ ("objects",
                      VObj [ ("test-file.txt",
                              VObj [ ("content", VStr "Hello, World!");
                                     ("metadata",
                                      VObj [ ("ContentType", VStr "text/plain") ]) ]) ]) ]) ]
           [ ("test-file.txt",
              VObj [ ("content", VStr "Hello, World!");
                     ("metadata", VObj [ ("ContentType", VStr "text/plain") ]) ]) ]
           "GET_example-bucket"
           (Sample.request "GET" "/example-bucket/test-file.txt")
           "example-bucket" "test-file.txt" (fresh_world [] Sample.ticking)).
  - vm_compute. reflexivity.
  - reflexivity.
  - reflexivity.
  - discriminate.
  - reflexivity.
  - reflexivity.
  - reflexivity.
  - discriminate.
Defined.

End ValidatedCatalogExample.

(** ** The manager *)

Section ManagerFacts.
Import Str Js JsExtra Proxy Relay Validator Manager.

Lemma templateConfig_valid : accepts templateConfig = true.
Proof. vm_compute. reflexivity. Qed.

Lemma accepts_false (v : value) :
  accepts v = false ->
  (exists r, validate v = Ok r /\ valid r = false) \/
  (forall r, validate v <> Ok r).
Proof.
  unfold accepts. destruct (validate v) as [r| |]; intros H.
  - left. exists r. split; [ reflexivity | exact H ].
  - right. intros r Hr. discriminate Hr.
  - right. intros r Hr. discriminate Hr.
Qed.

(** [loadConfig] throws exactly when the path cannot be computed in an
    open workspace, and then changes nothing. *)
Lemma loadConfig_outcome (s : System) :
  fst (loadConfig s) =
    match configFile s with
    | Some Unlocated => if workspace s then Throw "TypeError" else Ok tt
    | _ => Ok tt
    end /\
  (fst (loadConfig s) <> Ok tt -> snd (loadConfig s) = s).
Proof.
  unfold loadConfig. destruct (workspace s); cbn [negb].
  - destruct (configFile s) as [[v| |]|].
    + destruct (validate v) as [r| |]; [ destruct (valid r) | | ];
        cbn [negb fst snd]; split; try reflexivity; intros H; contradiction H; reflexivity.
    + split; [ reflexivity | intros H; contradiction H; reflexivity ].
    + split; reflexivity.
    + split; [ reflexivity | intros H; contradiction H; reflexivity ].
  - destruct (configFile s) as [[v| |]|];
      split; try reflexivity; intros H; contradiction H; reflexivity.
Qed.

(** What [loadConfig] leaves in the manager. *)
Lemma loadConfig_result (s : System) :
  world (snd (loadConfig s)) = world s /\
  workspace (snd (loadConfig s)) = workspace s /\
  port_free (snd (loadConfig s)) = port_free s /\
  enabled (manager (snd (loadConfig s))) = enabled (manager s) /\
  m_config (manager (snd (loadConfig s))) =
    match configFile s with
    | Some (Json v) =>
        if workspace s && accepts v then Some v else m_config (manager s)
    | _ => m_config (manager s)
    end.
Proof.
  unfold loadConfig, createTemplateConfig, accepts.
  destruct s as [[mc en] w ws cf wr pf].
  cbn [workspace configFile writable manager world port_free enabled m_config].
  destruct ws; cbn [negb andb].
  - destruct cf as [[v| |]|].
    + destruct (validate v) as [r| |]; [ destruct (valid r) | | ];
        cbn [negb]; repeat split.
    + repeat split.
    + repeat split.
    + destruct wr; repeat split.
  - destruct cf as [[v| |]|]; repeat split.
Qed.

(** X15.  [reloadConfig] throws only when the path of the configuration
    file cannot be computed in an open workspace (the list of workspace
    folders is empty, or the setting is not a string), and it has then
    changed nothing.  In every other case it returns.  It never opens or
    closes a listener, nor touches the environment or the enabled flag.
    A file that exists in an open workspace, parses and passes the
    validator replaces the catalog of the manager; otherwise the manager
    keeps the catalog it had.  When it returns, the proxy has been given
    the manager's catalog, if the manager has one. *)
Theorem reloadConfig_effect (s : System) :
  let s' := snd (reloadConfig s) in
  fst (reloadConfig s) =
    match configFile s with
    | Some Unlocated => if workspace s then Throw "TypeError" else Ok tt
    | _ => Ok tt
    end /\
  (fst (reloadConfig s) <> Ok tt -> s' = s) /\
  m_config (manager s') =
    match configFile s with
    | Some (Json v) =>
        if workspace s && accepts v then Some v else m_config (manager s)
    | _ => m_config (manager s)
    end /\
  (fst (reloadConfig s) = Ok tt ->
   config (self (world s')) =
     match m_config (manager s') with
     | Some c => Some (asMockConfig c)
     | None => config (self (world s))
     end) /\
  enabled (manager s') = enabled (manager s) /\
  server (self (world s')) = server (self (world s)) /\
  listening (world s') = listening (world s) /\
  env (world s') = env (world s).
Proof.
  cbv zeta. unfold reloadConfig.
  destruct (loadConfig_result s) as [Hw [_ [_ [He Hm]]]].
  destruct (loadConfig_outcome s) as [Ho Hsame].
  rewrite <- Ho. clear Ho.
  destruct (loadConfig s) as [[[]|e|] s1]; cbn [fst snd] in *.
  - destruct (m_config (manager s1)) as [c|] eqn:Hc.
    + unfold updateConfig. cbn [fst snd world manager set_world].
      rewrite Hc, <- Hm, He, Hw.
      split; [ reflexivity | ]. split; [ intros H; contradiction H; reflexivity | ].
      repeat split.
    + cbn [fst snd]. rewrite Hc, <- Hm, He, Hw.
      split; [ reflexivity | ]. split; [ intros H; contradiction H; reflexivity | ].
      repeat split.
  - rewrite (Hsame ltac:(discriminate)) in *.
    split; [ reflexivity | ]. split; [ reflexivity | ]. split; [ exact Hm | ].
    split; [ intros H; discriminate H | repeat split ].
  - rewrite (Hsame ltac:(discriminate)) in *.
    split; [ reflexivity | ]. split; [ reflexivity | ]. split; [ exact Hm | ].
    split; [ intros H; discriminate H | repeat split ].
Qed.

(** X16.  When the manager is disabled and holds no catalog, and
    [loadConfig] finds nothing to load (no workspace, no file, an
    unreadable file or one the validator does not accept), [enable] still returns
    normally and marks the manager enabled, although no proxy was started:
    the world is untouched, and a further [enable] does nothing. *)
Theorem enable_without_catalog (s : System) :
  enabled (manager s) = false ->
  m_config (manager s) = None ->
  (workspace s = false \/ configFile s = None \/ configFile s = Some Unreadable \/
   exists v, configFile s = Some (Json v) /\ accepts v = false) ->
  let s' := snd (enable s) in
  fst (enable s) = Ok tt /\
  isEnabled s' = true /\
  m_config (manager s') = None /\
  world s' = world s /\
  enable s' = (Ok tt, s').
Proof.
  intros He Hm Hnothing. cbv zeta.
  destruct (loadConfig_result s) as [Hw [_ [_ [_ Hl]]]].
  destruct (loadConfig_outcome s) as [Ho _].
  assert (Hok : fst (loadConfig s) = Ok tt).
  { rewrite Ho. destruct Hnothing as [H|[H|[H|[v [H Hv]]]]]; rewrite H; try reflexivity.
    destruct (configFile s) as [[v| |]|]; reflexivity. }
  clear Ho.
  assert (Hnone : m_config (manager (snd (loadConfig s))) = None).
  { rewrite Hl. destruct Hnothing as [H|[H|[H|[v [H Hv]]]]].
    - rewrite H. destruct (configFile s) as [[v| |]|]; exact Hm.
    - rewrite H. exact Hm.
    - rewrite H. exact Hm.
    - rewrite H, Hv, andb_false_r. exact Hm. }
  assert (E : enable s =
              (Ok tt,
               set_manager {| m_config := None; enabled := true |} (snd (loadConfig s)))).
  { unfold enable. rewrite He.
    destruct (loadConfig s) as [r s1]. cbn [fst snd] in *. subst r.
    unfold startProxy. rewrite Hnone. rewrite Hnone. reflexivity. }
  rewrite E. cbn [fst snd isEnabled manager set_manager enabled m_config world].
  split; [ reflexivity | ]. split; [ reflexivity | ]. split; [ reflexivity | ].
  split; [ exact Hw | ].
  unfold enable. cbn [manager set_manager enabled]. reflexivity.
Qed.

Lemma enable_without_catalog_witness :
  isEnabled (snd (enable (fresh_system (fresh_world [] Sample.ticking)
                            true (Some Unreadable) true true))) = true /\
  world (snd (enable (fresh_system (fresh_world [] Sample.ticking)
                        true (Some Unreadable) true true)))
  = fresh_world [] Sample.ticking.
Proof.
  destruct (enable_without_catalog
              (fresh_system (fresh_world [] Sample.ticking) true (Some Unreadable) true true)
              eq_refl eq_refl (or_intror (or_intror (or_introl eq_refl))))
    as [_ [H1 [_ [H2 _]]]].
  split; [ exact H1 | exact H2 ].
Defined.

Lemma loadConfig_valid (s : System) (v : value) :
  workspace s = true ->
  configFile s = Some (Json v) ->
  accepts v = true ->
  loadConfig s =
  (Ok tt, set_manager {| m_config := Some v; enabled := enabled (manager s) |} s).
Proof.
  intros Hws Hf Hv. apply accepts_true in Hv as [r [Hr Hv]].
  unfold loadConfig. rewrite Hws, Hf, Hr, Hv. reflexivity.
Qed.

(** What [enable] does when there is a valid file. *)
Lemma enable_loaded (s : System) (v : value) :
  enabled (manager s) = false ->
  workspace s = true ->
  configFile s = Some (Json v) ->
  accepts v = true ->
  enable s =
  match start (asMockConfig v) (port_free s) (world s) with
  | (Ok _, w) =>
      (Ok tt,
       set_manager {| m_config := Some v; enabled := true |}
         (set_world w (set_manager {| m_config := Some v; enabled := false |} s)))
  | (Throw e, w) =>
      (Throw e, set_world w (set_manager {| m_config := Some v; enabled := false |} s))
  | (Pending, w) =>
      (Pending, set_world w (set_manager {| m_config := Some v; enabled := false |} s))
  end.
Proof.
  intros He Hws Hf Hv. unfold enable. rewrite He.
  rewrite (loadConfig_valid s v Hws Hf Hv). rewrite He.
  unfold startProxy. cbn [manager set_manager m_config world port_free].
  destruct (start (asMockConfig v) (port_free s) (world s)) as [[u|e|] w]; reflexivity.
Qed.

(** X17.  With a valid file and a free port, [enable] loads the catalog,
    starts the proxy on it and points both proxy variables at it;
    [disable] afterwards closes the listener, removes both variables,
    forgets the catalog and clears the enabled flag. *)
Theorem enable_disable_round_trip (s : System) (v : value) :
  enabled (manager s) = false ->
  workspace s = true ->
  configFile s = Some (Json v) ->
  accepts v = true ->
  port_free s = true ->
  listening (world s) = [] ->
  let s1 := snd (enable s) in
  let s2 := snd (disable s1) in
  fst (enable s) = Ok tt /\
  isEnabled s1 = true /\
  m_config (manager s1) = Some v /\
  config (self (world s1)) = Some (asMockConfig v) /\
  listening (world s1) = [ next_handle (world s) ] /\
  getenv (env (world s1)) "HTTP_PROXY"
    = Some ("http://localhost:" ++ decimal (port (self (world s)))) /\
  getenv (env (world s1)) "HTTPS_PROXY"
    = Some ("http://localhost:" ++ decimal (port (self (world s)))) /\
  fst (disable s1) = Ok tt /\
  isEnabled s2 = false /\
  m_config (manager s2) = None /\
  listening (world s2) = [] /\
  getenv (env (world s2)) "HTTP_PROXY" = None /\
  getenv (env (world s2)) "HTTPS_PROXY" = None.
Proof.
  intros He Hws Hf Hv Hp Hl. cbv zeta.
  rewrite (enable_loaded s v He Hws Hf Hv), Hp.
  destruct (start_result (asMockConfig v) (world s)) as [Hok [Hs1 [Hc [Hl1 [E1 [E2 _]]]]]].
  rewrite Hl in Hl1.
  destruct (stop_environment _ _ Hs1
              (proj1 (start_no_connection (asMockConfig v) true (world s))))
    as [Sok [Slist [_ [D1 [D2 _]]]]].
  destruct (start (asMockConfig v) true (world s)) as [r w1] eqn:Hstart.
  cbn [fst snd] in Hok, Hs1, Hc, Hl1, E1, E2, Sok, Slist, D1, D2. subst r.
  cbn [fst snd isEnabled manager set_manager set_world enabled m_config world].
  split; [ reflexivity | ]. split; [ reflexivity | ]. split; [ reflexivity | ].
  split; [ exact Hc | ]. split; [ exact Hl1 | ]. split; [ exact E1 | ]. split; [ exact E2 | ].
  unfold disable, stopProxy.
  cbn [manager set_manager set_world enabled negb world].
  destruct (stop w1) as [r w2] eqn:Hstop. cbn [fst snd] in Sok, Slist, D1, D2. subst r.
  cbn [fst snd manager set_manager set_world enabled m_config world].
  split; [ reflexivity | ]. split; [ reflexivity | ]. split; [ reflexivity | ].
  split; [ | split; [ exact D1 | exact D2 ] ].
  rewrite Slist, Hl1. cbn [List.remove].
  destruct (Nat.eq_dec (next_handle (world s)) (next_handle (world s))) as [_|H];
    [ reflexivity | contradiction ].
Qed.

Lemma enable_disable_round_trip_witness :
  listening (world (snd (enable (fresh_system (fresh_world [] Sample.ticking)
                                   true (Some (Json templateConfig)) true true)))) = [ 0 ] /\
  listening (world (snd (disable (snd (enable
     (fresh_system (fresh_world [] Sample.ticking)
        true (Some (Json templateConfig)) true true)))))) = [].
Proof.
  destruct (enable_disable_round_trip
              (fresh_system (fresh_world [] Sample.ticking)
                 true (Some (Json templateConfig)) true true)
              templateConfig eq_refl eq_refl eq_refl templateConfig_valid eq_refl eq_refl)
    as [_ [_ [_ [_ [H1 [_ [_ [_ [_ [_ [H2 _]]]]]]]]]]].
  split; [ exact H1 | exact H2 ].
Defined.

(** X18.  With a valid file and a port that is taken, [enable] fails with
    the error of [listen]: the manager stays disabled, no listener is
    added and the environment is not touched; the catalog has been loaded
    into the manager and the proxy all the same. *)
Theorem enable_port_busy (s : System) (v : value) :
  enabled (manager s) = false ->
  workspace s = true ->
  configFile s = Some (Json v) ->
  accepts v = true ->
  port_free s = false ->
  let s1 := snd (enable s) in
  fst (enable s) = Throw "listen" /\
  isEnabled s1 = false /\
  m_config (manager s1) = Some v /\
  config (self (world s1)) = Some (asMockConfig v) /\
  listening (world s1) = listening (world s) /\
  env (world s1) = env (world s).
Proof.
  intros He Hws Hf Hv Hp. cbv zeta.
  rewrite (enable_loaded s v He Hws Hf Hv), Hp.
  unfold start. cbn. repeat split.
Qed.

Lemma enable_port_busy_witness :
  fst (enable (fresh_system (fresh_world [] Sample.ticking)
                 true (Some (Json templateConfig)) true false)) = Throw "listen" /\
  isEnabled (snd (enable (fresh_system (fresh_world [] Sample.ticking)
                            true (Some (Json templateConfig)) true false))) = false.
Proof.
  destruct (enable_port_busy
              (fresh_system (fresh_world [] Sample.ticking)
                 true (Some (Json templateConfig)) true false)
              templateConfig eq_refl eq_refl eq_refl templateConfig_valid eq_refl)
    as [H1 [H2 _]].
  split; [ exact H1 | exact H2 ].
Defined.

End ManagerFacts.

Section FreshWorkspace.
Import Str Js JsExtra Proxy Relay Validator Manager.

(** X19.  In a workspace without a configuration file, the first [enable]
    writes the template and marks the manager enabled, but loads nothing
    and starts no proxy.  The template is one the validator accepts: a
    [reloadConfig] then loads it into the manager and the proxy, still
    without any listener, and only [disable] followed by [enable] starts
    the proxy, with the template as its catalog. *)
Theorem fresh_workspace_template (s : System) :
  enabled (manager s) = false ->
  m_config (manager s) = None ->
  workspace s = true ->
  configFile s = None ->
  writable s = true ->
  port_free s = true ->
  listening (world s) = [] ->
  server (self (world s)) = None ->
  tasks (world s) = [] ->
  let s1 := snd (enable s) in
  let sr := snd (reloadConfig s1) in
  let s3 := snd (enable (snd (disable s1))) in
  configFile s1 = Some (Json templateConfig) /\
  isEnabled s1 = true /\
  m_config (manager s1) = None /\
  listening (world s1) = [] /\
  isEnabled sr = true /\
  m_config (manager sr) = Some templateConfig /\
  config (self (world sr)) = Some (asMockConfig templateConfig) /\
  listening (world sr) = [] /\
  fst (enable (snd (disable s1))) = Ok tt /\
  isEnabled s3 = true /\
  listening (world s3) = [ next_handle (world s) ] /\
  config (self (world s3)) = Some (asMockConfig templateConfig).
Proof.
  destruct s as [[mc en] w ws cf wr pf].
  cbn [enabled manager m_config workspace configFile writable port_free world].
  intros -> -> -> -> -> -> Hl Hs Ht. cbv zeta.
  set (s1 := {| manager := {| m_config := None; enabled := true |};
                world := w; workspace := true;
                configFile := Some (Json templateConfig);
                writable := true; port_free := true |}).
  assert (E1 : enable {| manager := {| m_config := None; enabled := false |};
                         world := w; workspace := true; configFile := None;
                         writable := true; port_free := true |} = (Ok tt, s1))
    by reflexivity.
  rewrite E1. cbn [snd].
  split; [ reflexivity | ]. split; [ reflexivity | ]. split; [ reflexivity | ].
  split; [ exact Hl | ].
  assert (ER : reloadConfig s1 =
               (Ok tt,
                set_world (set_self (with_config (Some (asMockConfig templateConfig))) w)
                  (set_manager {| m_config := Some templateConfig; enabled := true |} s1))).
  { unfold reloadConfig.
    rewrite (loadConfig_valid s1 templateConfig eq_refl eq_refl templateConfig_valid).
    reflexivity. }
  rewrite ER. cbn [snd].
  split; [ reflexivity | ]. split; [ reflexivity | ]. split; [ reflexivity | ].
  split; [ exact Hl | ].
  assert (ED : disable s1 =
               (Ok tt,
                set_manager {| m_config := None; enabled := false |}
                  (set_world (set_resolved (S (resolved w)) w) s1))).
  { unfold disable, stopProxy. cbn [manager s1 enabled negb world].
    rewrite (stop_stopped w Hs Ht). reflexivity. }
  rewrite ED. cbn [snd].
  rewrite (enable_loaded
             (set_manager {| m_config := None; enabled := false |}
                (set_world (set_resolved (S (resolved w)) w) s1))
             templateConfig eq_refl eq_refl eq_refl templateConfig_valid).
  unfold start. cbn [port_free set_manager set_world s1].
  cbn [fst snd isEnabled manager set_manager enabled world set_world].
  split; [ reflexivity | ]. split; [ reflexivity | ].
  split; [ cbn; rewrite Hl; reflexivity | reflexivity ].
Qed.

Lemma fresh_workspace_template_witness :
  configFile (snd (enable (fresh_system (fresh_world [] Sample.ticking) true None true true)))
  = Some (Json templateConfig) /\
  listening (world (snd (enable (fresh_system (fresh_world [] Sample.ticking)
                                   true None true true)))) = [].
Proof.
  destruct (fresh_workspace_template
              (fresh_system (fresh_world [] Sample.ticking) true None true true)
              eq_refl eq_refl eq_refl eq_refl eq_refl eq_refl eq_refl eq_refl eq_refl)
    as [H1 [_ [_ [H2 _]]]].
  split; [ exact H1 | exact H2 ].
Defined.

End FreshWorkspace.

(** ** What the validator reports *)

Section ValidatorReports.
Import Str Js JsExtra Validator ValidSpec.

Lemma unsupported_in_errors (config : value) (mismatch : bool) (name : string)
    (service : value) :
  truthy (prop config "services") = true ->
  In (name, service) (entries (prop config "services")) ->
  ~ In name SUPPORTED_SERVICES ->
  In (error ("Unsupported service: " ++ name) ("services." ++ name)
        ("Use one of: " ++ join ", " SUPPORTED_SERVICES))
     (errors_of config mismatch).
Proof.
  intros Htruthy Hin Hunsupported. unfold errors_of. rewrite Htruthy.
  apply in_or_app. right. apply in_or_app. right. apply in_or_app. right.
  apply in_or_app. left.
  unfold validateServices.
  rewrite (fold_left_accumulates _ validateServices_step _ []). cbn [app].
  apply in_flat_map. exists (name, service). split; [ exact Hin | ].
  cbn [fst snd].
  assert (Hn : includes_string SUPPORTED_SERVICES name = false).
  { destruct (includes_string SUPPORTED_SERVICES name) eqn:E; [ | reflexivity ].
    apply includes_string_In in E. contradiction. }
  rewrite Hn. cbn [negb app]. left. reflexivity.
Qed.

(** X14.  In a configuration that is an object, take an entry of a truthy
    [services] whose name is not a supported service.  Whenever the
    validator returns, its result is not valid and reports the entry with
    the message [Unsupported service: name] under the path
    [services.name].  The validator returns when the version member can
    be converted to a string, and throws when that member is truthy and
    its conversion throws, as for an object with a member [toString]. *)
Theorem unsupported_service_reported (config : value) (name : string) (service : value) :
  object_like config ->
  truthy (prop config "services") = true ->
  In (name, service) (entries (prop config "services")) ->
  ~ In name SUPPORTED_SERVICES ->
  (forall r,
      validate config = Ok r ->
      valid r = false /\
      In (error ("Unsupported service: " ++ name) ("services." ++ name)
            ("Use one of: " ++ join ", " SUPPORTED_SERVICES))
         (errors r)) /\
  (forall s, ToString (prop config "version") = Ok s -> exists r, validate config = Ok r) /\
  (truthy (prop config "version") = true ->
   forall e, ToString (prop config "version") = Throw e -> validate config = Throw e).
Proof.
  intros Hobj Htruthy Hin Hunsupported.
  rewrite (validate_object config Hobj). unfold version_mismatch.
  split; [ | split ].
  - intros r Hr.
    assert (Hm : exists mismatch,
               r = {| valid := (List.length (errors_of config mismatch) =? 0)%nat;
                      errors := errors_of config mismatch |}).
    { destruct (truthy (prop config "version")).
      - destruct (ToString (prop config "version")) as [t| |]; try discriminate Hr.
        injection Hr as <-. eexists. reflexivity.
      - injection Hr as <-. eexists. reflexivity. }
    destruct Hm as [mismatch ->]. cbn [valid errors].
    pose proof (unsupported_in_errors config mismatch name service
                  Htruthy Hin Hunsupported) as Hreported.
    split; [ | exact Hreported ].
    destruct (errors_of config mismatch); [ contradiction | reflexivity ].
  - intros t Ht. rewrite Ht.
    destruct (truthy (prop config "version")); eexists; reflexivity.
  - intros Hv e He. rewrite Hv, He. reflexivity.
Qed.

Lemma unsupported_service_reported_witness :
  accepts (VObj [ ("version", VStr "1.0"); ("services", VObj [ ("s4", VObj []) ]) ]) = false /\
  validate (VObj [ ("version", VObj [ ("toString", VNum 1) ]);
                   ("services", VObj [ ("zzz", VObj []) ]) ]) = Throw "TypeError".
Proof.
  split.
  - destruct (unsupported_service_reported
                (VObj [ ("version", VStr "1.0"); ("services", VObj [ ("s4", VObj []) ]) ])
                "s4" (VObj []))
      as [H1 [H2 _]].
    + left. eexists. reflexivity.
    + reflexivity.
    + left. reflexivity.
    + intros H. apply (proj2 (includes_string_In _ _)) in H. discriminate H.
    + destruct (H2 "1.0" eq_refl) as [r Hr]. destruct (H1 r Hr) as [Hv _].
      unfold accepts. rewrite Hr. exact Hv.
  - refine (proj2 (proj2 (unsupported_service_reported
                            (VObj [ ("version", VObj [ ("toString", VNum 1) ]);
                                    ("services", VObj [ ("zzz", VObj []) ]) ])
                            "zzz" (VObj []) _ eq_refl _ _)) eq_refl "TypeError" eq_refl).
    + left. eexists. reflexivity.
    + left. reflexivity.
    + intros H. apply (proj2 (includes_string_In _ _)) in H. discriminate H.
Defined.

End ValidatorReports.

(** ** The host patterns that decide *)

Section HostPatterns.
Import Str Js Proxy.

Lemma endsWith_split (lit : string) :
  forall s, endsWith s lit = true -> exists a, s = a ++ lit.
Proof.
  induction s as [|c s IH]; intros H.
  - cbn [endsWith] in H. rewrite orb_false_r in H. apply String.eqb_eq in H.
    exists EmptyString. exact H.
  - cbn [endsWith] in H. apply orb_true_iff in H as [H|H].
    + apply String.eqb_eq in H. exists EmptyString. exact H.
    + destruct (IH H) as [a ->]. exists (String c a). reflexivity.
Qed.

Lemma endsWith_longer (s x y : string) :
  endsWith s (x ++ y) = true -> endsWith s y = true.
Proof.
  intros H. destruct (endsWith_split _ _ H) as [a ->].
  rewrite <- append_assoc. apply endsWith_app.
Qed.

(** X20.  A host is intercepted exactly when its name, cut at the first
    colon, ends with [.amazonaws.com] or [.aws.amazon.com] or starts with
    [s3.], [dynamodb.], [lambda.], [sqs.] or [sns.]: the three last
    patterns of the list never decide. *)
Theorem isAwsRequest_deciding_patterns (hostname : string) :
  isAwsRequest hostname =
  let cleanHostname := hd EmptyString (split hostname ":") in
  endsWith cleanHostname ".amazonaws.com" ||
  endsWith cleanHostname ".aws.amazon.com" ||
  startsWith cleanHostname "s3." ||
  startsWith cleanHostname "dynamodb." ||
  startsWith cleanHostname "lambda." ||
  startsWith cleanHostname "sqs." ||
  startsWith cleanHostname "sns.".
Proof.
  unfold isAwsRequest. cbv zeta.
  set (c := hd EmptyString (split hostname ":")).
  cbn [awsPatterns existsb test].
  destruct (endsWith c ".amazonaws.com") eqn:E; [ reflexivity | ].
  assert (H1 : endsWith c "s3.amazonaws.com" = false).
  { destruct (endsWith c "s3.amazonaws.com") eqn:E1; [ | reflexivity ].
    rewrite (endsWith_longer c "s3" ".amazonaws.com" E1) in E. discriminate E. }
  assert (H2 : endsWith c "dynamodb.amazonaws.com" = false).
  { destruct (endsWith c "dynamodb.amazonaws.com") eqn:E1; [ | reflexivity ].
    rewrite (endsWith_longer c "dynamodb" ".amazonaws.com" E1) in E. discriminate E. }
  assert (H3 : endsWith c "lambda.amazonaws.com" = false).
  { destruct (endsWith c "lambda.amazonaws.com") eqn:E1; [ | reflexivity ].
    rewrite (endsWith_longer c "lambda" ".amazonaws.com" E1) in E. discriminate E. }
  rewrite H1, H2, H3. cbn [orb]. rewrite !orb_false_r.
  repeat rewrite <- orb_assoc. reflexivity.
Qed.

End HostPatterns.

(** ** The callers in the extension *)

Section ToggleCommand.
Import Str Js JsExtra Proxy Validator Manager Extension.

Lemma disable_outcome (s : System) :
  enabled (manager s) = true ->
  (awaits_connections (world s) = false ->
   fst (disable s) = Ok tt /\
   isEnabled (snd (disable s)) = false /\
   m_config (manager (snd (disable s))) = None) /\
  (awaits_connections (world s) = true ->
   fst (disable s) = Pending /\
   isEnabled (snd (disable s)) = true).
Proof.
  intros He. unfold disable, stopProxy. rewrite He. cbn [negb].
  rewrite (stop_eq (world s)).
  split; intros Ha; rewrite Ha; cbn [fst snd isEnabled manager set_world set_manager enabled];
    repeat split. exact He.
Qed.

Lemma enable_outcome (s : System) :
  enabled (manager s) = false ->
  (fst (enable s) = Ok tt /\ isEnabled (snd (enable s)) = true) \/
  (port_free s = false /\ fst (enable s) = Throw "listen" /\
   isEnabled (snd (enable s)) = false) \/
  (workspace s = true /\ configFile s = Some Unlocated /\
   fst (enable s) = Throw "TypeError" /\ snd (enable s) = s).
Proof.
  intros He. unfold enable. rewrite He.
  destruct (loadConfig_result s) as [_ [_ [Hp [Hen _]]]].
  destruct (loadConfig_outcome s) as [Ho Hsame].
  destruct (loadConfig s) as [[[]|e|] s1]; cbn [fst snd] in *.
  - unfold startProxy.
    destruct (m_config (manager s1)) as [c|]; [ | left; split; reflexivity ].
    rewrite Hp. unfold start. destruct (port_free s).
    + left. split; reflexivity.
    + right. left. split; [ reflexivity | ]. split; [ reflexivity | ].
      unfold isEnabled. cbn [snd manager set_world]. rewrite Hen. exact He.
  - right. right. rewrite (Hsame ltac:(discriminate)).
    destruct (configFile s) as [[v| |]|]; try discriminate Ho.
    destruct (workspace s); [ | discriminate Ho ].
    injection Ho as ->. repeat split.
  - exfalso. destruct (configFile s) as [[v| |]|]; try discriminate Ho.
    destruct (workspace s); discriminate Ho.
Qed.

(** [enable] leaves no connection of the proxy open when there was none:
    the server it starts is new. *)
Lemma enable_awaits (s : System) :
  enabled (manager s) = false ->
  awaits_connections (world s) = false ->
  awaits_connections (world (snd (enable s))) = false.
Proof.
  intros He Ha. unfold enable. rewrite He.
  destruct (loadConfig_result s) as [Hw _].
  destruct (loadConfig s) as [[[]|e|] s1]; cbn [fst snd] in *;
    [ | rewrite Hw; exact Ha | rewrite Hw; exact Ha ].
  unfold startProxy.
  destruct (m_config (manager s1)) as [c|].
  - pose proof (proj2 (start_no_connection (asMockConfig c) (port_free s1) (world s1))) as Hn.
    destruct (start (asMockConfig c) (port_free s1) (world s1)) as [[[]|e|] w];
      cbn [snd world set_world set_manager] in *; exact Hn.
  - cbn [snd world set_manager]. rewrite Hw. exact Ha.
Qed.

(** X21.  The toggle command on an enabled manager clears the enabled flag
    when no connection of the proxy is open; while one is open its
    [disable] stays pending and the flag stays set.  On a disabled
    manager it sets the flag unless [enable] throws, which it does when
    the proxy fails to listen or when the path of the configuration file
    cannot be computed; the manager then stays disabled.  With a free
    port, a path that can be computed and no connection open, two toggles
    bring the flag back. *)
Theorem toggle_flips_flag (s : System) :
  (isEnabled s = true -> awaits_connections (world s) = false ->
   fst (disable s) = Ok tt /\ isEnabled (toggle s) = false) /\
  (isEnabled s = true -> awaits_connections (world s) = true ->
   fst (disable s) = Pending /\ isEnabled (toggle s) = true) /\
  (isEnabled s = false ->
   (fst (enable s) = Ok tt /\ isEnabled (toggle s) = true) \/
   (port_free s = false /\ fst (enable s) = Throw "listen" /\ isEnabled (toggle s) = false) \/
   (workspace s = true /\ configFile s = Some Unlocated /\
    fst (enable s) = Throw "TypeError" /\ isEnabled (toggle s) = false)) /\
  (isEnabled s = false -> port_free s = true ->
   ~ (workspace s = true /\ configFile s = Some Unlocated) ->
   awaits_connections (world s) = false ->
   isEnabled (toggle s) = true /\ isEnabled (toggle (toggle s)) = false).
Proof.
  assert (Hon : forall x, isEnabled x = true -> awaits_connections (world x) = false ->
                          fst (disable x) = Ok tt /\ isEnabled (toggle x) = false).
  { intros x H Ha. unfold toggle. rewrite H.
    destruct (proj1 (disable_outcome x H) Ha) as [Hok [Hd _]]. split; assumption. }
  split; [ exact (Hon s) | ]. split; [ | split ].
  - intros H Ha. unfold toggle. rewrite H.
    exact (proj2 (disable_outcome s H) Ha).
  - intros H. unfold toggle. rewrite H.
    destruct (enable_outcome s H) as [[Hok He]|[[Hp [Ht He]]|[Hw [Hf [Ht Hs]]]]].
    + left. split; assumption.
    + right. left. split; [ exact Hp | split; [ exact Ht | exact He ] ].
    + right. right. split; [ exact Hw | ]. split; [ exact Hf | ]. split; [ exact Ht | ].
      rewrite Hs. exact H.
  - intros H Hp Hpath Ha.
    assert (H1 : isEnabled (toggle s) = true).
    { unfold toggle. rewrite H.
      destruct (enable_outcome s H) as [[_ He]|[[Hp' _]|[Hw [Hf _]]]];
        [ exact He | congruence | exfalso; apply Hpath; split; assumption ]. }
    split; [ exact H1 | ].
    apply Hon; [ exact H1 | ].
    unfold toggle. rewrite H. apply enable_awaits; assumption.
Qed.

Lemma toggle_flips_flag_witness :
  isEnabled (toggle (fresh_system (fresh_world [] Sample.ticking)
                       true (Some (Json templateConfig)) true true)) = true /\
  isEnabled (toggle (toggle (fresh_system (fresh_world [] Sample.ticking)
                               true (Some (Json templateConfig)) true true))) = false.
Proof.
  refine (proj2 (proj2 (proj2 (toggle_flips_flag
                         (fresh_system (fresh_world [] Sample.ticking)
                            true (Some (Json templateConfig)) true true))))
           eq_refl eq_refl _ eq_refl).
  intros [_ H]. discriminate H.
Defined.

End ToggleCommand.

Section Diagnostics.
Import Str Js JsExtra Validator ValidSpec Manager Extension.

Lemma fold_left_Forall {A E : Type} (P : E -> Prop) (step : list E -> A -> list E) :
  (forall errs x, Forall P errs -> Forall P (step errs x)) ->
  forall l errs, Forall P errs -> Forall P (fold_left step l errs).
Proof.
  intros Hstep. induction l as [|x l IH]; intros errs H; [ exact H | ].
  cbn [fold_left]. apply IH. apply Hstep. exact H.
Qed.

Lemma push_reportable (errs : list ValidationError) (m p : string) (c : ascii) (t : string) :
  Forall reportable errs ->
  Forall reportable (errs ++ [ error m p (String c t) ])%list.
Proof.
  intros H. apply Forall_app. split; [ exact H | ].
  constructor; [ | constructor ].
  split; [ reflexivity | exists c, t; reflexivity ].
Qed.

Lemma validateS3Config_reportable (name : string) (config : value) (errs : list ValidationError) :
  Forall reportable errs -> Forall reportable (validateS3Config name config errs).
Proof.
  intros H. unfold validateS3Config.
  destruct (truthy (prop config "buckets") && _); [ | exact H ].
  apply fold_left_Forall; [ | exact H ].
  intros errs' [bucketName bucket] H'. cbn [fst snd].
  destruct (not_an_object bucket); [ apply push_reportable; exact H' | ].
  destruct (truthy (prop bucket "objects") && _); [ | exact H' ].
  apply fold_left_Forall; [ | exact H' ].
  intros errs'' [objectKey object] H''. cbn [fst snd].
  destruct (not_an_object object); [ apply push_reportable; exact H'' | ].
  destruct (negb (truthy (prop object "content"))); [ apply push_reportable; exact H'' | ].
  exact H''.
Qed.

Lemma validateDynamoDBConfig_reportable
    (name : string) (config : value) (errs : list ValidationError) :
  Forall reportable errs -> Forall reportable (validateDynamoDBConfig name config errs).
Proof.
  intros H. unfold validateDynamoDBConfig.
  destruct (truthy (prop config "tables") && _); [ | exact H ].
  apply fold_left_Forall; [ | exact H ].
  intros errs' [tableName table] H'. cbn [fst snd].
  destruct (not_an_object table); [ apply push_reportable; exact H' | ].
  destruct (truthy (prop table "items") && _); [ apply push_reportable; exact H' | exact H' ].
Qed.

Lemma validateLambdaConfig_reportable
    (name : string) (config : value) (errs : list ValidationError) :
  Forall reportable errs -> Forall reportable (validateLambdaConfig name config errs).
Proof.
  intros H. unfold validateLambdaConfig.
  destruct (truthy (prop config "functions") && _); [ | exact H ].
  apply fold_left_Forall; [ | exact H ].
  intros errs' [functionName function] H'. cbn [fst snd].
  destruct (not_an_object function); [ apply push_reportable; exact H' | ].
  destruct (truthy (prop function "response") && _);
    [ apply push_reportable; exact H' | exact H' ].
Qed.

Lemma validateSQSConfig_reportable
    (name : string) (config : value) (errs : list ValidationError) :
  Forall reportable errs -> Forall reportable (validateSQSConfig name config errs).
Proof.
  intros H. unfold validateSQSConfig.
  destruct (truthy (prop config "queues") && _); [ | exact H ].
  apply fold_left_Forall; [ | exact H ].
  intros errs' [queueName queue] H'. cbn [fst snd].
  destruct (not_an_object queue); [ apply push_reportable; exact H' | exact H' ].
Qed.

Lemma validateSNSConfig_reportable
    (name : string) (config : value) (errs : list ValidationError) :
  Forall reportable errs -> Forall reportable (validateSNSConfig name config errs).
Proof.
  intros H. unfold validateSNSConfig.
  destruct (truthy (prop config "topics") && _); [ | exact H ].
  apply fold_left_Forall; [ | exact H ].
  intros errs' [topicName topic] H'. cbn [fst snd].
  destruct (not_an_object topic); [ apply push_reportable; exact H' | exact H' ].
Qed.

Lemma validateGenericServiceConfig_reportable
    (name : string) (config : value) (errs : list ValidationError) :
  Forall reportable errs -> Forall reportable (validateGenericServiceConfig name config errs).
Proof.
  intros H. unfold validateGenericServiceConfig.
  destruct (negb (is_undefined (prop config "port")) && _);
    [ apply push_reportable; exact H | exact H ].
Qed.

Lemma validateServices_reportable (services : value) (errs : list ValidationError) :
  Forall reportable errs -> Forall reportable (validateServices services errs).
Proof.
  intros H. unfold validateServices. apply fold_left_Forall; [ | exact H ].
  intros errs' [name service] H'. cbn [fst snd].
  destruct (negb (includes_string SUPPORTED_SERVICES name)).
  { apply Forall_app. split; [ exact H' | ].
    constructor; [ | constructor ].
    split; [ reflexivity | eexists; eexists; reflexivity ]. }
  destruct (not_an_object service); [ apply push_reportable; exact H' | ].
  destruct (name =? "s3"); [ apply validateS3Config_reportable; exact H' | ].
  destruct (name =? "dynamodb"); [ apply validateDynamoDBConfig_reportable; exact H' | ].
  destruct (name =? "lambda"); [ apply validateLambdaConfig_reportable; exact H' | ].
  destruct (name =? "sqs"); [ apply validateSQSConfig_reportable; exact H' | ].
  destruct (name =? "sns"); [ apply validateSNSConfig_reportable; exact H' | ].
  apply validateGenericServiceConfig_reportable. exact H'.
Qed.

Lemma validateGlobalConfig_reportable (global : value) (errs : list ValidationError) :
  Forall reportable errs -> Forall reportable (validateGlobalConfig global errs).
Proof.
  intros H. unfold validateGlobalConfig.
  destruct (negb (is_undefined (prop global "port")) && _);
    destruct (negb (is_undefined (prop global "logLevel")) && _);
    destruct (negb (is_undefined (prop global "delayResponses")) && _);
    repeat (apply push_reportable); exact H.
Qed.

Lemma errors_of_reportable (config : value) (mismatch : bool) :
  Forall reportable (errors_of config mismatch).
Proof.
  assert (H0 : Forall reportable ([] : list ValidationError)) by constructor.
  unfold errors_of. repeat (apply Forall_app; split).
  - destruct (negb (truthy (prop config "version")) || _); [ | exact H0 ].
    apply (push_reportable [] _ _ _ _ H0).
  - destruct (negb (truthy (prop config "services")) || _); [ | exact H0 ].
    apply (push_reportable [] _ _ _ _ H0).
  - destruct mismatch; [ | exact H0 ].
    apply (push_reportable [] _ _ _ _ H0).
  - destruct (truthy (prop config "services"));
      [ apply validateServices_reportable; exact H0 | exact H0 ].
  - destruct (truthy (prop config "global"));
      [ apply validateGlobalConfig_reportable; exact H0 | exact H0 ].
Qed.

(** Every result of [validate] is either the single error of a value that
    is no object, or the errors of the checks. *)
Lemma validate_result (config : value) (r : ValidationResult) :
  validate config = Ok r ->
  r = {| valid := false;
         errors :=
           [ error "Configuration must be a valid JSON object" EmptyString
               "Ensure the file contains valid JSON syntax" ] |} \/
  exists mismatch,
    r = {| valid := (List.length (errors_of config mismatch) =? 0)%nat;
           errors := errors_of config mismatch |}.
Proof.
  intros Hr.
  destruct (negb (truthy config) || negb (typeof config =? "object")) eqn:E.
  - left. unfold validate in Hr. rewrite E in Hr. injection Hr as <-. reflexivity.
  - right. apply not_object_guard in E. rewrite (validate_object config E) in Hr.
    destruct (version_mismatch (prop config "version")) as [mismatch| |];
      try discriminate Hr.
    injection Hr as <-. exists mismatch. reflexivity.
Qed.

Lemma validate_reportable (config : value) (r : ValidationResult) :
  validate config = Ok r -> Forall reportable (errors r).
Proof.
  intros Hr. destruct (validate_result config r Hr) as [->|[mismatch ->]]; cbn [errors].
  - constructor; [ | constructor ].
    split; [ reflexivity | eexists; eexists; reflexivity ].
  - apply errors_of_reportable.
Qed.

Lemma valid_iff_no_errors (config : value) (r : ValidationResult) :
  validate config = Ok r -> (valid r = true <-> errors r = []).
Proof.
  intros Hr. destruct (validate_result config r Hr) as [->|[mismatch ->]];
    cbn [valid errors].
  - split; discriminate.
  - apply length_zero.
Qed.

(** X22.  The diagnostics set for a configuration document.  There is none
    exactly when the text parses and the validator accepts it.  When the
    text parses and the validator returns, there is one diagnostic per
    validation error, in order and with its message, and each carries a
    quick fix.  When the text does not parse or the validator throws,
    there is the single diagnostic of a syntax error, without a quick
    fix.  Every diagnostic has severity Error. *)
Theorem diagnostics_of_document (document : File) :
  (validateConfigurationFile document = [] <->
   exists config, document = Json config /\ accepts config = true) /\
  Forall (fun d => d_severity d = Error) (validateConfigurationFile document) /\
  (forall config r,
      document = Json config ->
      validate config = Ok r ->
      map d_message (validateConfigurationFile document) = map message (errors r) /\
      Forall (fun d => d_code d <> None) (validateConfigurationFile document)) /\
  ((forall config r, document = Json config -> validate config <> Ok r) ->
   validateConfigurationFile document = [ syntaxDiagnostic ] /\
   d_code syntaxDiagnostic = None).
Proof.
  assert (Hsev : forall l, Forall reportable l ->
                           Forall (fun d => d_severity d = Error) (map diagnostic_of l) /\
                           Forall (fun d => d_code d <> None) (map diagnostic_of l)).
  { induction l as [|e l IH]; intros H; [ split; constructor | ].
    inversion H as [|? ? [Hs [c [t Hg]]] Hl]; subst.
    destruct (IH Hl) as [IH1 IH2]. cbn [map]. split; constructor; try assumption.
    - unfold diagnostic_of. cbn [d_severity]. rewrite Hs. reflexivity.
    - unfold diagnostic_of. cbn [d_code]. rewrite Hg. discriminate. }
  assert (Hsyntax : Forall (fun d => d_severity d = Error) [ syntaxDiagnostic ]).
  { constructor; [ reflexivity | constructor ]. }
  destruct document as [config| |]; cbn [validateConfigurationFile].
  - unfold accepts.
    destruct (validate config) as [r| |] eqn:Hr.
    + destruct (Hsev _ (validate_reportable config r Hr)) as [H1 H2].
      split; [ | split; [ exact H1 | split ] ].
      * split.
        -- intros H. exists config. split; [ reflexivity | ]. rewrite Hr.
           apply (valid_iff_no_errors config r Hr). apply map_eq_nil in H. exact H.
        -- intros [c [Hc Hv]]. injection Hc as <-. rewrite Hr in Hv.
           apply (valid_iff_no_errors config r Hr) in Hv. rewrite Hv. reflexivity.
      * intros c r' Hc Hr'. injection Hc as <-. rewrite Hr in Hr'. injection Hr' as <-.
        split; [ | exact H2 ]. rewrite map_map. reflexivity.
      * intros H. exfalso. exact (H config r eq_refl Hr).
    + split; [ | split; [ exact Hsyntax | split ] ].
      * split; [ discriminate | ].
        intros [c [Hc Hv]]. injection Hc as <-. rewrite Hr in Hv. discriminate Hv.
      * intros c r Hc Hr'. injection Hc as <-. rewrite Hr in Hr'. discriminate Hr'.
      * intros _. split; reflexivity.
    + split; [ | split; [ exact Hsyntax | split ] ].
      * split; [ discriminate | ].
        intros [c [Hc Hv]]. injection Hc as <-. rewrite Hr in Hv. discriminate Hv.
      * intros c r Hc Hr'. injection Hc as <-. rewrite Hr in Hr'. discriminate Hr'.
      * intros _. split; reflexivity.
  - split; [ | split; [ exact Hsyntax | split ] ].
    + split; [ discriminate | intros [c [Hc _]]; discriminate Hc ].
    + intros c r Hc. discriminate Hc.
    + intros _. split; reflexivity.
  - split; [ | split; [ exact Hsyntax | split ] ].
    + split; [ discriminate | intros [c [Hc _]]; discriminate Hc ].
    + intros c r Hc. discriminate Hc.
    + intros _. split; reflexivity.
Qed.

Lemma diagnostics_of_document_witness :
  validateConfigurationFile (Json templateConfig) = [] /\
  validateConfigurationFile
    (Json (VObj [ ("version", VObj [ ("toString", VNum 1) ]);
                  ("services", VObj [ ("zzz", VObj []) ]) ])) = [ syntaxDiagnostic ].
Proof.
  split.
  - apply (proj1 (diagnostics_of_document (Json templateConfig))).
    exists templateConfig. split; [ reflexivity | vm_compute; reflexivity ].
  - apply (proj2 (proj2 (proj2 (diagnostics_of_document
             (Json (VObj [ ("version", VObj [ ("toString", VNum 1) ]);
                           ("services", VObj [ ("zzz", VObj []) ]) ])))))).
    intros config r Hc. injection Hc as <-. discriminate.
Defined.

End Diagnostics.
